(** * Ahupuaa GIS importer: the GeoJSON to DynamoDB upload script

    A shallow embedding of [upload_geojson_to_dynamodb.py] and the
    properties of its record builder, coordinate decimation, batch writer
    and streaming loop.

    - Python values are embedded as the inductive [pyval]; a [str] is the
      list of its code points, a [dict] the list of its entries in insertion
      order.
    - A [float] is an IEEE binary64 value of the standard library's
      [spec_float], with the library's correctly rounded operations at
      precision 53 and maximal exponent 1024.
    - Exceptions are the [Raise] results of a small error monad; a [try]
      block is a match on the result.
    - What the script calls in its libraries (json, hashlib, geohash2) and
      the interpreter's number formatting are the fields of the class
      [Runtime]; the statements hold for every instance.
    - The store is a function from the number of the call, of the group and
      of the attempt to the response of [batch_write_item]; the sleeps
      between attempts and the log lines are left out. *)

From Stdlib Require Import ZArith NArith List String Ascii Bool Lia.
From Stdlib Require Import DecimalString DecimalZ.
From Stdlib Require Import Floats.SpecFloat.
Import ListNotations.

Local Open Scope Z_scope.

(** ** Python values *)

Module Py.

(** The exceptions the script can meet. [LibraryError] stands for any
    exception raised inside a library call (json, geohash2). *)
Inductive exn : Type :=
| AttributeError
| KeyError
| IndexError
| TypeError
| ValueError
| OverflowError
| ZeroDivisionError
| InvalidOperation
| LibraryError.

Inductive result (A : Type) : Type :=
| Ok (a : A)
| Raise (e : exn).

Arguments Ok {A} a.
Arguments Raise {A} e.

Definition bind {A B : Type} (c : result A) (k : A -> result B) : result B :=
  match c with
  | Ok a => k a
  | Raise e => Raise e
  end.

(** [try: c except Exception: h] *)
Definition try_except {A : Type} (c : result A) (h : A) : A :=
  match c with
  | Ok a => a
  | Raise _ => h
  end.

(** A [str] is the sequence of its Unicode code points. *)
Definition pystr : Type := list N.

Definition lit (s : string) : pystr :=
  List.map N_of_ascii (list_ascii_of_string s).

Fixpoint pystr_eqb (a b : pystr) : bool :=
  match a, b with
  | [], [] => true
  | x :: a', y :: b' => N.eqb x y && pystr_eqb a' b'
  | _, _ => false
  end.

(** [decimal.Decimal]: sign, coefficient and exponent, or a special value. *)
Inductive decimal : Type :=
| DecFinite (neg : bool) (coeff : N) (exp : Z)
| DecInf (neg : bool)
| DecNaN.

#[warnings="-register-all"]
Inductive pyval : Type :=
| VNone
| VBool (b : bool)
| VInt (z : Z)
| VFloat (f : spec_float)
| VDecimal (d : decimal)
| VStr (s : pystr)
| VList (l : list pyval)
| VDict (d : list (pystr * pyval)).

(** Binary64. *)
Definition prec : Z := 53.
Definition emax : Z := 1024.

Definition float_div : spec_float -> spec_float -> spec_float := SFdiv prec emax.
Definition float_add : spec_float -> spec_float -> spec_float := SFadd prec emax.
Definition float_sub : spec_float -> spec_float -> spec_float := SFsub prec emax.

(** [float(n)] for an [int] n: correctly rounded, [OverflowError] when the
    integer is too large for a float. *)
Definition float_of_int (z : Z) : result spec_float :=
  match binary_normalize prec emax z 0 false with
  | S754_infinity _ => Raise OverflowError
  | f => Ok f
  end.

(** An [int] literal that is used where a float is expected. *)
Definition float_lit (z : Z) : spec_float := binary_normalize prec emax z 0 false.

(** [float(d)] for a [Decimal] d: the nearest binary64 value of
    coeff * 10^exp, an infinity on overflow. *)
Definition float_of_decimal (d : decimal) : spec_float :=
  match d with
  | DecNaN => S754_nan
  | DecInf s => S754_infinity s
  | DecFinite s c e =>
      match c with
      | N0 => S754_zero s
      | Npos p =>
          match e with
          | Zneg k =>
              let '(mz, ez, lz) :=
                SFdiv_core_binary prec emax (Zpos p) 0 (Z.pow_pos 10 k) 0 in
              binary_round_aux prec emax s mz ez lz
          | _ => binary_round prec emax s (p * Z.to_pos (10 ^ e))%positive 0
          end
      end
  end.

(** [int(x)] for a float x: truncation toward zero. *)
Definition int_of_float (f : spec_float) : result Z :=
  match f with
  | S754_nan => Raise ValueError
  | S754_infinity _ => Raise OverflowError
  | S754_zero _ => Ok 0
  | S754_finite s m e =>
      let a := match e with
               | Zneg k => Z.shiftr (Zpos m) (Zpos k)
               | _ => Zpos m * 2 ^ e
               end in
      Ok (if s then - a else a)
  end.

Definition float_is_zero (f : spec_float) : bool :=
  match f with
  | S754_zero _ => true
  | _ => false
  end.

(** [x / y] on floats: division by a zero raises. *)
Definition truediv (x y : spec_float) : result spec_float :=
  if float_is_zero y then Raise ZeroDivisionError else Ok (float_div x y).

(** [isinstance(x, (int, float, Decimal))]; [bool] is a subclass of [int]. *)
Definition is_number (v : pyval) : bool :=
  match v with
  | VBool _ | VInt _ | VFloat _ | VDecimal _ => true
  | _ => false
  end.

(** Truth value of an object. *)
Definition truthy (v : pyval) : bool :=
  match v with
  | VNone => false
  | VBool b => b
  | VInt z => negb (z =? 0)
  | VFloat f => negb (float_is_zero f)
  | VDecimal (DecFinite _ 0%N _) => false
  | VDecimal _ => true
  | VStr s => negb (Nat.eqb (List.length s) 0)
  | VList l => negb (Nat.eqb (List.length l) 0)
  | VDict d => negb (Nat.eqb (List.length d) 0)
  end.

(** A dict keeps its entries in insertion order; keys are [str]. *)
Fixpoint lookup {A : Type} (k : pystr) (d : list (pystr * A)) : option A :=
  match d with
  | [] => None
  | (k', v) :: d' => if pystr_eqb k k' then Some v else lookup k d'
  end.

(** [d\[k\] = v]: overwrite in place, or append. *)
Fixpoint store {A : Type} (k : pystr) (v : A) (d : list (pystr * A))
  : list (pystr * A) :=
  match d with
  | [] => [(k, v)]
  | (k', v') :: d' =>
      if pystr_eqb k k' then (k', v) :: d' else (k', v') :: store k v d'
  end.

(** [o.get(k, default)] *)
Definition get (o : pyval) (k : pystr) (default : pyval) : result pyval :=
  match o with
  | VDict d =>
      Ok (match lookup k d with
          | Some v => v
          | None => default
          end)
  | _ => Raise AttributeError
  end.

(** [o\[k\]] for a [str] key k *)
Definition getitem (o : pyval) (k : pystr) : result pyval :=
  match o with
  | VDict d =>
      match lookup k d with
      | Some v => Ok v
      | None => Raise KeyError
      end
  | _ => Raise TypeError
  end.

(** [o\[i\]] for an [int] index i *)
Definition getindex (o : pyval) (i : Z) : result pyval :=
  match o with
  | VList l =>
      let n := Z.of_nat (List.length l) in
      let j := if i <? 0 then i + n else i in
      if (0 <=? j) && (j <? n)
      then match nth_error l (Z.to_nat j) with
           | Some v => Ok v
           | None => Raise IndexError
           end
      else Raise IndexError
  | VStr s =>
      let n := Z.of_nat (List.length s) in
      let j := if i <? 0 then i + n else i in
      if (0 <=? j) && (j <? n)
      then match nth_error s (Z.to_nat j) with
           | Some c => Ok (VStr [c])
           | None => Raise IndexError
           end
      else Raise IndexError
  | VDict _ => Raise KeyError
  | _ => Raise TypeError
  end.

Fixpoint is_prefix (p s : pystr) : bool :=
  match p, s with
  | [], _ => true
  | x :: p', y :: s' => N.eqb x y && is_prefix p' s'
  | _ :: _, [] => false
  end.

Fixpoint is_substring (p s : pystr) : bool :=
  is_prefix p s ||
  match s with
  | [] => false
  | _ :: s' => is_substring p s'
  end.

(** [k in o] for a [str] k *)
Definition contains (k : pystr) (o : pyval) : result bool :=
  match o with
  | VDict d =>
      Ok (match lookup k d with
          | Some _ => true
          | None => false
          end)
  | VList l =>
      Ok (existsb (fun x => match x with
                            | VStr s => pystr_eqb s k
                            | _ => false
                            end) l)
  | VStr s => Ok (is_substring k s)
  | _ => Raise TypeError
  end.

(** [o\[:n\]] *)
Definition slice_to (o : pyval) (n : nat) : result pyval :=
  match o with
  | VStr s => Ok (VStr (firstn n s))
  | VList l => Ok (VList (firstn n l))
  | _ => Raise TypeError
  end.

Definition str_of_int (z : Z) : pystr := lit (NilZero.string_of_int (Z.to_int z)).

(** [str.isspace] of one character. *)
Definition is_space (c : N) : bool :=
  let c := Z.of_N c in
  ((9 <=? c) && (c <=? 13)) || ((28 <=? c) && (c <=? 32))
  || (c =? 133) || (c =? 160) || (c =? 5760)
  || ((8192 <=? c) && (c <=? 8202)) || (c =? 8232) || (c =? 8233)
  || (c =? 8239) || (c =? 8287) || (c =? 12288).

Fixpoint lstrip (s : pystr) : pystr :=
  match s with
  | c :: s' => if is_space c then lstrip s' else s
  | [] => []
  end.

(** [s.strip()] *)
Definition strip (s : pystr) : pystr := rev (lstrip (rev (lstrip s))).

(** [o.strip()]: only a [str] has the method. *)
Definition call_strip (o : pyval) : result pystr :=
  match o with
  | VStr s => Ok (strip s)
  | _ => Raise AttributeError
  end.

(** The items a [for] loop or a comprehension draws from an object. *)
Definition iterate (o : pyval) : result (list pyval) :=
  match o with
  | VList l => Ok l
  | VStr s => Ok (List.map (fun c => VStr [c]) s)
  | VDict d => Ok (List.map (fun kv => VStr (fst kv)) d)
  | _ => Raise TypeError
  end.

(** [v == s] for a [str] s *)
Definition eq_str (v : pyval) (s : pystr) : bool :=
  match v with
  | VStr t => pystr_eqb t s
  | _ => false
  end.

(** [max(a, b)] and [min(a, b)] on floats: the first argument unless the
    second compares strictly greater (smaller). *)
Definition float_max (a b : spec_float) : spec_float :=
  if SFltb a b then b else a.

Definition float_min (a b : spec_float) : spec_float :=
  if SFltb b a then b else a.

(** What the script uses from its libraries and from the interpreter's
    formatting routines. *)
Class Runtime : Type := {
  (** [float(s)] for a [str] s, [None] for [ValueError] *)
  float_of_str : pystr -> option spec_float;
  (** [str(v)] for a float, a Decimal, a list or a dict *)
  repr : pyval -> pystr;
  (** [Decimal(str(x))] for a float x *)
  decimal_of_float_str : spec_float -> decimal;
  (** [Decimal(s)] for a [str] s, [None] for [InvalidOperation] *)
  decimal_of_str : pystr -> option decimal;
  (** [json.dumps(v, sort_keys=b, default=custom_json_encoder)] *)
  json_dumps : bool -> pyval -> result pystr;
  (** [hashlib.md5(s.encode()).hexdigest()] *)
  md5_hexdigest : pystr -> pystr;
  (** [geohash2.encode(lat, lng, precision=7)] *)
  geohash_encode : spec_float -> spec_float -> result pystr
}.

Section WithRuntime.
Context {rt : Runtime}.

(** [str(v)], also the formatting of [{v}] in an f-string *)
Definition str (v : pyval) : pystr :=
  match v with
  | VStr s => s
  | VInt z => str_of_int z
  | VBool true => lit "True"
  | VBool false => lit "False"
  | VNone => lit "None"
  | _ => repr v
  end.

(** [float(v)] *)
Definition float (v : pyval) : result spec_float :=
  match v with
  | VFloat f => Ok f
  | VInt z => float_of_int z
  | VBool b => Ok (float_lit (if b then 1 else 0))
  | VDecimal d => Ok (float_of_decimal d)
  | VStr s =>
      match float_of_str s with
      | Some f => Ok f
      | None => Raise ValueError
      end
  | _ => Raise TypeError
  end.

(** [Decimal(str(v))] *)
Definition decimal_of (v : pyval) : result decimal :=
  match v with
  | VDecimal d => Ok d
  | VInt z => Ok (DecFinite (z <? 0) (Z.abs_N z) 0)
  | VFloat f => Ok (decimal_of_float_str f)
  | VStr s =>
      match decimal_of_str s with
      | Some d => Ok d
      | None => Raise InvalidOperation
      end
  | _ => Raise InvalidOperation
  end.

End WithRuntime.

End Py.

Import Py.

Declare Scope py_scope.
Notation "x <- c ;; k" := (bind c (fun x => k))
  (at level 61, c at next level, right associativity) : py_scope.
Local Open Scope py_scope.

(** ** Configuration *)

Definition BATCH_SIZE : nat := 25.
Definition MAX_RETRIES : nat := 10.

(** 0.01, 0.005 and 0.03 as binary64 values *)
Definition SIMPLIFIED_COORDS_FACTOR : spec_float :=
  S754_finite false 5764607523034235 (-59).
Definition factor_0_005 : spec_float := S754_finite false 5764607523034235 (-60).
Definition factor_0_03 : spec_float := S754_finite false 8646911284551352 (-58).

(** ** Geometry utilities *)

(** [l\[::step\]] from index [i] on: the elements whose index is a
    multiple of [step]. *)
Fixpoint every_nth {A : Type} (step i : Z) (l : list A) : list A :=
  match l with
  | [] => []
  | x :: t =>
      if i mod step =? 0
      then x :: every_nth step (i + 1) t
      else every_nth step (i + 1) t
  end.

(** [l\[1:-1:step\]] *)
Definition slice_inner {A : Type} (l : list A) (step : Z) : list A :=
  every_nth step 0 (removelast (tl l)).

(** [step = max(1, int(1/factor))] *)
Definition stride (factor : spec_float) : result Z :=
  q <- truediv (float_lit 1) factor ;;
  n <- int_of_float q ;;
  Ok (Z.max 1 n).

Fixpoint simplify_coordinates (coordinates : pyval) (factor : spec_float)
  : result pyval :=
  match coordinates with
  | VList l =>
      if forallb is_number l then Ok coordinates
      else
        let nested :=
          (fix each (cs : list pyval) : result (list pyval) :=
             match cs with
             | [] => Ok []
             | c :: cs' =>
                 c' <- simplify_coordinates c factor ;;
                 r <- each cs' ;;
                 Ok (c' :: r)
             end) in
        if (100 <? List.length l)%nat then
          step <- stride factor ;;
          if (2 <? List.length l)%nat then
            match l with
            | first :: _ =>
                Ok (VList ([first] ++ slice_inner l step ++ [last l first]))
            | [] => Ok (VList [])
            end
          else
            r <- nested l ;; Ok (VList r)
        else
          r <- nested l ;; Ok (VList r)
  | _ => Ok coordinates
  end.

(** [a / b] rounded to the nearest integer, ties to the even one *)
Definition div_half_even (a b : Z) : Z :=
  let q := a / b in
  let r := a mod b in
  match 2 * r ?= b with
  | Lt => q
  | Gt => q + 1
  | Eq => if Z.even q then q else q + 1
  end.

(** Drops up to [k] trailing zero digits: [rstrip('0').rstrip('.')] on a
    numeral with [k] decimals left. *)
Fixpoint trim_zeros (k : nat) (n exp : Z) : Z * Z :=
  match k with
  | O => (n, exp)
  | S k' => if n mod 10 =? 0 then trim_zeros k' (n / 10) (exp + 1) else (n, exp)
  end.

(** [Decimal(f"{obj:.10f}".rstrip('0').rstrip('.') if obj != 0 else '0')] *)
Definition decimal_10f (obj : spec_float) : decimal :=
  match obj with
  | S754_zero _ => DecFinite false 0 0
  | S754_nan => DecNaN
  | S754_infinity s => DecInf s
  | S754_finite s m e =>
      let scaled :=
        match e with
        | Zneg k => div_half_even (Zpos m * 10 ^ 10) (Z.pow_pos 2 k)
        | _ => Zpos m * 2 ^ e * 10 ^ 10
        end in
      let '(n, exp) := trim_zeros 10 scaled (-10) in
      DecFinite s (Z.to_N n) exp
  end.

Fixpoint replace_floats (obj : pyval) : pyval :=
  match obj with
  | VList l => VList (List.map replace_floats l)
  | VDict d => VDict (List.map (fun kv => (fst kv, replace_floats (snd kv))) d)
  | VFloat f => VDecimal (decimal_10f f)
  | _ => obj
  end.

(** ** Hierarchical sort key *)

(** [x or "Unknown"] *)
Definition or_unknown (x : pyval) : pyval :=
  if truthy x then x else VStr (lit "Unknown").

Definition format_hierarchical_key (mokupuni moku : pyval) : result pystr :=
  mokupuni <- call_strip (or_unknown mokupuni) ;;
  moku <- call_strip (or_unknown moku) ;;
  Ok (lit "MOKUPUNI#" ++ mokupuni ++ lit "#MOKU#" ++ moku).

(** ** Batch writer *)

Module BatchWriter.

(** What one [batch_write_item] call does: it returns with the list under
    [UnprocessedItems] for the table, or it raises. *)
Inductive response : Type :=
| Unprocessed (items : list pyval)
| Failure.

(** The store as one group sees it: the response to the attempt with the
    given number (from 0) and submitted items. *)
Definition store : Type := nat -> list pyval -> response.

(** The [while] loop of [process_batch]; [fuel] is [max_retries - retries]
    and [attempts] counts the calls issued so far. *)
Fixpoint retry_loop (db : store) (fuel attempts : nat)
  (items_to_process : list pyval) : bool * nat :=
  match items_to_process with
  | [] => (true, attempts)
  | _ :: _ =>
      match fuel with
      | O => (false, attempts)
      | S fuel' =>
          match db attempts items_to_process with
          | Unprocessed [] => (true, S attempts)
          | Unprocessed (u :: us) => retry_loop db fuel' (S attempts) (u :: us)
          | Failure => retry_loop db fuel' (S attempts) items_to_process
          end
      end
  end.

(** The group's outcome and the number of write attempts it issued. *)
Definition process_batch (db : store) (max_retries : nat) (batch : list pyval)
  : bool * nat :=
  retry_loop db max_retries 0 batch.

(** [\[batch_items\[i:i+BATCH_SIZE\] for i in range(0, len(batch_items), BATCH_SIZE)\]] *)
Definition split_batches (batch_items : list pyval) : list (list pyval) :=
  List.map (fun k => firstn BATCH_SIZE (skipn (k * BATCH_SIZE) batch_items))
    (seq 0 ((List.length batch_items + BATCH_SIZE - 1) / BATCH_SIZE)).

(** [executor.map(process_batch, batches)]: group number [g] talks to the
    store through [dbs g]. *)
Definition group_outcomes (dbs : nat -> store) (max_retries : nat)
  (batch_items : list pyval) : list (bool * nat) :=
  List.map (fun gb => process_batch (dbs (fst gb)) max_retries (snd gb))
    (combine (seq 0 (List.length (split_batches batch_items)))
             (split_batches batch_items)).

(** An empty [batch_items] makes the executor raise: its worker count is 0. *)
Definition write_batch_to_dynamo (dbs : nat -> store) (max_retries : nat)
  (batch_items : list pyval) : result bool :=
  match batch_items with
  | [] => Raise ValueError
  | _ :: _ => Ok (forallb fst (group_outcomes dbs max_retries batch_items))
  end.

(** At this attempt the store hands back a non-empty list of unprocessed
    items, whatever non-empty request it is sent. *)
Definition reports_unprocessed (db : store) (attempt : nat) : Prop :=
  forall items, items <> [] ->
    exists u us, db attempt items = Unprocessed (u :: us).

(** At this attempt the store accepts every submitted item. *)
Definition accepts_all (db : store) (attempt : nat) : Prop :=
  forall items, items <> [] -> db attempt items = Unprocessed [].

End BatchWriter.

(** ** Centroid and bounding box *)

Section Geometry.
Context {rt : Runtime}.

(** [except (KeyError, IndexError, TypeError): return None] *)
Definition none_on_lookup_error (c : result pyval) : result pyval :=
  match c with
  | Raise KeyError | Raise IndexError | Raise TypeError => Ok VNone
  | r => r
  end.

(** The [for coord in coordinates] loop of the centroid estimate. *)
Fixpoint sum_coordinates (coordinates : list pyval)
  (lat_sum lng_sum : spec_float) : result (spec_float * spec_float) :=
  match coordinates with
  | [] => Ok (lat_sum, lng_sum)
  | coord :: rest =>
      x <- getindex coord 0 ;;
      fx <- float x ;;
      y <- getindex coord 1 ;;
      fy <- float y ;;
      sum_coordinates rest (float_add lat_sum fy) (float_add lng_sum fx)
  end.

Definition guess_centroid_from_geometry (geometry : pyval) : result pyval :=
  none_on_lookup_error
    (ty <- getitem geometry (lit "type") ;;
     if eq_str ty (lit "Polygon") then
       rings <- getitem geometry (lit "coordinates") ;;
       ring <- getindex rings 0 ;;
       coordinates <- iterate ring ;;
       sums <- sum_coordinates coordinates (float_lit 0) (float_lit 0) ;;
       let n := float_lit (Z.of_nat (List.length coordinates)) in
       lat <- truediv (fst sums) n ;;
       lng <- truediv (snd sums) n ;;
       Ok (VDict [(lit "lat", VDecimal (decimal_of_float_str lat));
                  (lit "lng", VDecimal (decimal_of_float_str lng))])
     else if eq_str ty (lit "Point") then
       c1 <- getitem geometry (lit "coordinates") ;;
       y <- getindex c1 1 ;;
       lat <- decimal_of y ;;
       c0 <- getitem geometry (lit "coordinates") ;;
       x <- getindex c0 0 ;;
       lng <- decimal_of x ;;
       Ok (VDict [(lit "lat", VDecimal lat); (lit "lng", VDecimal lng)])
     else Ok VNone).

(** [\[float(c\[i\]) for c in coordinates\]] *)
Fixpoint column (i : Z) (coordinates : list pyval) : result (list spec_float) :=
  match coordinates with
  | [] => Ok []
  | c :: rest =>
      v <- getindex c i ;;
      f <- float v ;;
      r <- column i rest ;;
      Ok (f :: r)
  end.

(** [max(xs)] and [min(xs)] of a list of floats *)
Definition max_of (xs : list spec_float) : result spec_float :=
  match xs with
  | [] => Raise ValueError
  | x :: rest => Ok (fold_left float_max rest x)
  end.

Definition min_of (xs : list spec_float) : result spec_float :=
  match xs with
  | [] => Raise ValueError
  | x :: rest => Ok (fold_left float_min rest x)
  end.

Definition lat_lng (lat lng : spec_float) : pyval :=
  VDict [(lit "lat", VDecimal (decimal_of_float_str lat));
         (lit "lng", VDecimal (decimal_of_float_str lng))].

Definition extract_bounds_from_geometry (geometry : pyval) : result pyval :=
  none_on_lookup_error
    (ty <- getitem geometry (lit "type") ;;
     if eq_str ty (lit "Polygon") then
       rings <- getitem geometry (lit "coordinates") ;;
       ring <- getindex rings 0 ;;
       coordinates <- iterate ring ;;
       lats <- column 1 coordinates ;;
       lngs <- column 0 coordinates ;;
       ne_lat <- max_of lats ;;
       ne_lng <- max_of lngs ;;
       sw_lat <- min_of lats ;;
       sw_lng <- min_of lngs ;;
       Ok (VDict [(lit "northeast", lat_lng ne_lat ne_lng);
                  (lit "southwest", lat_lng sw_lat sw_lng)])
     else Ok VNone).

End Geometry.

(** ** Record builder: the body of the feature loop *)

Section RecordBuilder.
Context {rt : Runtime}.

(** DynamoDB attribute values [{'S': v}], [{'N': s}], [{'M': d}] *)
Definition attr_S (v : pyval) : pyval := VDict [(lit "S", v)].
Definition attr_N (s : pystr) : pyval := VDict [(lit "N", VStr s)].
Definition attr_M (d : list (pystr * pyval)) : pyval := VDict [(lit "M", VDict d)].

(** [o\[k1\]\[k2\]] *)
Definition getitem2 (o : pyval) (k1 k2 : pystr) : result pyval :=
  a <- getitem o k1 ;; getitem a k2.

(** The [try] block of the display priority:
    [min(10, max(1, int(float(area) / 10000)))] *)
Definition priority_of_area (area : pyval) : result Z :=
  area_value <- float area ;;
  q <- truediv area_value (float_lit 10000) ;;
  n <- int_of_float q ;;
  Ok (Z.min 10 (Z.max 1 n)).

(** [except (ValueError, TypeError): priority = 5]; any other exception
    leaves the loop. *)
Definition display_priority (properties : pyval) : result Z :=
  st_areashape <- get properties (lit "st_areashape") (VInt 0) ;;
  area <- get properties (lit "gisacres") st_areashape ;;
  match priority_of_area area with
  | Raise ValueError | Raise TypeError => Ok 5
  | r => r
  end.

(** The geohash of the feature, or the placeholder. *)
Definition feature_geohash (feature centroid : pyval) : result pyval :=
  geohash <- get feature (lit "geohash") VNone ;;
  if negb (truthy geohash) && truthy centroid then
    Ok (try_except
          (lat <- getitem centroid (lit "lat") ;;
           flat <- float lat ;;
           lng <- getitem centroid (lit "lng") ;;
           flng <- float lng ;;
           h <- geohash_encode flat flng ;;
           Ok (VStr h))
          (VStr (lit "0000000")))
  else if negb (truthy geohash) then Ok (VStr (lit "0000000"))
  else Ok geohash.

(** [geometry and 'coordinates' in geometry] *)
Definition has_coordinates (geometry : pyval) : result bool :=
  if truthy geometry then contains (lit "coordinates") geometry else Ok false.

(** [{'type': geometry\['type'\], 'coordinates': coords}] *)
Definition typed_geometry (geometry coords : pyval) : result pyval :=
  ty <- getitem geometry (lit "type") ;;
  Ok (VDict [(lit "type", ty); (lit "coordinates", coords)]).

(** Thresholds of the zoom range: 0.05 and 0.2 *)
Definition deg_0_05 : spec_float := S754_finite false 7205759403792794 (-57).
Definition deg_0_2 : spec_float := S754_finite false 7205759403792794 (-55).

(** The three [if bounds:] blocks: Bounds, MBR, MinZoom and MaxZoom. *)
Definition add_bounds (bounds : pyval) (item : list (pystr * pyval))
  : result (list (pystr * pyval)) :=
  if truthy bounds then
    ne_lat <- getitem2 bounds (lit "northeast") (lit "lat") ;;
    ne_lng <- getitem2 bounds (lit "northeast") (lit "lng") ;;
    sw_lat <- getitem2 bounds (lit "southwest") (lit "lat") ;;
    sw_lng <- getitem2 bounds (lit "southwest") (lit "lng") ;;
    let item :=
      store (lit "Bounds")
        (attr_M
           [(lit "Northeast",
             attr_M [(lit "Lat", attr_N (str ne_lat));
                     (lit "Lng", attr_N (str ne_lng))]);
            (lit "Southwest",
             attr_M [(lit "Lat", attr_N (str sw_lat));
                     (lit "Lng", attr_N (str sw_lng))])]) item in
    f_sw_lng <- float sw_lng ;;
    f_sw_lat <- float sw_lat ;;
    f_ne_lng <- float ne_lng ;;
    f_ne_lat <- float ne_lat ;;
    mbr <- json_dumps false
             (VList [VList [VFloat f_sw_lng; VFloat f_sw_lat];
                     VList [VFloat f_ne_lng; VFloat f_ne_lat]]) ;;
    let item := store (lit "MBR") (attr_S (VStr mbr)) item in
    let size_deg :=
      float_max (float_sub f_ne_lat f_sw_lat) (float_sub f_ne_lng f_sw_lng) in
    let min_zoom :=
      if SFltb size_deg SIMPLIFIED_COORDS_FACTOR then 12
      else if SFltb size_deg deg_0_05 then 10
      else if SFltb size_deg deg_0_2 then 8
      else 5 in
    let item := store (lit "MinZoom") (attr_N (str_of_int min_zoom)) item in
    Ok (store (lit "MaxZoom") (attr_N (str_of_int 16)) item)
  else Ok item.

(** The tagged value of one property. *)
Definition property_attr (value : pyval) : result pyval :=
  match value with
  | VStr _ => Ok (attr_S value)
  | VInt _ | VBool _ | VDecimal _ => Ok (attr_N (str value))
  | VNone => Ok (VDict [(lit "NULL", VBool true)])
  | _ => s <- json_dumps false value ;; Ok (attr_S (VStr s))
  end.

Fixpoint properties_map (items : list (pystr * pyval))
  (acc : list (pystr * pyval)) : result (list (pystr * pyval)) :=
  match items with
  | [] => Ok acc
  | (key, value) :: rest =>
      a <- property_attr value ;;
      properties_map rest (store key a acc)
  end.

(** The names and keys of a feature (the first statements of the loop
    body). *)
Record identifiers : Type := {
  properties : pyval;
  ahupuaa_name : pyval;
  moku_name : pyval;
  mokupuni_name : pyval;
  feature_id : pyval;
  ahupuaa_pk : pystr;
  hierarchy_sk : pystr
}.

Definition resolve_identifiers (feature_index : nat) (feature : pyval)
  : result identifiers :=
  let index := str_of_int (Z.of_nat feature_index) in
  properties <- get feature (lit "properties") (VDict []) ;;
  name <- get properties (lit "name") (VStr (lit "Ahupuaa_" ++ index)) ;;
  ahupuaa_name <- get properties (lit "ahupuaa") name ;;
  moku_name <- get properties (lit "moku") (VStr (lit "Unknown")) ;;
  mokupuni_name <- get properties (lit "mokupuni") (VStr (lit "Unknown")) ;;
  objectid <- get properties (lit "objectid") (VStr index) ;;
  feature_id <- get feature (lit "id") (VStr (str objectid)) ;;
  let ahupuaa_pk := lit "AHUPUAA#" ++ str feature_id in
  hierarchy_sk <- format_hierarchical_key mokupuni_name moku_name ;;
  Ok {| properties := properties;
        ahupuaa_name := ahupuaa_name;
        moku_name := moku_name;
        mokupuni_name := mokupuni_name;
        feature_id := feature_id;
        ahupuaa_pk := ahupuaa_pk;
        hierarchy_sk := hierarchy_sk |}.

(** The geometry of a feature and what is derived from it before the item
    is created. *)
Record derived_geometry : Type := {
  geometry : pyval;
  bounds : pyval;
  centroid : pyval;
  geohash : pyval;
  geohash_prefix : pyval;
  simplified_boundaries : pystr
}.

Definition derive_geometry (feature : pyval) : result derived_geometry :=
  raw_geometry <- get feature (lit "geometry") (VDict []) ;;
  let geometry := replace_floats raw_geometry in
  given_bounds <- get feature (lit "bounds") VNone ;;
  bounds <- (if negb (truthy given_bounds) && truthy geometry
             then extract_bounds_from_geometry geometry
             else Ok given_bounds) ;;
  has_centroid <- contains (lit "centroid_geopoint") feature ;;
  given_centroid <- (if has_centroid
                     then getitem feature (lit "centroid_geopoint")
                     else Ok VNone) ;;
  centroid <- (match given_centroid with
               | VDict _ => Ok given_centroid
               | _ => if truthy geometry
                      then guess_centroid_from_geometry geometry
                      else Ok VNone
               end) ;;
  geohash <- feature_geohash feature centroid ;;
  geohash_prefix <- slice_to geohash 3 ;;
  coords <- has_coordinates geometry ;;
  simplified_geometry <-
    (if coords then
       c <- getitem geometry (lit "coordinates") ;;
       simplified_coords <- simplify_coordinates c SIMPLIFIED_COORDS_FACTOR ;;
       typed_geometry geometry simplified_coords
     else Ok geometry) ;;
  boundaries <- json_dumps false simplified_geometry ;;
  Ok {| geometry := geometry;
        bounds := bounds;
        centroid := centroid;
        geohash := geohash;
        geohash_prefix := geohash_prefix;
        simplified_boundaries := boundaries |}.

(** The dict literal the item starts from. *)
Definition initial_item (ids : identifiers) (geo : derived_geometry)
  : list (pystr * pyval) :=
  [(lit "AhupuaaPK", attr_S (VStr (ahupuaa_pk ids)));
   (lit "HierarchySK", attr_S (VStr (hierarchy_sk ids)));
   (lit "AhupuaaName", attr_S (ahupuaa_name ids));
   (lit "MokupuniName", attr_S (mokupuni_name ids));
   (lit "MokuName", attr_S (moku_name ids));
   (lit "Geohash", attr_S (geohash geo));
   (lit "GeohashPrefix", attr_S (geohash_prefix geo));
   (lit "ZoomLevel", attr_N (str_of_int 10));
   (lit "SimplifiedBoundaries", attr_S (VStr (simplified_boundaries geo)))].

(** The two [if centroid:] blocks: Centroid and AnnotationPoint. *)
Definition add_centroid (ids : identifiers) (centroid : pyval)
  (item : list (pystr * pyval)) : result (list (pystr * pyval)) :=
  if truthy centroid then
    lat <- getitem centroid (lit "lat") ;;
    lng <- getitem centroid (lit "lng") ;;
    let item :=
      store (lit "Centroid")
        (attr_M [(lit "Lat", attr_N (str lat));
                 (lit "Lng", attr_N (str lng))]) item in
    flng <- float lng ;;
    flat <- float lat ;;
    point <- json_dumps false
               (VDict [(lit "coordinate", VList [VFloat flng; VFloat flat]);
                       (lit "title", ahupuaa_name ids);
                       (lit "subtitle",
                        VStr (str (moku_name ids) ++ lit ", "
                              ++ str (mokupuni_name ids)))]) ;;
    Ok (store (lit "AnnotationPoint") (attr_S (VStr point)) item)
  else Ok item.

(** [if 'type' in geometry:] and the full geometry. *)
Definition add_geometry (geometry : pyval) (item : list (pystr * pyval))
  : result (list (pystr * pyval)) :=
  has_type <- contains (lit "type") geometry ;;
  item <- (if has_type
           then ty <- getitem geometry (lit "type") ;;
                Ok (store (lit "GeometryType") (attr_S ty) item)
           else Ok item) ;;
  full <- json_dumps false geometry ;;
  Ok (store (lit "FullGeometry") (attr_S (VStr full)) item).

Definition style_properties : pyval :=
  attr_M [(lit "FillColor", attr_S (VStr (lit "#A3C1AD")));
          (lit "BorderColor", attr_S (VStr (lit "#2A6041")));
          (lit "BorderWidth", attr_N (lit "2"))].

(** The low-detail and high-detail variants; the medium one is computed
    and dropped. *)
Definition add_detail_tiers (geometry : pyval) (item : list (pystr * pyval))
  : result (list (pystr * pyval)) :=
  coords <- has_coordinates geometry ;;
  if coords then
    c <- getitem geometry (lit "coordinates") ;;
    medium_coords <- simplify_coordinates c SIMPLIFIED_COORDS_FACTOR ;;
    c <- getitem geometry (lit "coordinates") ;;
    low_coords <- simplify_coordinates c factor_0_005 ;;
    c <- getitem geometry (lit "coordinates") ;;
    high_coords <- simplify_coordinates c factor_0_03 ;;
    low <- typed_geometry geometry low_coords ;;
    low <- json_dumps false low ;;
    let item := store (lit "LowDetailBoundaries") (attr_S (VStr low)) item in
    high <- typed_geometry geometry high_coords ;;
    high <- json_dumps false high ;;
    Ok (store (lit "HighDetailBoundaries") (attr_S (VStr high)) item)
  else Ok item.

Definition rendering_hints (priority : Z) : pyval :=
  attr_M [(lit "StrokeWidth", attr_N (lit "2"));
          (lit "FillOpacity", attr_N (lit "0.5"));
          (lit "StrokeOpacity", attr_N (lit "0.8"));
          (lit "ZIndex", attr_N (str_of_int priority));
          (lit "LineDashPattern", attr_S (VStr (lit "[0]")));
          (lit "SelectedFillColor", attr_S (VStr (lit "#C1E1AD")));
          (lit "SelectedStrokeColor", attr_S (VStr (lit "#205841")))].

(** [if properties:] and the tagged copy of the properties. *)
Definition add_properties (properties : pyval) (item : list (pystr * pyval))
  : result (list (pystr * pyval)) :=
  if truthy properties then
    match replace_floats properties with
    | VDict entries =>
        m <- properties_map entries [] ;;
        Ok (store (lit "Properties") (attr_M m) item)
    | _ => Raise AttributeError
    end
  else Ok item.

(** The hash of the raw feature:
    [hashlib.md5(json.dumps(feature, sort_keys=True, ...).encode()).hexdigest()] *)
Definition feature_hash (feature : pyval) : result pystr :=
  dumped <- json_dumps true feature ;;
  Ok (md5_hexdigest dumped).

Definition metadata (data_version : Z) (hash now : pystr) : pyval :=
  attr_M [(lit "DataVersion", attr_N (str_of_int data_version));
          (lit "FeatureHash", attr_S (VStr hash));
          (lit "LastUpdated", attr_S (VStr now))].

(** One pass of the loop body for [feature] at position [feature_index];
    [data_version] is [DATA_VERSION] and [now] is what
    [datetime.datetime.now().isoformat()] returns at this feature. *)
Definition build_item (data_version : Z) (now : pystr)
  (feature_index : nat) (feature : pyval) : result pyval :=
  ids <- resolve_identifiers feature_index feature ;;
  geo <- derive_geometry feature ;;
  let item := initial_item ids geo in
  item <- add_centroid ids (centroid geo) item ;;
  priority <- display_priority (properties ids) ;;
  let item := store (lit "DisplayPriority") (attr_N (str_of_int priority)) item in
  item <- add_bounds (bounds geo) item ;;
  item <- add_geometry (geometry geo) item ;;
  let item := store (lit "StyleProperties") style_properties item in
  item <- add_detail_tiers (geometry geo) item ;;
  let item := store (lit "iOSRenderingHints") (rendering_hints priority) item in
  item <- add_properties (properties ids) item ;;
  hash <- feature_hash feature ;;
  let item := store (lit "Metadata") (metadata data_version hash now) item in
  Ok (VDict [(lit "PutRequest", VDict [(lit "Item", VDict item)])]).

End RecordBuilder.

(** ** Streaming importer *)

Module Importer.

Import BatchWriter.

(** The local variables of [process_geojson] that outlive one feature, and
    a log of the batches that were written with success. *)
Record loop_state : Type := {
  batch : list pyval;
  total_processed : nat;
  calls : nat;
  written : list (list pyval)
}.

(** How the feature loop ends: it runs out of features or breaks, or the
    function returns [False] from inside it. *)
Inductive loop_end : Type :=
| Finished (st : loop_state)
| Aborted (st : loop_state).

Record run_result : Type := {
  success : bool;
  imported : nat;
  batches : list (list pyval)
}.

Section Run.
Context {rt : Runtime}.

(** What the run is given: [DATA_VERSION], the clock read at each
    feature, and the store's behaviour at each call of
    [write_batch_to_dynamo], per group. *)
Variable data_version : Z.
Variable clock : nat -> pystr.
Variable db : nat -> nat -> store.

Variable test_mode : bool.
Variable test_limit : Z.

(** [success = write_batch_to_dynamo(batch)] and what follows it. *)
Definition flush (st : loop_state) (b : list pyval) : loop_end :=
  match write_batch_to_dynamo (db (calls st)) MAX_RETRIES b with
  | Ok true =>
      Finished {| batch := [];
                  total_processed := total_processed st + List.length b;
                  calls := S (calls st);
                  written := written st ++ [b] |}
  | _ =>
      Aborted {| batch := b;
                 total_processed := total_processed st;
                 calls := S (calls st);
                 written := written st |}
  end.

(** The second pass over the features. *)
Fixpoint feature_loop (features : list pyval) (feature_index : nat)
  (st : loop_state) : loop_end :=
  match features with
  | [] => Finished st
  | feature :: rest =>
      if test_mode && (test_limit <=? Z.of_nat (total_processed st))
      then Finished st
      else
        match build_item data_version (clock feature_index) feature_index feature with
        | Raise _ => Aborted st
        | Ok item =>
            let b := batch st ++ [item] in
            if (BATCH_SIZE <=? List.length b)%nat then
              match flush st b with
              | Finished st' => feature_loop rest (S feature_index) st'
              | Aborted st' => Aborted st'
              end
            else
              feature_loop rest (S feature_index)
                {| batch := b;
                   total_processed := total_processed st;
                   calls := calls st;
                   written := written st |}
        end
  end.

Definition report (ok : bool) (st : loop_state) : run_result :=
  {| success := ok; imported := total_processed st; batches := written st |}.

(** [process_geojson] on a file that exists and holds [features]. The
    counting pass and the progress log, which read the features and the
    clock without touching the batch, are left out. *)
Definition process_geojson (features : list pyval) : run_result :=
  let start := {| batch := []; total_processed := 0;
                  calls := 0; written := [] |} in
  match feature_loop features 0 start with
  | Aborted st => report false st
  | Finished st =>
      match batch st with
      | [] => report true st
      | _ :: _ =>
          match flush st (batch st) with
          | Finished st' => report true st'
          | Aborted st' => report false st'
          end
      end
  end.

End Run.

End Importer.

(** ** Predicates and sample data used by the statements *)

(** A point is a list of numbers; a ring is a list of points. *)
Definition is_point (v : pyval) : bool :=
  match v with
  | VList l => forallb is_number l
  | _ => false
  end.

Definition is_ring (l : list pyval) : bool := forallb is_point l.

(** No list that [simplify_coordinates] would walk into has more than 100
    elements, leaves apart. *)
Fixpoint settled (v : pyval) : bool :=
  match v with
  | VList l =>
      forallb is_number l
      || ((List.length l <=? 100)%nat && forallb settled l)
  | _ => true
  end.

(** The recursive call [\[simplify_coordinates(c, factor) for c in cs\]]. *)
Fixpoint simplify_each (factor : spec_float) (cs : list pyval)
  : result (list pyval) :=
  match cs with
  | [] => Ok []
  | c :: cs' =>
      c' <- simplify_coordinates c factor ;;
      r <- simplify_each factor cs' ;;
      Ok (c' :: r)
  end.

(** A ring of [n] distinct points. *)
Definition sample_ring (n : nat) : list pyval :=
  List.map (fun i => VList [VInt (Z.of_nat i); VInt 0]) (seq 0 n).

(** 0.75 as a binary64 value *)
Definition factor_0_75 : spec_float := S754_finite false 6755399441055744 (-53).

(** A crude rendering of a value, enough to tell sample features apart. *)
Fixpoint sketch (v : pyval) : pystr :=
  match v with
  | VNone => lit "null"
  | VBool true => lit "true"
  | VBool false => lit "false"
  | VInt z => str_of_int z
  | VFloat _ => lit "<float>"
  | VDecimal _ => lit "<decimal>"
  | VStr s => lit "'" ++ s ++ lit "'"
  | VList l => lit "[" ++ List.concat (List.map (fun x => sketch x ++ lit ",") l) ++ lit "]"
  | VDict d =>
      lit "{" ++ List.concat (List.map (fun kv => fst kv ++ lit ":" ++ sketch (snd kv) ++ lit ",") d)
      ++ lit "}"
  end.

(** A stand-in for the interpreter's and the libraries' routines, to run
    the model on sample data. *)
Definition sample_runtime : Runtime := {|
  float_of_str := fun _ => None;
  repr := sketch;
  decimal_of_float_str := decimal_10f;
  decimal_of_str := fun _ => None;
  json_dumps := fun _ v => Ok (sketch v);
  md5_hexdigest := fun s => lit "md5:" ++ s;
  geohash_encode := fun _ _ => Ok (lit "87zc0tx")
|}.

(** A store that accepts every item at once. *)
Definition accepting_store : BatchWriter.store :=
  fun _ _ => BatchWriter.Unprocessed [].

(** A store that hands every submitted item back. *)
Definition rejecting_store : BatchWriter.store :=
  fun _ items => BatchWriter.Unprocessed items.

(** A store that hands the items back on the attempts before [k]. *)
Definition store_ready_after (k : nat) : BatchWriter.store :=
  fun attempt items =>
    if (attempt <? k)%nat then BatchWriter.Unprocessed items
    else BatchWriter.Unprocessed [].

(** Thirty items, which make a group of 25 and a group of 5, and stores
    for them: the first group is accepted at its fourth attempt, the
    second never. *)
Definition thirty_items : list pyval := repeat VNone 30.

Definition two_group_stores (g : nat) : BatchWriter.store :=
  match g with
  | O => store_ready_after 3
  | S _ => rejecting_store
  end.

(** A feature with the given properties and a point geometry. *)
Definition sample_feature (properties : list (pystr * pyval)) : pyval :=
  VDict [(lit "type", VStr (lit "Feature"));
         (lit "properties", VDict properties);
         (lit "geometry",
          VDict [(lit "type", VStr (lit "Point"));
                 (lit "coordinates", VList [VInt (-157); VInt 21])])].

(** The [Item] dict of a put request. *)
Definition item_fields (item : pyval) : list (pystr * pyval) :=
  match item with
  | VDict [(_, VDict [(_, VDict fields)])] => fields
  | _ => []
  end.

(** Field [k2] of the map attribute [k1] of an item. *)
Definition map_field (item : pyval) (k1 k2 : pystr) : option pyval :=
  match lookup k1 (item_fields item) with
  | Some (VDict [(_, VDict m)]) => lookup k2 m
  | _ => None
  end.

(** The names the specification gives to the key attributes. *)
Definition spec_names : list pystr :=
  [lit "PrimaryKey"; lit "SortKey"; lit "Name"; lit "IslandName";
   lit "DistrictName"].

(** The segment of the sort key for a source value ([None] when the
    property is absent): "Unknown" for an absent or falsy value (null, the
    empty string), the trimmed text for a string that is not blank.
    Nothing is said of a string of white space only, nor of a value that is
    no string. *)
Definition segment_of (source : option pyval) : option pystr :=
  match source with
  | None => Some (lit "Unknown")
  | Some v =>
      if truthy v then
        match v with
        | VStr s =>
            match strip s with
            | [] => None
            | _ :: _ => Some (strip s)
            end
        | _ => None
        end
      else Some (lit "Unknown")
  end.

(** A segment of the sort key as the loop body and
    [format_hierarchical_key] make it from a property ([None] when the
    property is absent): [(properties.get(k, 'Unknown') or "Unknown").strip()] *)
Definition key_segment (source : option pyval) : result pystr :=
  call_strip (or_unknown (match source with
                          | Some v => v
                          | None => VStr (lit "Unknown")
                          end)).

(** [properties.get('gisacres', properties.get('st_areashape', 0))] *)
Definition area_of (props : list (pystr * pyval)) : pyval :=
  match lookup (lit "gisacres") props with
  | Some v => v
  | None =>
      match lookup (lit "st_areashape") props with
      | Some v => v
      | None => VInt 0
      end
  end.

(** Thirty features without properties, and ten. *)
Definition thirty_features : list pyval := repeat (sample_feature []) 30.
Definition ten_features : list pyval := repeat (sample_feature []) 10.

(** The item of a loop body that returned, [None] otherwise. *)
Definition built (r : result pyval) : pyval :=
  match r with
  | Ok item => item
  | Raise _ => VNone
  end.

(** Sample features: one named with an island to trim, one whose island is
    white space only. *)
Definition named_feature : pyval :=
  sample_feature [(lit "ahupuaa", VStr (lit "Waikiki"));
                  (lit "mokupuni", VStr (lit "  Oahu "));
                  (lit "objectid", VInt 42)].

Definition blank_island_feature : pyval :=
  sample_feature [(lit "ahupuaa", VStr (lit "Waikiki"));
                  (lit "mokupuni", VStr (lit " "))].

Definition sample_clock (feature_index : nat) : pystr := lit "2025-01-01T00:00:00".

(** Every feature of the list makes a record, wherever it stands. *)
Definition all_build {rt : Runtime} (data_version : Z) (features : list pyval)
  : Prop :=
  Forall (fun f => forall now i, exists item, build_item data_version now i f = Ok item)
         features.

(** The limit of a test run rounded up to whole batches. *)
Definition whole_batches (test_limit : Z) : Z := 25 * ((test_limit + 24) / 25).

(** The records a loop state holds: written, or waiting in the batch. *)
Definition count (st : Importer.loop_state) : Z :=
  Z.of_nat (Importer.total_processed st)
  + Z.of_nat (List.length (Importer.batch st)).

(** The keys of a dict, in insertion order. *)
Definition keys {A : Type} (d : list (pystr * A)) : list pystr := List.map fst d.

(** [k in names] *)
Definition among (names : list pystr) (k : pystr) : bool :=
  existsb (pystr_eqb k) names.

(** The attribute names the loop body adds after the item's dict literal. *)
Definition late_names : list pystr :=
  [lit "Centroid"; lit "AnnotationPoint"; lit "DisplayPriority";
   lit "Bounds"; lit "MBR"; lit "MinZoom"; lit "MaxZoom";
   lit "GeometryType"; lit "FullGeometry"; lit "StyleProperties";
   lit "LowDetailBoundaries"; lit "HighDetailBoundaries";
   lit "iOSRenderingHints"; lit "Properties"; lit "Metadata"].

(** The names each block of the loop body assigns to. *)
Definition centroid_names : list pystr := [lit "Centroid"; lit "AnnotationPoint"].
Definition bounds_names : list pystr :=
  [lit "Bounds"; lit "MBR"; lit "MinZoom"; lit "MaxZoom"].
Definition geometry_names : list pystr := [lit "GeometryType"; lit "FullGeometry"].
Definition tier_names : list pystr :=
  [lit "LowDetailBoundaries"; lit "HighDetailBoundaries"].
Definition properties_names : list pystr := [lit "Properties"].

(** The attribute names of the item's dict literal. *)
Definition key_names : list pystr :=
  [lit "AhupuaaPK"; lit "HierarchySK"; lit "AhupuaaName"; lit "MokupuniName";
   lit "MokuName"; lit "Geohash"; lit "GeohashPrefix"; lit "ZoomLevel";
   lit "SimplifiedBoundaries"].

(** [d'] is [d] after some assignments [d\[k\] = v] with [k] among [own]. *)
Inductive assigned (own : list pystr)
  : list (pystr * pyval) -> list (pystr * pyval) -> Prop :=
| assigned_none (d : list (pystr * pyval)) : assigned own d d
| assigned_more (d d' : list (pystr * pyval)) (k : pystr) (v : pyval) :
    assigned own d d' -> among own k = true -> assigned own d (store k v d').

(** The number of points of a decimated value, 0 when it is no list. *)
Definition points_of (r : result pyval) : nat :=
  match r with
  | Ok (VList l) => List.length l
  | _ => 0%nat
  end.

(** ** What the display priority is compared with *)

(** A number, as opposed to an infinity or a NaN. *)
Definition is_finite (a : spec_float) : bool :=
  match a with
  | S754_zero _ | S754_finite _ _ _ => true
  | _ => false
  end.

Definition signed (s : bool) (z : Z) : Z := if s then - z else z.

(** The value of a finite float in units of 2^-1074, the smallest positive
    binary64 number: an integer for every binary64 float. *)
Definition scaled (a : spec_float) : Z :=
  match a with
  | S754_finite s m e => signed s (Zpos m * 2 ^ (e + 1074))
  | _ => 0
  end.

(** [min(10, max(1, .))] *)
Definition clamp (z : Z) : Z := Z.min 10 (Z.max 1 z).

(** min(10, max(1, a/10000 rounded toward zero)), in exact arithmetic. *)
Definition exact_priority (a : spec_float) : Z :=
  clamp (Z.quot (scaled a) (10000 * 2 ^ 1074)).

(** The mantissa of 10000.0, which is mc * 2^-39. *)
Definition mc : Z := 5497558138880000.

(** m * 2^e rounded toward zero. *)
Definition trunc_scaled (m e : Z) : Z :=
  if 0 <=? e then m * 2 ^ e else m / 2 ^ (- e).

(** The last step of [binary_round_aux]: the renormalisation of the rounded
    mantissa and the overflow test. *)
Definition finish (sx : bool) (m1 e1 : Z) : spec_float :=
  let '(mrs, e2) := shr_fexp prec emax m1 e1 loc_Exact in
  match shr_m mrs with
  | Z0 => S754_zero sx
  | Zpos m => if e2 <=? emax - prec then S754_finite sx m e2 else S754_infinity sx
  | Zneg _ => S754_nan
  end.

(** A feature whose area is a text that is no numeral. *)
Definition feature_area_text : pyval :=
  sample_feature [(lit "gisacres", VStr (lit "n/a"))].

(** Features with an area of 25000 and of 123456.5 acres. *)
Definition feature_25000 : pyval := sample_feature [(lit "gisacres", VInt 25000)].
Definition feature_123456 : pyval :=
  sample_feature [(lit "st_areashape", VDecimal (DecFinite false 1234565 (-1)))].

(** ** Predicates and sample data of the further properties *)

(** No float is left anywhere in the value. *)
Fixpoint float_free (v : pyval) : bool :=
  match v with
  | VFloat _ => false
  | VList l => forallb float_free l
  | VDict d => forallb (fun kv => float_free (snd kv)) d
  | _ => true
  end.

(** The value of a finite Decimal in units of 10^-10 (for an exponent that
    is not below -10). *)
Definition ten_billionths (d : decimal) : Z :=
  match d with
  | DecFinite _ coeff exp => Z.of_N coeff * 10 ^ (exp + 10)
  | _ => 0
  end.

(** At this attempt the write does not go through: the call raises, or it
    hands back a non-empty list of unprocessed items. *)
Definition held_back (db : BatchWriter.store) (attempt : nat) : Prop :=
  forall items, items <> [] ->
    db attempt items = BatchWriter.Failure
    \/ exists u us, db attempt items = BatchWriter.Unprocessed (u :: us).

(** A store whose calls raise on the attempts before [k]. *)
Definition store_failing_before (k : nat) : BatchWriter.store :=
  fun attempt items =>
    if (attempt <? k)%nat then BatchWriter.Failure
    else BatchWriter.Unprocessed [].

(** The records of the features from position [feature_index] on, in the
    order of the document. *)
Fixpoint built_items {rt : Runtime} (data_version : Z) (clock : nat -> pystr)
  (feature_index : nat) (features : list pyval) : list pyval :=
  match features with
  | [] => []
  | feature :: rest =>
      built (build_item data_version (clock feature_index) feature_index feature)
      :: built_items data_version clock (S feature_index) rest
  end.

(** All written batches are full, and the count of imported records is the
    count of written records. *)
Definition full_batches (st : Importer.loop_state) : Prop :=
  Forall (fun b => List.length b = BATCH_SIZE) (Importer.written st) /\
  Importer.total_processed st = List.length (List.concat (Importer.written st)).

(** The attribute names assigned after the bounds block. *)
Definition tail_names : list pystr :=
  [lit "GeometryType"; lit "FullGeometry"; lit "StyleProperties";
   lit "LowDetailBoundaries"; lit "HighDetailBoundaries";
   lit "iOSRenderingHints"; lit "Properties"; lit "Metadata"].

(** The members of a feature without properties and with a point geometry. *)
Definition plain_fields : list (pystr * pyval) :=
  [(lit "type", VStr (lit "Feature"));
   (lit "properties", VDict []);
   (lit "geometry",
    VDict [(lit "type", VStr (lit "Point"));
           (lit "coordinates", VList [VInt (-157); VInt 21])])].

(** A feature without properties whose geometry is null. *)
Definition null_geometry_feature : pyval :=
  VDict [(lit "type", VStr (lit "Feature"));
         (lit "properties", VDict []);
         (lit "geometry", VNone)].

(** A feature whose properties are null. *)
Definition null_properties_feature : pyval :=
  VDict [(lit "type", VStr (lit "Feature"));
         (lit "properties", VNone);
         (lit "geometry",
          VDict [(lit "type", VStr (lit "Point"));
                 (lit "coordinates", VList [VInt (-157); VInt 21])])].

(** A feature with a polygon of three points and a boolean property. *)
Definition triangle_feature : pyval :=
  VDict [(lit "type", VStr (lit "Feature"));
         (lit "properties",
          VDict [(lit "ahupuaa", VStr (lit "Waikiki")); (lit "coastal", VBool true)]);
         (lit "geometry",
          VDict [(lit "type", VStr (lit "Polygon"));
                 (lit "coordinates",
                  VList [VList [VList [VInt (-158); VInt 21];
                                VList [VInt (-157); VInt 21];
                                VList [VInt (-157); VInt 22]]])])].

(** * Properties *)

(** ** Coordinate decimation *)

Lemma simplify_coordinates_list (l : list pyval) (factor : spec_float) :
  simplify_coordinates (VList l) factor =
  if forallb is_number l then Ok (VList l)
  else if (100 <? List.length l)%nat then
    step <- stride factor ;;
    if (2 <? List.length l)%nat then
      match l with
      | first :: _ => Ok (VList ([first] ++ slice_inner l step ++ [last l first]))
      | [] => Ok (VList [])
      end
    else r <- simplify_each factor l ;; Ok (VList r)
  else r <- simplify_each factor l ;; Ok (VList r).
Proof.
  assert (E : forall cs,
    (fix each (cs : list pyval) : result (list pyval) :=
       match cs with
       | [] => Ok []
       | c :: cs' =>
           c' <- simplify_coordinates c factor ;;
           r <- each cs' ;;
           Ok (c' :: r)
       end) cs = simplify_each factor cs).
  { induction cs as [|c cs IH]; simpl; [reflexivity|].
    rewrite IH. reflexivity. }
  simpl. rewrite E. reflexivity.
Qed.

Lemma point_is_settled (p : pyval) : is_point p = true -> settled p = true.
Proof.
  destruct p; simpl; try discriminate.
  intros ->. reflexivity.
Qed.

(** A settled value is a fixed point of the decimation, whatever the factor
    (the factor is not even looked at). *)
Lemma settled_fixed (factor : spec_float) :
  forall v, settled v = true -> simplify_coordinates v factor = Ok v.
Proof.
  fix IH 1.
  intros [ | b | z | f | d | s | l | d ] Hs; try reflexivity.
  rewrite simplify_coordinates_list.
  destruct (forallb is_number l) eqn:Hnum; [reflexivity|].
  simpl in Hs. rewrite Hnum in Hs. simpl in Hs.
  apply andb_prop in Hs. destruct Hs as [Hlen Hall].
  apply Nat.leb_le in Hlen.
  destruct (100 <? List.length l)%nat eqn:Hbig.
  { apply Nat.ltb_lt in Hbig. lia. }
  assert (Heach : simplify_each factor l = Ok l).
  { clear Hnum Hlen Hbig. induction l as [|c cs IHl]; [reflexivity|].
    simpl in Hall. apply andb_prop in Hall. destruct Hall as [Hc Hcs].
    simpl. rewrite (IH c Hc). simpl. rewrite (IHl Hcs). reflexivity. }
  rewrite Heach. reflexivity.
Qed.

Lemma ring_is_settled (ring : list pyval) :
  is_ring ring = true -> (List.length ring <= 100)%nat ->
  settled (VList ring) = true.
Proof.
  intros Hring Hlen. simpl.
  apply orb_true_iff. right. apply andb_true_iff. split.
  - apply Nat.leb_le. exact Hlen.
  - unfold is_ring in Hring. rewrite forallb_forall in *.
    intros p Hp. apply point_is_settled. apply Hring. exact Hp.
Qed.

(** C7. A coordinate ring with at most 100 points is returned unchanged by
    [simplify_coordinates], for every factor. *)
Theorem simplify_small_ring_identity (ring : list pyval) (factor : spec_float) :
  is_ring ring = true ->
  (List.length ring <= 100)%nat ->
  simplify_coordinates (VList ring) factor = Ok (VList ring).
Proof.
  intros Hring Hlen. apply settled_fixed. apply ring_is_settled; assumption.
Qed.

Lemma simplify_small_ring_identity_witness :
  is_ring (sample_ring 100) = true /\
  (List.length (sample_ring 100) <= 100)%nat /\
  simplify_coordinates (VList (sample_ring 100)) factor_0_005
  = Ok (VList (sample_ring 100)).
Proof.
  assert (H1 : is_ring (sample_ring 100) = true) by (vm_compute; reflexivity).
  assert (H2 : (List.length (sample_ring 100) <= 100)%nat)
    by (vm_compute; repeat constructor).
  split; [exact H1 | split; [exact H2 |]].
  exact (simplify_small_ring_identity (sample_ring 100) factor_0_005 H1 H2).
Defined.

(** The strides of the three detail tiers. *)
Example stride_medium : stride SIMPLIFIED_COORDS_FACTOR = Ok 100.
Proof. vm_compute. reflexivity. Qed.

Example stride_low : stride factor_0_005 = Ok 200.
Proof. vm_compute. reflexivity. Qed.

Example stride_high : stride factor_0_03 = Ok 33.
Proof. vm_compute. reflexivity. Qed.

Example stride_0_75 : stride factor_0_75 = Ok 1.
Proof. vm_compute. reflexivity. Qed.

Lemma stride_positive (factor : spec_float) (step : Z) :
  stride factor = Ok step -> 1 <= step.
Proof.
  unfold stride.
  destruct (truediv (float_lit 1) factor) as [q|]; simpl; [|discriminate].
  destruct (int_of_float q) as [n|]; simpl; [|discriminate].
  intros H. injection H as <-. lia.
Qed.

Lemma next_index_not_multiple (step i : Z) :
  2 <= step -> i mod step = 0 -> (i + 1) mod step <> 0.
Proof.
  intros Hstep Hi Hn.
  assert (Hs : step <> 0) by lia.
  pose proof (Z.div_mod i step Hs) as E1.
  pose proof (Z.div_mod (i + 1) step Hs) as E2.
  rewrite Hi in E1. rewrite Hn in E2.
  set (a := i / step) in *. set (b := (i + 1) / step) in *.
  assert (Hd : step * (b - a) = 1) by lia.
  destruct (Z_le_gt_dec (b - a) 0); nia.
Qed.

(** With a stride of at least 2, [l\[::step\]] keeps at most every other
    element. *)
Lemma every_nth_length {A : Type} (step : Z) (l : list A) :
  2 <= step ->
  forall i,
    (2 * List.length (every_nth step i l)
     <= List.length l + (if (i mod step =? 0)%Z then 1 else 0))%nat.
Proof.
  intros Hstep. induction l as [|x t IH]; intros i; simpl.
  - destruct (i mod step =? 0); lia.
  - specialize (IH (i + 1)).
    destruct (i mod step =? 0) eqn:Hi; simpl.
    + apply Z.eqb_eq in Hi.
      pose proof (next_index_not_multiple step i Hstep Hi) as Hn.
      apply Z.eqb_neq in Hn. rewrite Hn in IH. lia.
    + destruct ((i + 1) mod step =? 0); lia.
Qed.

Lemma ring_not_all_numbers (ring : list pyval) :
  is_ring ring = true -> ring <> [] -> forallb is_number ring = false.
Proof.
  destruct ring as [|p ps]; [congruence|].
  intros H _. simpl in H. apply andb_prop in H. destruct H as [Hp _].
  simpl. destruct p; simpl in *; try discriminate. reflexivity.
Qed.

Lemma removelast_tl_length {A : Type} (l : list A) :
  List.length (removelast (tl l)) = (List.length l - 2)%nat.
Proof.
  rewrite removelast_firstn_len, length_firstn.
  destruct l as [|x t]; simpl; lia.
Qed.

(** What the decimation of a long ring is. *)
Lemma simplify_long_ring (ring : list pyval) (factor : spec_float) (step : Z) :
  is_ring ring = true ->
  (100 < List.length ring)%nat ->
  stride factor = Ok step ->
  exists first,
    hd_error ring = Some first /\
    simplify_coordinates (VList ring) factor
    = Ok (VList ([first] ++ slice_inner ring step ++ [last ring first])).
Proof.
  intros Hring Hlen Hstride.
  rewrite simplify_coordinates_list.
  rewrite (ring_not_all_numbers ring Hring)
    by (destruct ring; simpl in Hlen; [lia | discriminate]).
  assert (H100 : (100 <? List.length ring)%nat = true) by (apply Nat.ltb_lt; lia).
  assert (H2 : (2 <? List.length ring)%nat = true) by (apply Nat.ltb_lt; lia).
  rewrite H100, Hstride. simpl bind. rewrite H2.
  destruct ring as [|first rest]; [simpl in Hlen; lia|].
  exists first. split; reflexivity.
Qed.

(** C5, amended. A coordinate ring with more than 100 points, decimated with
    a factor whose stride [max(1, int(1/factor))] is at least 2, starts with
    the original first point, ends with the original last point and has
    strictly fewer points than the ring. *)
Theorem simplify_long_ring_keeps_ends (ring : list pyval) (factor : spec_float)
  (step : Z) :
  is_ring ring = true ->
  (100 < List.length ring)%nat ->
  stride factor = Ok step ->
  2 <= step ->
  exists out,
    simplify_coordinates (VList ring) factor = Ok (VList out) /\
    hd_error out = hd_error ring /\
    last out VNone = last ring VNone /\
    (List.length out < List.length ring)%nat.
Proof.
  intros Hring Hlen Hstride Hstep.
  destruct (simplify_long_ring ring factor step Hring Hlen Hstride)
    as [first [Hhd Hout]].
  exists ([first] ++ slice_inner ring step ++ [last ring first]).
  split; [exact Hout|]. split; [|split].
  - rewrite Hhd. reflexivity.
  - change ([first] ++ slice_inner ring step ++ [last ring first])
      with ((first :: slice_inner ring step) ++ [last ring first]).
    rewrite last_last.
    destruct ring as [|x t]; [discriminate|].
    clear. revert x. induction t as [|y t IH]; intros x; [reflexivity|].
    change (last (x :: y :: t) first) with (last (y :: t) first).
    change (last (x :: y :: t) VNone) with (last (y :: t) VNone).
    apply IH.
  - simpl List.length. rewrite length_app. simpl List.length.
    unfold slice_inner.
    pose proof (every_nth_length step (removelast (tl ring)) Hstep 0) as Hb.
    rewrite removelast_tl_length in Hb.
    rewrite Z.mod_0_l in Hb by lia. simpl in Hb. lia.
Qed.

Lemma simplify_long_ring_keeps_ends_witness :
  exists out,
    simplify_coordinates (VList (sample_ring 150)) SIMPLIFIED_COORDS_FACTOR
    = Ok (VList out) /\
    hd_error out = hd_error (sample_ring 150) /\
    last out VNone = last (sample_ring 150) VNone /\
    (List.length out < List.length (sample_ring 150))%nat.
Proof.
  apply (simplify_long_ring_keeps_ends (sample_ring 150)
           SIMPLIFIED_COORDS_FACTOR 100).
  - vm_compute. reflexivity.
  - vm_compute. repeat constructor.
  - vm_compute. reflexivity.
  - lia.
Defined.

(** C5 as stated fails: 0.75 is below 1, its stride is 1, and a ring of 101
    points comes back with its 101 points. *)
Lemma simplify_factor_below_one_counterexample :
  SFltb factor_0_75 (float_lit 1) = true /\
  is_ring (sample_ring 101) = true /\
  (100 < List.length (sample_ring 101))%nat /\
  simplify_coordinates (VList (sample_ring 101)) factor_0_75
  = Ok (VList (sample_ring 101)) /\
  ~ (List.length (sample_ring 101) < List.length (sample_ring 101))%nat.
Proof.
  split; [vm_compute; reflexivity|].
  split; [vm_compute; reflexivity|].
  split; [vm_compute; repeat constructor|].
  split; [vm_compute; reflexivity|].
  lia.
Qed.

(** The distance from [i + 1] to the next multiple of the stride. *)
Lemma next_gap (step i : Z) :
  1 <= step ->
  (- (i + 1)) mod step
  = if i mod step =? 0 then step - 1 else (- i) mod step - 1.
Proof.
  intros Hs.
  pose proof (Z.div_mod i step ltac:(lia)) as Hi.
  pose proof (Z.mod_pos_bound i step ltac:(lia)) as Bi.
  pose proof (Z.div_mod (- i) step ltac:(lia)) as Hn.
  pose proof (Z.mod_pos_bound (- i) step ltac:(lia)) as Bn.
  destruct (Z.eqb_spec (i mod step) 0) as [E|NE].
  - symmetry. apply (Z.mod_unique_pos _ _ (- (i / step) - 1)); [lia|].
    rewrite E in Hi. nia.
  - assert ((- i) mod step <> 0).
    { intros E0. rewrite E0 in Hn.
      assert (i mod step = 0); [|lia].
      symmetry. apply (Z.mod_unique_pos _ _ (- ((- i) / step))); [lia|]. nia. }
    symmetry. apply (Z.mod_unique_pos _ _ ((- i) / step)); [lia|]. nia.
Qed.

Lemma every_nth_count {A : Type} (step : Z) (l : list A) :
  1 <= step ->
  forall i,
    step * Z.of_nat (List.length (every_nth step i l))
    <= Z.of_nat (List.length l) + step - 1 - (- i) mod step.
Proof.
  intros Hs. induction l as [|x t IH]; intros i.
  - simpl. pose proof (Z.mod_pos_bound (- i) step ltac:(lia)). lia.
  - specialize (IH (i + 1)). rewrite (next_gap step i Hs) in IH.
    pose proof (Z.mod_pos_bound (- i) step ltac:(lia)) as Bn.
    cbn [every_nth].
    destruct (Z.eqb_spec (i mod step) 0) as [E|NE].
    + cbn [List.length]. rewrite !Nat2Z.inj_succ.
      rewrite (Z.mod_opp_l_z i step) by lia. lia.
    + cbn [List.length]. rewrite Nat2Z.inj_succ. lia.
Qed.

Lemma every_nth_In {A : Type} (step : Z) (l : list A) (x : A) :
  forall i, In x (every_nth step i l) -> In x l.
Proof.
  induction l as [|y t IH]; intros i; simpl; [tauto|].
  destruct (i mod step =? 0); simpl; intros H.
  - destruct H as [H|H]; [left; exact H | right; exact (IH _ H)].
  - right. exact (IH _ H).
Qed.

Lemma removelast_In {A : Type} (l : list A) (x : A) :
  In x (removelast l) -> In x l.
Proof.
  induction l as [|y t IH]; [tauto|].
  destruct t as [|z t']; [simpl; tauto|].
  change (removelast (y :: z :: t')) with (y :: removelast (z :: t')).
  intros [H|H]; [left; exact H | right; exact (IH H)].
Qed.

Lemma slice_inner_In {A : Type} (l : list A) (step : Z) (x : A) :
  In x (slice_inner l step) -> In x l.
Proof.
  unfold slice_inner. intros H.
  apply every_nth_In, removelast_In in H.
  destruct l; [exact H | right; exact H].
Qed.

Lemma last_In {A : Type} (l : list A) (d : A) : l <> [] -> In (last l d) l.
Proof.
  induction l as [|y t IH]; [congruence|]. intros _.
  destruct t as [|z t']; [left; reflexivity|].
  right. apply IH. discriminate.
Qed.

(** A ring of at most 98 strides and two points is cut to at most 100
    points, which a second pass leaves alone. *)
Lemma simplify_ring_settles (ring : list pyval) (factor : spec_float) (step : Z) :
  is_ring ring = true ->
  stride factor = Ok step ->
  Z.of_nat (List.length ring) <= 98 * step + 2 ->
  exists out,
    simplify_coordinates (VList ring) factor = Ok out /\ settled out = true.
Proof.
  intros Hring Hstride Hlen.
  destruct (Nat.le_gt_cases (List.length ring) 100) as [Hsmall|Hbig].
  - exists (VList ring). split.
    + apply settled_fixed. apply ring_is_settled; assumption.
    + apply ring_is_settled; assumption.
  - destruct (simplify_long_ring ring factor step Hring Hbig Hstride)
      as [first [Hfirst Hout]].
    eexists. split; [exact Hout|].
    pose proof (stride_positive factor step Hstride) as Hstep.
    assert (Hne : ring <> []) by (destruct ring; [discriminate | discriminate]).
    apply ring_is_settled.
    + unfold is_ring in *. rewrite forallb_forall in *.
      intros p Hp. apply Hring.
      cbn [app] in Hp. apply in_inv in Hp.
      destruct Hp as [<-|Hp].
      * destruct ring; [discriminate|]. injection Hfirst as ->. left. reflexivity.
      * apply in_app_or in Hp. destruct Hp as [Hp|[<-|[]]].
        -- exact (slice_inner_In _ _ _ Hp).
        -- apply last_In. exact Hne.
    + cbn [List.length app]. rewrite length_app. cbn [List.length].
      unfold slice_inner.
      pose proof (every_nth_count step (removelast (tl ring)) Hstep 0) as Hc.
      rewrite removelast_tl_length in Hc.
      change (- 0) with 0 in Hc. rewrite Z.mod_0_l in Hc by lia.
      assert (Z.of_nat (List.length (every_nth step 0 (removelast (tl ring)))) <= 98) by nia.
      lia.
Qed.

(** For such rings the decimation is idempotent. *)
Lemma simplify_ring_twice (ring : list pyval) (factor : spec_float) (step : Z) :
  is_ring ring = true ->
  stride factor = Ok step ->
  Z.of_nat (List.length ring) <= 98 * step + 2 ->
  (r <- simplify_coordinates (VList ring) factor ;; simplify_coordinates r factor)
  = simplify_coordinates (VList ring) factor.
Proof.
  intros Hring Hstride Hlen.
  destruct (simplify_ring_settles ring factor step Hring Hstride Hlen)
    as [out [Hout Hsettled]].
  rewrite Hout. cbn [bind]. apply settled_fixed. exact Hsettled.
Qed.

(** A stride of 1 keeps every element. *)
Lemma every_nth_one {A : Type} (l : list A) : forall i, every_nth 1 i l = l.
Proof.
  induction l as [|x t IH]; intros i; [reflexivity|].
  cbn [every_nth]. rewrite Z.mod_1_r. cbn [Z.eqb]. rewrite IH. reflexivity.
Qed.

Lemma ends_and_inner {A : Type} (first : A) (rest : list A) :
  rest <> [] ->
  [first] ++ removelast rest ++ [last (first :: rest) first] = first :: rest.
Proof.
  intros Hne. cbn [app]. f_equal.
  destruct rest as [|y t]; [congruence|].
  change (last (first :: y :: t) first) with (last (y :: t) first).
  symmetry. apply app_removelast_last. discriminate.
Qed.

(** The decimated ring is made of points of the ring. *)
Lemma simplify_long_ring_is_ring (ring : list pyval) (first : pyval) (step : Z) :
  is_ring ring = true ->
  hd_error ring = Some first ->
  is_ring ([first] ++ slice_inner ring step ++ [last ring first]) = true.
Proof.
  intros Hring Hfirst.
  assert (Hne : ring <> []) by (destruct ring; discriminate).
  unfold is_ring in *. rewrite forallb_forall in *.
  intros p Hp. apply Hring.
  cbn [app] in Hp. apply in_inv in Hp.
  destruct Hp as [<-|Hp].
  - destruct ring; [discriminate|]. injection Hfirst as ->. left. reflexivity.
  - apply in_app_or in Hp. destruct Hp as [Hp|[<-|[]]].
    + exact (slice_inner_In _ _ _ Hp).
    + apply last_In. exact Hne.
Qed.

Lemma simplify_long_ring_shorter (ring : list pyval) (first : pyval) (step : Z) :
  2 <= step ->
  (100 < List.length ring)%nat ->
  (List.length ([first] ++ slice_inner ring step ++ [last ring first])
   < List.length ring)%nat.
Proof.
  intros Hstep Hlen.
  cbn [app List.length]. rewrite length_app. cbn [List.length].
  unfold slice_inner.
  pose proof (every_nth_length step (removelast (tl ring)) Hstep 0) as Hb.
  rewrite removelast_tl_length in Hb.
  rewrite Z.mod_0_l in Hb by lia. cbn [Z.eqb] in Hb. lia.
Qed.

(** C4, amended. Applying the decimation a second time with the same factor
    returns the first output unchanged whenever that output is settled: no
    list of more than 100 elements is left in it, leaves apart. A ring
    whose decimated output still has more than 100 points loses points
    again in the second application when the stride
    [max(1, int(1/factor))] is at least 2; with a stride of 1 every ring is
    returned as it is by each application. *)
Theorem simplify_twice_when_settled :
  (forall (coordinates out : pyval) (factor : spec_float),
      simplify_coordinates coordinates factor = Ok out ->
      settled out = true ->
      (r <- simplify_coordinates coordinates factor ;;
       simplify_coordinates r factor)
      = simplify_coordinates coordinates factor)
  /\
  (forall (ring out : list pyval) (factor : spec_float) (step : Z),
      is_ring ring = true ->
      stride factor = Ok step ->
      2 <= step ->
      simplify_coordinates (VList ring) factor = Ok (VList out) ->
      (100 < List.length out)%nat ->
      exists out2,
        (r <- simplify_coordinates (VList ring) factor ;;
         simplify_coordinates r factor) = Ok (VList out2) /\
        (List.length out2 < List.length out)%nat /\
        (r <- simplify_coordinates (VList ring) factor ;;
         simplify_coordinates r factor)
        <> simplify_coordinates (VList ring) factor)
  /\
  (forall (ring : list pyval) (factor : spec_float),
      is_ring ring = true ->
      stride factor = Ok 1 ->
      simplify_coordinates (VList ring) factor = Ok (VList ring) /\
      (r <- simplify_coordinates (VList ring) factor ;;
       simplify_coordinates r factor)
      = simplify_coordinates (VList ring) factor).
Proof.
  split; [|split].
  - intros coordinates out factor Hout Hsettled. rewrite Hout. simpl.
    apply settled_fixed. exact Hsettled.
  - intros ring out factor step Hring Hstride Hstep Hout Hlen.
    assert (Hor : is_ring out = true).
    { destruct (Nat.le_gt_cases (List.length ring) 100) as [Hsmall|Hbig].
      - rewrite (settled_fixed factor (VList ring) (ring_is_settled ring Hring Hsmall))
          in Hout.
        injection Hout as <-. exact Hring.
      - destruct (simplify_long_ring ring factor step Hring Hbig Hstride)
          as [first [Hfirst E]].
        rewrite E in Hout. injection Hout as <-.
        exact (simplify_long_ring_is_ring ring first step Hring Hfirst). }
    destruct (simplify_long_ring out factor step Hor Hlen Hstride)
      as [first2 [_ E2]].
    exists ([first2] ++ slice_inner out step ++ [last out first2]).
    pose proof (simplify_long_ring_shorter out first2 step Hstep Hlen) as Hshort.
    rewrite Hout. cbn [bind].
    split; [exact E2|]. split; [exact Hshort|].
    rewrite E2. intros E. apply (f_equal points_of) in E.
    cbn [points_of] in E. lia.
  - intros ring factor Hring Hstride.
    assert (E : simplify_coordinates (VList ring) factor = Ok (VList ring)).
    { destruct (Nat.le_gt_cases (List.length ring) 100) as [Hsmall|Hbig].
      - exact (settled_fixed factor (VList ring) (ring_is_settled ring Hring Hsmall)).
      - destruct (simplify_long_ring ring factor 1 Hring Hbig Hstride)
          as [first [Hfirst E]].
        rewrite E. unfold slice_inner. rewrite every_nth_one.
        destruct ring as [|x rest]; [discriminate|]. injection Hfirst as ->.
        cbn [tl]. rewrite ends_and_inner; [reflexivity|].
        destruct rest; [simpl in Hbig; lia | discriminate]. }
    split; [exact E|]. rewrite E. cbn [bind]. exact E.
Qed.

Lemma simplify_twice_when_settled_witness :
  (r <- simplify_coordinates (VList [VList (sample_ring 150)])
          SIMPLIFIED_COORDS_FACTOR ;;
   simplify_coordinates r SIMPLIFIED_COORDS_FACTOR)
  = simplify_coordinates (VList [VList (sample_ring 150)])
      SIMPLIFIED_COORDS_FACTOR.
Proof.
  apply (proj1 simplify_twice_when_settled (VList [VList (sample_ring 150)])
           (VList [VList [VList [VInt 0; VInt 0]; VList [VInt 1; VInt 0];
                          VList [VInt 101; VInt 0]; VList [VInt 149; VInt 0]]])).
  - vm_compute. reflexivity.
  - vm_compute. reflexivity.
Defined.

(** C4 as stated fails: with the high-detail factor 0.03 (stride 33) a ring
    of 3400 points is cut to 105 points by the first application and to 6
    points by the second. *)
Lemma simplify_not_idempotent_counterexample :
  points_of (simplify_coordinates (VList (sample_ring 3400)) factor_0_03)
  = 105%nat /\
  points_of (r <- simplify_coordinates (VList (sample_ring 3400)) factor_0_03 ;;
             simplify_coordinates r factor_0_03)
  = 6%nat /\
  (r <- simplify_coordinates (VList (sample_ring 3400)) factor_0_03 ;;
   simplify_coordinates r factor_0_03)
  <> simplify_coordinates (VList (sample_ring 3400)) factor_0_03.
Proof.
  assert (H1 : points_of (simplify_coordinates (VList (sample_ring 3400))
                            factor_0_03) = 105%nat)
    by (vm_compute; reflexivity).
  assert (H2 : points_of
                 (r <- simplify_coordinates (VList (sample_ring 3400)) factor_0_03 ;;
                  simplify_coordinates r factor_0_03) = 6%nat)
    by (vm_compute; reflexivity).
  split; [exact H1 | split; [exact H2 |]].
  intros E. apply (f_equal points_of) in E.
  rewrite H1 in E. rewrite H2 in E. discriminate.
Qed.

(** *** The size and the content of a decimated list *)

Lemma every_nth_count_lower {A : Type} (step : Z) (l : list A) :
  1 <= step ->
  forall i,
    Z.of_nat (List.length l)
    <= step * Z.of_nat (List.length (every_nth step i l)) + (- i) mod step.
Proof.
  intros Hs. induction l as [|x t IH]; intros i.
  - simpl. pose proof (Z.mod_pos_bound (- i) step). lia.
  - cbn [every_nth]. specialize (IH (i + 1)).
    rewrite (next_gap step i Hs) in IH.
    destruct (i mod step =? 0) eqn:E.
    + apply Z.eqb_eq in E.
      assert ((- i) mod step = 0) by (apply Z.mod_opp_l_z; lia).
      cbn [List.length]. lia.
    + cbn [List.length]. lia.
Qed.

Lemma every_nth_size {A : Type} (step : Z) (l : list A) :
  1 <= step ->
  Z.of_nat (List.length (every_nth step 0 l))
  = (Z.of_nat (List.length l) + step - 1) / step.
Proof.
  intros Hs.
  pose proof (every_nth_count step l Hs 0) as U.
  pose proof (every_nth_count_lower step l Hs 0) as L.
  change (- 0) with 0 in *. rewrite Z.mod_0_l in * by lia.
  set (c := Z.of_nat (List.length (every_nth step 0 l))) in *.
  set (n := Z.of_nat (List.length l)) in *.
  apply Z.div_unique with (r := n + step - 1 - step * c); lia.
Qed.

Lemma every_nth_nth {A : Type} (step : Z) (l : list A) :
  1 <= step ->
  forall (k : nat),
    nth_error (every_nth step 0 l) k = nth_error l (Z.to_nat (Z.of_nat k * step)).
Proof.
  intros Hs.
  (* generalise over the start index: i = -(gap) *)
  assert (G : forall (l : list A) (i : Z) (k : nat),
             0 <= i ->
             nth_error (every_nth step i l) k
             = nth_error l (Z.to_nat (Z.of_nat k * step + (- i) mod step))).
  { clear l. induction l as [|x t IH]; intros i k Hi.
    - simpl. destruct k; destruct (Z.to_nat _); reflexivity.
    - cbn [every_nth]. pose proof (next_gap step i Hs) as NG.
      pose proof (Z.mod_pos_bound (- i) step ltac:(lia)) as B.
      destruct (i mod step =? 0) eqn:E.
      + apply Z.eqb_eq in E.
        assert (Z0 : (- i) mod step = 0) by (apply Z.mod_opp_l_z; lia).
        destruct k as [|k].
        * rewrite Z0. reflexivity.
        * cbn [nth_error]. rewrite IH by lia. rewrite NG, Z0.
          replace (Z.to_nat (Z.of_nat (S k) * step + 0))
            with (S (Z.to_nat (Z.of_nat k * step + (step - 1)))) by nia.
          reflexivity.
      + apply Z.eqb_neq in E.
        assert ((- i) mod step <> 0).
        { intros Z0. apply E. 
          replace i with (- - i) by lia. apply Z.mod_opp_l_z; lia. }
        rewrite IH by lia. rewrite NG.
        replace (Z.to_nat (Z.of_nat k * step + (- i) mod step))
          with (S (Z.to_nat (Z.of_nat k * step + ((- i) mod step - 1)))) by nia.
        reflexivity. }
  intros k. rewrite (G l 0 k) by lia. change (- 0) with 0.
  rewrite Z.mod_0_l by lia. rewrite Z.add_0_r. reflexivity.
Qed.

Lemma nth_error_removelast {A : Type} (l : list A) (k : nat) :
  (S k < List.length l)%nat -> nth_error (removelast l) k = nth_error l k.
Proof.
  revert k. induction l as [|x t IH]; intros k H; [simpl in H; lia|].
  destruct t as [|y t']; [simpl in H; lia|].
  change (removelast (x :: y :: t')) with (x :: removelast (y :: t')).
  destruct k; [reflexivity|]. cbn [nth_error]. apply IH. simpl in *. lia.
Qed.

Lemma simplify_long_list (l : list pyval) (factor : spec_float) (step : Z) :
  forallb is_number l = false ->
  (100 < List.length l)%nat ->
  stride factor = Ok step ->
  exists first,
    hd_error l = Some first /\
    simplify_coordinates (VList l) factor
    = Ok (VList ([first] ++ slice_inner l step ++ [last l first])).
Proof.
  intros Hn Hl Hs. rewrite simplify_coordinates_list, Hn.
  destruct (Nat.ltb_spec 100 (List.length l)) as [_|]; [|lia].
  rewrite Hs. cbn [bind].
  destruct (Nat.ltb_spec 2 (List.length l)) as [_|]; [|lia].
  destruct l as [|first t]; [simpl in Hl; lia|].
  exists first. split; reflexivity.
Qed.

Lemma last_nth_error {A : Type} (l : list A) (d : A) :
  l <> [] -> nth_error l (List.length l - 1) = Some (last l d).
Proof.
  induction l as [|x t IH]; [congruence|]. intros _.
  destruct t as [|y t']; [reflexivity|].
  change (last (x :: y :: t') d) with (last (y :: t') d).
  rewrite <- IH by discriminate. simpl. rewrite Nat.sub_0_r. reflexivity.
Qed.

(** The size of a decimated long list. *)
Lemma long_list_size (l : list pyval) (factor : spec_float) (step : Z) :
  forallb is_number l = false ->
  (100 < List.length l)%nat ->
  stride factor = Ok step ->
  exists out,
    simplify_coordinates (VList l) factor = Ok (VList out) /\
    Z.of_nat (List.length out)
    = 2 + (Z.of_nat (List.length l) - 2 + step - 1) / step.
Proof.
  intros Hn Hl Hs.
  destruct (simplify_long_list l factor step Hn Hl Hs) as (first & Hf & E).
  pose proof (stride_positive factor step Hs) as Hp.
  exists ([first] ++ slice_inner l step ++ [last l first]).
  split; [exact E|].
  cbn [app List.length]. rewrite length_app. cbn [List.length].
  unfold slice_inner.
  pose proof (every_nth_size step (removelast (tl l)) Hp) as Hz.
  rewrite removelast_tl_length in Hz.
  replace (Z.of_nat (List.length l) - 2) with (Z.of_nat (List.length l - 2)) by lia.
  lia.
Qed.

(** X1. A list of more than 100 elements that is no list of numbers is
    thinned whatever it holds, points or rings: the output has
    2 + ceil((n - 2) / step) elements, which are the first element, the
    elements at the indices 1, 1 + step, 1 + 2 step, ... below n - 1, and
    the last element, each as it was in the input. *)
Theorem simplify_long_list_points (l : list pyval) (factor : spec_float)
  (step : Z) :
  forallb is_number l = false ->
  (100 < List.length l)%nat ->
  stride factor = Ok step ->
  exists out,
    simplify_coordinates (VList l) factor = Ok (VList out) /\
    Z.of_nat (List.length out)
    = 2 + (Z.of_nat (List.length l) - 2 + step - 1) / step /\
    nth_error out 0 = nth_error l 0 /\
    nth_error out (List.length out - 1) = nth_error l (List.length l - 1) /\
    forall k : nat,
      (k + 2 < List.length out)%nat ->
      nth_error out (S k) = nth_error l (S (Z.to_nat (Z.of_nat k * step))).
Proof.
  intros Hn Hl Hs.
  destruct (simplify_long_list l factor step Hn Hl Hs) as (first & Hf & E).
  pose proof (stride_positive factor step Hs) as Hp.
  destruct l as [|x t]; [discriminate Hf|]. injection Hf as ->.
  set (inner := slice_inner (first :: t) step) in *.
  assert (Li : Z.of_nat (List.length inner)
               = (Z.of_nat (List.length (first :: t)) - 2 + step - 1) / step).
  { unfold inner, slice_inner. rewrite every_nth_size by exact Hp.
    rewrite removelast_tl_length. f_equal. cbn [List.length] in *. lia. }
  exists ([first] ++ inner ++ [last (first :: t) first]).
  split; [exact E|].
  assert (Lo : List.length ([first] ++ inner ++ [last (first :: t) first])
               = (List.length inner + 2)%nat).
  { cbn [app List.length]. rewrite length_app. simpl. lia. }
  split; [rewrite Lo; lia|].
  split; [reflexivity|].
  split.
  - rewrite Lo. rewrite (last_nth_error (first :: t) first) by discriminate.
    replace (List.length inner + 2 - 1)%nat with (S (List.length inner)) by lia.
    cbn [app nth_error]. rewrite nth_error_app2 by lia.
    rewrite Nat.sub_diag. reflexivity.
  - intros k Hk. rewrite Lo in Hk.
    cbn [app nth_error]. rewrite nth_error_app1 by lia.
    unfold inner, slice_inner. rewrite every_nth_nth by exact Hp.
    cbn [tl]. apply nth_error_removelast.
    assert (Z.of_nat k + 1 <= Z.of_nat (List.length inner)) by lia.
    rewrite Li in H.
    assert (step * ((Z.of_nat (List.length (first :: t)) - 2 + step - 1) / step)
            <= Z.of_nat (List.length (first :: t)) - 2 + step - 1)
      by (apply Z.mul_div_le; lia).
    cbn [List.length] in *. nia.
Qed.

Lemma simplify_long_list_points_witness :
  exists out,
    simplify_coordinates (VList (sample_ring 150)) factor_0_03 = Ok (VList out) /\
    Z.of_nat (List.length out) = 2 + (Z.of_nat (List.length (sample_ring 150)) - 2 + 33 - 1) / 33.
Proof.
  destruct (simplify_long_list_points (sample_ring 150) factor_0_03 33)
    as (out & E & L & _); [reflexivity | vm_compute; lia | reflexivity |].
  exists out. split; assumption.
Defined.

(** Ceiling quotients grow as the divisor shrinks. *)
Lemma ceil_div_anti (m a b : Z) :
  0 <= m -> 1 <= a -> a <= b -> (m + b - 1) / b <= (m + a - 1) / a.
Proof.
  intros Hm Ha Hab.
  pose proof (Z.mul_succ_div_gt (m + a - 1) a ltac:(lia)) as G.
  assert (0 <= (m + a - 1) / a) by (apply Z.div_pos; lia).
  set (q := (m + a - 1) / a) in *.
  assert ((m + b - 1) / b < q + 1); [|lia].
  apply Z.div_lt_upper_bound; [lia|]. nia.
Qed.

Lemma ceil_div_le (m a : Z) : 0 <= m -> 1 <= a -> (m + a - 1) / a <= m.
Proof.
  intros Hm Ha. assert ((m + a - 1) / a < m + 1); [|lia].
  apply Z.div_lt_upper_bound; [lia|]. nia.
Qed.

Lemma ring_points (ring : list pyval) (factor : spec_float) (step : Z) :
  is_ring ring = true ->
  stride factor = Ok step ->
  Z.of_nat (points_of (simplify_coordinates (VList ring) factor))
  = if (100 <? List.length ring)%nat
    then 2 + (Z.of_nat (List.length ring) - 2 + step - 1) / step
    else Z.of_nat (List.length ring).
Proof.
  intros Hr Hs. destruct (Nat.ltb_spec 100 (List.length ring)) as [Hl|Hl].
  - assert (Hn : forallb is_number ring = false).
    { apply ring_not_all_numbers; [exact Hr|]. intros ->. simpl in Hl. lia. }
    destruct (long_list_size ring factor step Hn Hl Hs) as (out & E & L).
    rewrite E. exact L.
  - rewrite (settled_fixed factor (VList ring) (ring_is_settled ring Hr Hl)).
    reflexivity.
Qed.

(** X2. The three decimations of a ring that the record builder computes
    are ordered: the low-detail variant (factor 0.005) has no more points
    than the medium one (0.01), which has no more than the high-detail one
    (0.03), which has no more than the ring. *)
Theorem detail_tiers_ordered (ring : list pyval) :
  is_ring ring = true ->
  (points_of (simplify_coordinates (VList ring) factor_0_005)
   <= points_of (simplify_coordinates (VList ring) SIMPLIFIED_COORDS_FACTOR))%nat /\
  (points_of (simplify_coordinates (VList ring) SIMPLIFIED_COORDS_FACTOR)
   <= points_of (simplify_coordinates (VList ring) factor_0_03))%nat /\
  (points_of (simplify_coordinates (VList ring) factor_0_03)
   <= List.length ring)%nat.
Proof.
  intros Hr.
  pose proof (ring_points ring _ _ Hr stride_low) as L.
  pose proof (ring_points ring _ _ Hr stride_medium) as M.
  pose proof (ring_points ring _ _ Hr stride_high) as H.
  destruct (Nat.ltb_spec 100 (List.length ring)) as [Hl|Hl]; [|lia].
  set (m := Z.of_nat (List.length ring) - 2) in *.
  pose proof (ceil_div_anti m 100 200 ltac:(lia) ltac:(lia) ltac:(lia)).
  pose proof (ceil_div_anti m 33 100 ltac:(lia) ltac:(lia) ltac:(lia)).
  pose proof (ceil_div_le m 33 ltac:(lia) ltac:(lia)).
  lia.
Qed.

Lemma detail_tiers_ordered_witness :
  (points_of (simplify_coordinates (VList (sample_ring 300)) factor_0_005)
   <= points_of (simplify_coordinates (VList (sample_ring 300)) SIMPLIFIED_COORDS_FACTOR))%nat.
Proof.
  destruct (detail_tiers_ordered (sample_ring 300)) as [H _];
    [vm_compute; reflexivity | exact H].
Defined.

Lemma simplify_each_total (factor : spec_float) (cs : list pyval) :
  Forall (fun c => exists r, simplify_coordinates c factor = Ok r) cs ->
  exists r, simplify_each factor cs = Ok r.
Proof.
  induction 1 as [|c cs (r & E) _ (rs & Es)]; [exists []; reflexivity|].
  exists (r :: rs). cbn [simplify_each]. rewrite E. cbn [bind]. rewrite Es.
  reflexivity.
Qed.

Lemma simplify_each_unsettled (factor : spec_float) (e : exn) (cs : list pyval) :
  Forall (fun c => simplify_coordinates c factor
                   = if settled c then Ok c else Raise e) cs ->
  simplify_each factor cs = if forallb settled cs then Ok cs else Raise e.
Proof.
  induction 1 as [|c cs E _ Es]; [reflexivity|].
  cbn [simplify_each forallb]. rewrite E.
  destruct (settled c); cbn [bind andb]; [|reflexivity].
  rewrite Es. destruct (forallb settled cs); reflexivity.
Qed.

Lemma pyval_list_ind (P : pyval -> Prop) :
  (forall l, Forall P l -> P (VList l)) ->
  (forall v, (forall l, v <> VList l) -> P v) ->
  forall v, P v.
Proof.
  intros Hl Ho.
  fix IH 1. intros v. destruct v as [| | | | | |l|]; try (apply Ho; discriminate).
  apply Hl. induction l as [|x t IHt]; constructor; [apply IH|exact IHt].
Qed.

(** X3. The decimation raises only what the computation of the stride
    raises: with a factor whose stride is defined it returns for every
    value; with a factor whose stride raises (a zero factor:
    [ZeroDivisionError]) it returns the value unchanged when no list of
    more than 100 elements is walked, and raises that exception
    otherwise. *)
Theorem simplify_raises_only_stride (factor : spec_float) :
  (forall step, stride factor = Ok step ->
     forall coordinates, exists r, simplify_coordinates coordinates factor = Ok r)
  /\
  (forall e, stride factor = Raise e ->
     forall coordinates,
       simplify_coordinates coordinates factor
       = if settled coordinates then Ok coordinates else Raise e).
Proof.
  split.
  - intros step Hs. apply pyval_list_ind.
    + intros l F. rewrite simplify_coordinates_list.
      destruct (forallb is_number l); [eexists; reflexivity|].
      destruct (simplify_each_total factor l F) as (r & E).
      rewrite Hs, E. cbn [bind].
      destruct (100 <? List.length l)%nat; [|eexists; reflexivity].
      destruct (2 <? List.length l)%nat; [|eexists; reflexivity].
      destruct l; eexists; reflexivity.
    + intros v Hv. destruct v; try (eexists; reflexivity).
      exfalso. eapply Hv. reflexivity.
  - intros e Hs. apply pyval_list_ind.
    + intros l F. rewrite simplify_coordinates_list. cbn [settled].
      destruct (forallb is_number l); [reflexivity|]. cbn [orb].
      rewrite (simplify_each_unsettled factor e l F), Hs. cbn [bind].
      destruct (Nat.ltb_spec 100 (List.length l)) as [Hl|Hl].
      * destruct (Nat.leb_spec (List.length l) 100); [lia|]. reflexivity.
      * destruct (Nat.leb_spec (List.length l) 100); [|lia]. cbn [andb].
        destruct (forallb settled l); reflexivity.
    + intros v Hv. destruct v; try reflexivity.
      exfalso. eapply Hv. reflexivity.
Qed.

Lemma simplify_raises_only_stride_witness :
  simplify_coordinates (VList (sample_ring 101)) (S754_zero false)
  = Raise ZeroDivisionError.
Proof.
  pose proof (proj2 (simplify_raises_only_stride (S754_zero false))
                ZeroDivisionError eq_refl (VList (sample_ring 101))) as H.
  rewrite H. vm_compute. reflexivity.
Defined.

(** ** Batch writer *)

Section BatchWriterFacts.

Import BatchWriter.

Lemma retry_loop_succeeds (db : store) :
  forall (k fuel a : nat) (items : list pyval),
    items <> [] ->
    (k < fuel)%nat ->
    (forall i, (a <= i < a + k)%nat -> reports_unprocessed db i) ->
    accepts_all db (a + k) ->
    retry_loop db fuel a items = (true, (a + k + 1)%nat).
Proof.
  induction k as [|k IH]; intros fuel a items Hne Hk Hfirst Hlast.
  - destruct items as [|x xs]; [congruence|].
    destruct fuel as [|fuel]; [lia|]. simpl.
    replace (a + 0)%nat with a in Hlast by lia.
    rewrite (Hlast (x :: xs)) by discriminate. f_equal. lia.
  - destruct items as [|x xs]; [congruence|].
    destruct fuel as [|fuel]; [lia|]. simpl.
    destruct (Hfirst a ltac:(lia) (x :: xs) ltac:(discriminate)) as [u [us Hu]].
    rewrite Hu.
    rewrite (IH fuel (S a) (u :: us)).
    + f_equal. lia.
    + discriminate.
    + lia.
    + intros i Hi. apply Hfirst. lia.
    + replace (S a + k)%nat with (a + S k)%nat by lia. exact Hlast.
Qed.

Lemma retry_loop_exhausts (db : store) :
  forall (fuel a : nat) (items : list pyval),
    items <> [] ->
    (forall i, reports_unprocessed db i) ->
    retry_loop db fuel a items = (false, (a + fuel)%nat).
Proof.
  induction fuel as [|fuel IH]; intros a items Hne Hall.
  - destruct items; [congruence|]. simpl. f_equal. lia.
  - destruct items as [|x xs]; [congruence|]. simpl.
    destruct (Hall a (x :: xs) ltac:(discriminate)) as [u [us Hu]]. rewrite Hu.
    rewrite (IH (S a) (u :: us)); [f_equal; lia | discriminate | exact Hall].
Qed.

Lemma nth_error_combine_seq {A : Type} (l : list A) :
  forall (start g : nat),
    nth_error (combine (seq start (List.length l)) l) g
    = option_map (fun x => ((start + g)%nat, x)) (nth_error l g).
Proof.
  induction l as [|x l IH]; intros start g; simpl.
  - destruct g; reflexivity.
  - destruct g as [|g]; simpl.
    + f_equal. f_equal. lia.
    + rewrite IH. destruct (nth_error l g); simpl; [|reflexivity].
      f_equal. f_equal. lia.
Qed.

(** The outcome of group [g] is computed from its own slice of the items and
    its own exchange with the store. *)
Lemma group_outcome_own (dbs : nat -> store) (max_retries : nat)
  (batch_items : list pyval) (g : nat) :
  nth_error (group_outcomes dbs max_retries batch_items) g
  = option_map (process_batch (dbs g) max_retries)
      (nth_error (split_batches batch_items) g).
Proof.
  unfold group_outcomes.
  rewrite nth_error_map, nth_error_combine_seq.
  destruct (nth_error (split_batches batch_items) g); reflexivity.
Qed.

Lemma firstn_add_skipn {A : Type} (a b : nat) (l : list A) :
  firstn (a + b) l = firstn a l ++ firstn b (skipn a l).
Proof.
  revert l. induction a as [|a IH]; intros l; [reflexivity|].
  destruct l as [|x l]; [destruct b; reflexivity|].
  cbn [Nat.add firstn skipn app]. rewrite IH. reflexivity.
Qed.

Lemma firstn_skipn_chunks {A : Type} (n : nat) (l : list A) :
  forall c,
    List.concat (List.map (fun k => firstn n (skipn (k * n) l)) (seq 0 c))
    = firstn (c * n) l.
Proof.
  induction c as [|c IH]; [reflexivity|].
  rewrite seq_S, map_app, concat_app, IH. cbn [Nat.add List.map List.concat].
  rewrite app_nil_r.
  replace (S c * n)%nat with (c * n + n)%nat by lia.
  symmetry. apply firstn_add_skipn.
Qed.

(** The number of groups: [len(range(0, n, BATCH_SIZE))]. *)
Lemma split_batches_length (batch_items : list pyval) :
  List.length (split_batches batch_items)
  = ((List.length batch_items + BATCH_SIZE - 1) / BATCH_SIZE)%nat.
Proof. unfold split_batches. rewrite length_map, length_seq. reflexivity. Qed.

Lemma group_count_bounds (n : nat) :
  (n <= (n + BATCH_SIZE - 1) / BATCH_SIZE * BATCH_SIZE < n + BATCH_SIZE)%nat.
Proof.
  unfold BATCH_SIZE.
  pose proof (Nat.div_mod_eq (n + 25 - 1) 25) as E.
  pose proof (Nat.mod_upper_bound (n + 25 - 1) 25 ltac:(lia)) as B.
  lia.
Qed.

(** The groups are consecutive slices of the items: together they are the
    items, in order. *)
Lemma split_batches_concat (batch_items : list pyval) :
  List.concat (split_batches batch_items) = batch_items.
Proof.
  unfold split_batches. rewrite firstn_skipn_chunks.
  apply firstn_all2. pose proof (group_count_bounds (List.length batch_items)). lia.
Qed.

(** No group is empty and none has more than [BATCH_SIZE] items. *)
Lemma split_batches_group (batch_items group : list pyval) (g : nat) :
  nth_error (split_batches batch_items) g = Some group ->
  group <> [] /\ (List.length group <= BATCH_SIZE)%nat.
Proof.
  unfold split_batches. rewrite nth_error_map.
  destruct (nth_error (seq 0 ((List.length batch_items + BATCH_SIZE - 1) / BATCH_SIZE)) g)
    as [k|] eqn:E; [|discriminate].
  apply nth_error_In, in_seq in E. cbn [option_map]. intros H.
  pose proof (group_count_bounds (List.length batch_items)) as B.
  pose proof (length_firstn BATCH_SIZE (skipn (k * BATCH_SIZE) batch_items)) as L.
  rewrite length_skipn in L.
  assert (G : firstn BATCH_SIZE (skipn (k * BATCH_SIZE) batch_items) = group)
    by congruence.
  rewrite G in L. clear G H.
  assert (k * BATCH_SIZE < List.length batch_items)%nat.
  { revert B E. generalize ((List.length batch_items + BATCH_SIZE - 1) / BATCH_SIZE)%nat.
    unfold BATCH_SIZE. intros c B E. nia. }
  split.
  - intros E0. rewrite E0 in L. cbn [List.length] in L. unfold BATCH_SIZE in *. lia.
  - rewrite L. lia.
Qed.

Lemma split_batches_nonempty (batch_items : list pyval) :
  batch_items <> [] -> split_batches batch_items <> [].
Proof.
  intros Hne E. apply (f_equal (@List.length _)) in E.
  rewrite split_batches_length in E. cbn [List.length] in E.
  pose proof (group_count_bounds (List.length batch_items)) as B.
  rewrite E in B. destruct batch_items; [congruence|]. cbn [List.length] in B. lia.
Qed.

(** The loop of a group reads its store only. *)
Lemma retry_loop_ext (db db' : store) :
  (forall attempt items, db' attempt items = db attempt items) ->
  forall fuel a items, retry_loop db' fuel a items = retry_loop db fuel a items.
Proof.
  intros Hext. induction fuel as [|fuel IH]; intros a items.
  - destruct items; reflexivity.
  - destruct items as [|x xs]; [reflexivity|]. cbn [retry_loop].
    rewrite Hext. destruct (db a (x :: xs)) as [[|u us]|]; [reflexivity| |];
      apply IH.
Qed.

Lemma process_batch_succeeds (db : store) (max_retries : nat)
  (batch : list pyval) (k : nat) :
  batch <> [] ->
  (k < max_retries)%nat ->
  (forall i, (i < k)%nat -> reports_unprocessed db i) ->
  accepts_all db k ->
  process_batch db max_retries batch = (true, S k).
Proof.
  intros Hne Hk Hfirst Hlast. unfold process_batch.
  rewrite (retry_loop_succeeds db k max_retries 0 batch Hne Hk).
  - f_equal. lia.
  - intros i Hi. apply Hfirst. lia.
  - exact Hlast.
Qed.

Lemma process_batch_exhausts (db : store) (max_retries : nat)
  (batch : list pyval) :
  batch <> [] ->
  (forall i, reports_unprocessed db i) ->
  process_batch db max_retries batch = (false, max_retries).
Proof.
  intros Hne Hall. unfold process_batch.
  rewrite (retry_loop_exhausts db max_retries 0 batch Hne Hall). reflexivity.
Qed.

(** C6. A group whose first [k] attempts (k < max retries) report
    unprocessed items and whose next attempt reports none succeeds after
    exactly k+1 attempts; a group whose every attempt reports unprocessed
    items fails after exactly max-retries attempts. A call of
    [write_batch_to_dynamo] with items has at least one group; its groups
    are not empty, hold at most [BATCH_SIZE] items and are together the
    items of the call; each group has the outcome of its own items against
    its own store responses, whatever the other groups meet, and the call
    returns the conjunction of the outcomes: [True] when every group comes
    to an accepted attempt in time, [False] as soon as one group never
    does. *)
Theorem write_all_retry_contract (max_retries : nat) :
  (forall (db : store) (batch : list pyval) (k : nat),
      batch <> [] ->
      (k < max_retries)%nat ->
      (forall i, (i < k)%nat -> reports_unprocessed db i) ->
      accepts_all db k ->
      process_batch db max_retries batch = (true, S k))
  /\
  (forall (db : store) (batch : list pyval),
      batch <> [] ->
      (forall i, reports_unprocessed db i) ->
      process_batch db max_retries batch = (false, max_retries))
  /\
  (forall (dbs : nat -> store) (batch_items : list pyval),
      batch_items <> [] ->
      write_batch_to_dynamo dbs max_retries batch_items
      = Ok (forallb fst (group_outcomes dbs max_retries batch_items))
      /\
      (forall g,
        nth_error (group_outcomes dbs max_retries batch_items) g
        = option_map (process_batch (dbs g) max_retries)
            (nth_error (split_batches batch_items) g))
      /\
      split_batches batch_items <> []
      /\
      List.concat (split_batches batch_items) = batch_items
      /\
      (forall g group,
          nth_error (split_batches batch_items) g = Some group ->
          group <> [] /\
          (List.length group <= BATCH_SIZE)%nat /\
          (forall k,
              (k < max_retries)%nat ->
              (forall i, (i < k)%nat -> reports_unprocessed (dbs g) i) ->
              accepts_all (dbs g) k ->
              nth_error (group_outcomes dbs max_retries batch_items) g
              = Some (true, S k)) /\
          ((forall i, reports_unprocessed (dbs g) i) ->
           nth_error (group_outcomes dbs max_retries batch_items) g
           = Some (false, max_retries)) /\
          (forall dbs' : nat -> store,
              (forall attempt items, dbs' g attempt items = dbs g attempt items) ->
              nth_error (group_outcomes dbs' max_retries batch_items) g
              = nth_error (group_outcomes dbs max_retries batch_items) g))
      /\
      ((forall g, (g < List.length (split_batches batch_items))%nat ->
          exists k,
            (k < max_retries)%nat /\
            (forall i, (i < k)%nat -> reports_unprocessed (dbs g) i) /\
            accepts_all (dbs g) k) ->
       write_batch_to_dynamo dbs max_retries batch_items = Ok true)
      /\
      ((exists g, (g < List.length (split_batches batch_items))%nat /\
                  forall i, reports_unprocessed (dbs g) i) ->
       write_batch_to_dynamo dbs max_retries batch_items = Ok false)).
Proof.
  split; [|split].
  - intros db batch k. apply process_batch_succeeds.
  - intros db batch. apply process_batch_exhausts.
  - intros dbs batch_items Hne.
    assert (Hw : write_batch_to_dynamo dbs max_retries batch_items
                 = Ok (forallb fst (group_outcomes dbs max_retries batch_items)))
      by (destruct batch_items; [congruence | reflexivity]).
    split; [exact Hw|].
    split; [intros g; apply group_outcome_own|].
    split; [exact (split_batches_nonempty batch_items Hne)|].
    split; [exact (split_batches_concat batch_items)|].
    split; [|split].
    + intros g group Hg.
      destruct (split_batches_group batch_items group g Hg) as [Hgne Hlen].
      split; [exact Hgne|]. split; [exact Hlen|].
      split; [|split].
      * intros k Hk Hfirst Hlast. rewrite group_outcome_own, Hg. cbn [option_map].
        rewrite (process_batch_succeeds _ _ _ k Hgne Hk Hfirst Hlast). reflexivity.
      * intros Hall. rewrite group_outcome_own, Hg. cbn [option_map].
        rewrite (process_batch_exhausts _ _ _ Hgne Hall). reflexivity.
      * intros dbs' Hext. rewrite !group_outcome_own, Hg. cbn [option_map].
        unfold process_batch. rewrite (retry_loop_ext _ _ Hext). reflexivity.
    + intros Hall. rewrite Hw. f_equal. apply forallb_forall.
      intros o Ho. apply In_nth_error in Ho. destruct Ho as [g Ho].
      rewrite group_outcome_own in Ho.
      destruct (nth_error (split_batches batch_items) g) as [group|] eqn:Hg;
        [|discriminate Ho].
      cbn [option_map] in Ho. injection Ho as <-.
      assert (Hlt : (g < List.length (split_batches batch_items))%nat)
        by (apply nth_error_Some; congruence).
      destruct (Hall g Hlt) as [k [Hk [Hfirst Hlast]]].
      destruct (split_batches_group batch_items group g Hg) as [Hgne _].
      rewrite (process_batch_succeeds _ _ _ k Hgne Hk Hfirst Hlast). reflexivity.
    + intros [g [Hlt Hall]]. rewrite Hw. f_equal.
      destruct (nth_error (split_batches batch_items) g) as [group|] eqn:Hg;
        [|apply nth_error_None in Hg; lia].
      destruct (split_batches_group batch_items group g Hg) as [Hgne _].
      assert (Ho : nth_error (group_outcomes dbs max_retries batch_items) g
                   = Some (false, max_retries)).
      { rewrite group_outcome_own, Hg. cbn [option_map].
        rewrite (process_batch_exhausts _ _ _ Hgne Hall). reflexivity. }
      apply nth_error_In in Ho.
      destruct (forallb fst (group_outcomes dbs max_retries batch_items)) eqn:F;
        [|reflexivity].
      rewrite forallb_forall in F. specialize (F _ Ho). discriminate F.
Qed.

Lemma store_ready_after_reports (k i : nat) :
  (i < k)%nat -> reports_unprocessed (store_ready_after k) i.
Proof.
  intros Hi [|x xs] Hne; [congruence|]. exists x, xs.
  unfold store_ready_after.
  destruct (Nat.ltb_spec i k) as [_|Hge]; [reflexivity | lia].
Qed.

Lemma rejecting_store_reports (i : nat) : reports_unprocessed rejecting_store i.
Proof. intros [|x xs] Hne; [congruence|]. exists x, xs. reflexivity. Qed.

Lemma write_all_retry_contract_witness :
  process_batch (store_ready_after 3) MAX_RETRIES [VNone] = (true, 4%nat) /\
  process_batch rejecting_store MAX_RETRIES [VNone] = (false, MAX_RETRIES) /\
  List.map (@List.length pyval) (split_batches thirty_items) = [25%nat; 5%nat] /\
  nth_error (group_outcomes two_group_stores MAX_RETRIES thirty_items) 0
  = Some (true, 4%nat) /\
  nth_error (group_outcomes two_group_stores MAX_RETRIES thirty_items) 1
  = Some (false, MAX_RETRIES) /\
  write_batch_to_dynamo two_group_stores MAX_RETRIES thirty_items = Ok false.
Proof.
  destruct (write_all_retry_contract MAX_RETRIES) as [Hok [Hfail Hall]].
  split.
  { apply Hok.
    - discriminate.
    - unfold MAX_RETRIES. lia.
    - intros i Hi. apply store_ready_after_reports. exact Hi.
    - intros items _. reflexivity. }
  split.
  { apply Hfail; [discriminate | exact rejecting_store_reports]. }
  split; [vm_compute; reflexivity|].
  destruct (Hall two_group_stores thirty_items ltac:(discriminate))
    as [_ [_ [_ [_ [Hgroup [_ Hfalse]]]]]].
  split.
  { destruct (Hgroup 0%nat (repeat VNone 25) ltac:(vm_compute; reflexivity))
      as [_ [_ [Hk _]]].
    apply (Hk 3%nat).
    - unfold MAX_RETRIES. lia.
    - intros i Hi. apply (store_ready_after_reports 3 i Hi).
    - intros items _. reflexivity. }
  split.
  { destruct (Hgroup 1%nat (repeat VNone 5) ltac:(vm_compute; reflexivity))
      as [_ [_ [_ [Hn _]]]].
    apply Hn. exact rejecting_store_reports. }
  apply Hfalse. exists 1%nat. split; [vm_compute; lia|].
  exact rejecting_store_reports.
Defined.

End BatchWriterFacts.

(** ** Dicts *)

Lemma pystr_eqb_eq (a b : pystr) : pystr_eqb a b = true <-> a = b.
Proof.
  revert b. induction a as [|x a IH]; intros [|y b]; simpl;
    try (split; [discriminate | congruence]); [tauto|].
  rewrite andb_true_iff, N.eqb_eq, IH. split.
  - intros [-> ->]. reflexivity.
  - intros E. injection E as -> ->. split; reflexivity.
Qed.

Lemma pystr_eqb_refl (a : pystr) : pystr_eqb a a = true.
Proof. apply pystr_eqb_eq. reflexivity. Qed.

Lemma lookup_store {A : Type} (k k' : pystr) (v : A) (d : list (pystr * A)) :
  lookup k (store k' v d) = if pystr_eqb k k' then Some v else lookup k d.
Proof.
  induction d as [|[k2 v2] d IH]; simpl.
  - reflexivity.
  - destruct (pystr_eqb k' k2) eqn:E2; simpl.
    + apply pystr_eqb_eq in E2. subst k2.
      destruct (pystr_eqb k k'); reflexivity.
    + rewrite IH.
      destruct (pystr_eqb k k2) eqn:E1; [|reflexivity].
      destruct (pystr_eqb k k') eqn:E3; [|reflexivity].
      apply pystr_eqb_eq in E1, E3. subst.
      rewrite pystr_eqb_refl in E2. discriminate.
Qed.

Lemma keys_store {A : Type} (k k' : pystr) (v : A) (d : list (pystr * A)) :
  In k (keys (store k' v d)) -> k = k' \/ In k (keys d).
Proof.
  unfold keys. induction d as [|[k2 v2] d IH]; simpl.
  - intros [E|[]]. left. congruence.
  - destruct (pystr_eqb k' k2) eqn:E2; simpl.
    + tauto.
    + intros [E|H]; [tauto|]. destruct (IH H); tauto.
Qed.

Lemma among_In (names : list pystr) (k : pystr) :
  among names k = true <-> In k names.
Proof.
  unfold among. rewrite existsb_exists. split.
  - intros [x [Hx E]]. apply pystr_eqb_eq in E. subst. exact Hx.
  - intros H. exists k. split; [exact H | apply pystr_eqb_refl].
Qed.

Lemma assigned_trans (own : list pystr) (a b c : list (pystr * pyval)) :
  assigned own a b -> assigned own b c -> assigned own a c.
Proof.
  intros Hab Hbc. induction Hbc; [exact Hab|].
  apply assigned_more; auto.
Qed.

Lemma assigned_weaken (own own' : list pystr) (a b : list (pystr * pyval)) :
  forallb (among own') own = true ->
  assigned own a b -> assigned own' a b.
Proof.
  intros Hsub H. induction H as [|d d' k v _ IH Hk]; [apply assigned_none|].
  apply assigned_more; [exact IH|].
  rewrite forallb_forall in Hsub. apply Hsub. apply among_In. exact Hk.
Qed.

Lemma assigned_one (own : list pystr) (k : pystr) (v : pyval)
  (d : list (pystr * pyval)) :
  among own k = true -> assigned own d (store k v d).
Proof. intros H. apply assigned_more; [apply assigned_none | exact H]. Qed.

(** Assignments to other names leave a lookup alone. *)
Lemma assigned_lookup (own : list pystr) (a b : list (pystr * pyval)) (k : pystr) :
  assigned own a b -> among own k = false -> lookup k b = lookup k a.
Proof.
  intros H Hk. induction H as [|d d' k' v _ IH Hk']; [reflexivity|].
  rewrite lookup_store.
  destruct (pystr_eqb k k') eqn:E; [|exact IH].
  apply pystr_eqb_eq in E. subst. congruence.
Qed.

Lemma assigned_keys (own : list pystr) (a b : list (pystr * pyval)) (k : pystr) :
  assigned own a b -> In k (keys b) -> In k own \/ In k (keys a).
Proof.
  intros H. induction H as [|d d' k' v _ IH Hk']; [tauto|].
  intros Hin. destruct (keys_store _ _ _ _ Hin) as [->|Hd].
  - left. apply among_In. exact Hk'.
  - apply IH. exact Hd.
Qed.

(** ** Record builder *)

(** Case analysis of a computation that is known to return. *)
Ltac returned H :=
  cbv zeta in H;
  lazymatch type of H with
  | bind ?c _ = Ok _ =>
      let E := fresh "E" in
      destruct c eqn:E; cbn [bind] in H;
      [returned E; returned H | discriminate H]
  | (if ?b then _ else _) = Ok _ => destruct b; returned H
  | match ?x with _ => _ end = Ok _ =>
      destruct x; try discriminate H; returned H
  | Raise _ = Ok _ => discriminate H
  | Ok _ = Ok _ => injection H as H; try subst
  | _ => idtac
  end.

Ltac assignments :=
  repeat (apply assigned_more; [|vm_compute; reflexivity]);
  apply assigned_none.

Section RecordBuilderFacts.
Context {rt : Runtime}.

Lemma add_centroid_assigned ids c item item' :
  add_centroid ids c item = Ok item' -> assigned centroid_names item item'.
Proof.
  unfold add_centroid. intros H. returned H; assignments.
Qed.

Lemma add_bounds_assigned b item item' :
  add_bounds b item = Ok item' -> assigned bounds_names item item'.
Proof.
  unfold add_bounds. intros H. returned H; assignments.
Qed.

Lemma add_geometry_assigned g item item' :
  add_geometry g item = Ok item' -> assigned geometry_names item item'.
Proof.
  unfold add_geometry. intros H. returned H; assignments.
Qed.

Lemma add_detail_tiers_assigned g item item' :
  add_detail_tiers g item = Ok item' -> assigned tier_names item item'.
Proof.
  unfold add_detail_tiers. intros H. returned H; assignments.
Qed.

Lemma add_properties_assigned p item item' :
  add_properties p item = Ok item' -> assigned properties_names item item'.
Proof.
  unfold add_properties. intros H. returned H; assignments.
Qed.

(** What a built item is made of. *)
Lemma build_item_inv data_version now feature_index feature item :
  build_item data_version now feature_index feature = Ok item ->
  exists ids geo priority hash,
    resolve_identifiers feature_index feature = Ok ids /\
    derive_geometry feature = Ok geo /\
    display_priority (properties ids) = Ok priority /\
    feature_hash feature = Ok hash /\
    assigned late_names (initial_item ids geo) (item_fields item) /\
    lookup (lit "DisplayPriority") (item_fields item)
    = Some (attr_N (str_of_int priority)) /\
    lookup (lit "Metadata") (item_fields item)
    = Some (metadata data_version hash now).
Proof.
  unfold build_item. intros H.
  destruct (resolve_identifiers feature_index feature) as [ids|] eqn:Eids;
    cbn [bind] in H; [|discriminate H].
  destruct (derive_geometry feature) as [geo|] eqn:Egeo;
    cbn [bind] in H; [|discriminate H].
  destruct (add_centroid ids (centroid geo) (initial_item ids geo))
    as [item1|] eqn:E1; cbn [bind] in H; [|discriminate H].
  destruct (display_priority (properties ids)) as [priority|] eqn:Ep;
    cbn [bind] in H; [|discriminate H].
  cbv zeta in H.
  destruct (add_bounds (bounds geo) _) as [item2|] eqn:E2;
    cbn [bind] in H; [|discriminate H].
  destruct (add_geometry (geometry geo) item2) as [item3|] eqn:E3;
    cbn [bind] in H; [|discriminate H].
  destruct (add_detail_tiers (geometry geo) _) as [item4|] eqn:E4;
    cbn [bind] in H; [|discriminate H].
  destruct (add_properties (properties ids) _) as [item5|] eqn:E5;
    cbn [bind] in H; [|discriminate H].
  destruct (feature_hash feature) as [hash|] eqn:Eh;
    cbn [bind] in H; [|discriminate H].
  injection H as <-.
  apply add_centroid_assigned in E1. apply add_bounds_assigned in E2.
  apply add_geometry_assigned in E3. apply add_detail_tiers_assigned in E4.
  apply add_properties_assigned in E5.
  exists ids, geo, priority, hash.
  change (item_fields _) with
    (store (lit "Metadata") (metadata data_version hash now) item5).
  repeat split; try reflexivity; try assumption.
  - pose proof (assigned_weaken centroid_names late_names _ _ eq_refl E1) as L1.
    pose proof (assigned_weaken bounds_names late_names _ _ eq_refl E2) as L2.
    pose proof (assigned_weaken geometry_names late_names _ _ eq_refl E3) as L3.
    pose proof (assigned_weaken tier_names late_names _ _ eq_refl E4) as L4.
    pose proof (assigned_weaken properties_names late_names _ _ eq_refl E5) as L5.
    apply assigned_more; [|vm_compute; reflexivity].
    refine (assigned_trans _ _ _ _ _ L5).
    apply assigned_more; [|vm_compute; reflexivity].
    refine (assigned_trans _ _ _ _ _ L4).
    apply assigned_more; [|vm_compute; reflexivity].
    refine (assigned_trans _ _ _ _ _ L3).
    refine (assigned_trans _ _ _ _ _ L2).
    apply assigned_more; [|vm_compute; reflexivity].
    exact L1.
  - rewrite lookup_store.
    change (pystr_eqb (lit "DisplayPriority") (lit "Metadata")) with false.
    cbv iota.
    rewrite (assigned_lookup _ _ _ (lit "DisplayPriority") E5)
      by (vm_compute; reflexivity).
    rewrite lookup_store.
    change (pystr_eqb (lit "DisplayPriority") (lit "iOSRenderingHints")) with false.
    cbv iota.
    rewrite (assigned_lookup _ _ _ (lit "DisplayPriority") E4)
      by (vm_compute; reflexivity).
    rewrite lookup_store.
    change (pystr_eqb (lit "DisplayPriority") (lit "StyleProperties")) with false.
    cbv iota.
    rewrite (assigned_lookup _ _ _ (lit "DisplayPriority") E3)
      by (vm_compute; reflexivity).
    rewrite (assigned_lookup _ _ _ (lit "DisplayPriority") E2)
      by (vm_compute; reflexivity).
    rewrite lookup_store.
    rewrite pystr_eqb_refl. reflexivity.
  - rewrite lookup_store, pystr_eqb_refl. reflexivity.
Qed.

End RecordBuilderFacts.

Section RecordClaims.
Context {rt : Runtime}.

Lemma resolve_identifiers_keys feature_index feature ids :
  resolve_identifiers feature_index feature = Ok ids ->
  ahupuaa_pk ids = lit "AHUPUAA#" ++ str (feature_id ids) /\
  format_hierarchical_key (mokupuni_name ids) (moku_name ids)
  = Ok (hierarchy_sk ids) /\
  get feature (lit "properties") (VDict []) = Ok (properties ids) /\
  get (properties ids) (lit "mokupuni") (VStr (lit "Unknown"))
  = Ok (mokupuni_name ids) /\
  get (properties ids) (lit "moku") (VStr (lit "Unknown"))
  = Ok (moku_name ids).
Proof.
  unfold resolve_identifiers. intros H.
  repeat match type of H with
         | bind ?c _ = Ok _ =>
             let E := fresh "E" in
             destruct c eqn:E; cbn [bind] in H; [|discriminate H]
         end.
  cbv zeta in H. injection H as <-. simpl.
  repeat split; try reflexivity; assumption.
Qed.

Lemma initial_lookup ids geo item k :
  assigned late_names (initial_item ids geo) item ->
  among late_names k = false ->
  lookup k item = lookup k (initial_item ids geo).
Proof. intros H Hk. exact (assigned_lookup _ _ _ k H Hk). Qed.

(** C1, amended. The persisted item carries the key attributes under the
    names of the table schema: [AhupuaaPK] (value [AHUPUAA#<id>]),
    [HierarchySK] (value [MOKUPUNI#<island>#MOKU#<district>], island and
    district being the island and district names, "Unknown" when falsy,
    trimmed), [AhupuaaName], [MokupuniName], [MokuName], and a [Metadata]
    map with a [FeatureHash] string; every attribute name of the item is
    one of the script's 24 names, so none of [PrimaryKey], [SortKey],
    [Name], [IslandName], [DistrictName] occurs, and [Metadata] has no
    [ContentHash]. *)
Theorem item_wire_names data_version now feature_index feature item :
  build_item data_version now feature_index feature = Ok item ->
  exists ids hash,
    resolve_identifiers feature_index feature = Ok ids /\
    feature_hash feature = Ok hash /\
    lookup (lit "AhupuaaPK") (item_fields item)
    = Some (attr_S (VStr (lit "AHUPUAA#" ++ str (feature_id ids)))) /\
    lookup (lit "HierarchySK") (item_fields item)
    = Some (attr_S (VStr (hierarchy_sk ids))) /\
    (exists island district,
        or_unknown (mokupuni_name ids) = VStr island /\
        or_unknown (moku_name ids) = VStr district /\
        lookup (lit "HierarchySK") (item_fields item)
        = Some (attr_S (VStr (lit "MOKUPUNI#" ++ strip island
                              ++ lit "#MOKU#" ++ strip district)))) /\
    lookup (lit "AhupuaaName") (item_fields item)
    = Some (attr_S (ahupuaa_name ids)) /\
    lookup (lit "MokupuniName") (item_fields item)
    = Some (attr_S (mokupuni_name ids)) /\
    lookup (lit "MokuName") (item_fields item)
    = Some (attr_S (moku_name ids)) /\
    map_field item (lit "Metadata") (lit "FeatureHash")
    = Some (attr_S (VStr hash)) /\
    map_field item (lit "Metadata") (lit "ContentHash") = None /\
    (forall k, In k (keys (item_fields item)) -> In k (key_names ++ late_names)) /\
    (forall k, In k spec_names -> lookup k (item_fields item) = None).
Proof.
  intros H.
  destruct (build_item_inv _ _ _ _ _ H)
    as [ids [geo [priority [hash [Hids [Hgeo [Hp [Hh [Ha [_ Hm]]]]]]]]]].
  destruct (resolve_identifiers_keys _ _ _ Hids) as [Hpk [Hsk _]].
  exists ids, hash.
  split; [exact Hids|]. split; [exact Hh|].
  split; [rewrite (initial_lookup _ _ _ (lit "AhupuaaPK") Ha eq_refl), <- Hpk;
          reflexivity|].
  split; [rewrite (initial_lookup _ _ _ (lit "HierarchySK") Ha eq_refl);
          reflexivity|].
  split.
  { unfold format_hierarchical_key, call_strip in Hsk.
    destruct (or_unknown (mokupuni_name ids)) as [| | | | |island| |];
      try discriminate Hsk.
    destruct (or_unknown (moku_name ids)) as [| | | | |district| |];
      try discriminate Hsk.
    cbn [bind] in Hsk. injection Hsk as Hsk.
    exists island, district. split; [reflexivity|]. split; [reflexivity|].
    rewrite (initial_lookup _ _ _ (lit "HierarchySK") Ha eq_refl).
    change (lookup (lit "HierarchySK") (initial_item ids geo))
      with (Some (attr_S (VStr (hierarchy_sk ids)))).
    rewrite <- Hsk. reflexivity. }
  split; [rewrite (initial_lookup _ _ _ (lit "AhupuaaName") Ha eq_refl);
          reflexivity|].
  split; [rewrite (initial_lookup _ _ _ (lit "MokupuniName") Ha eq_refl);
          reflexivity|].
  split; [rewrite (initial_lookup _ _ _ (lit "MokuName") Ha eq_refl);
          reflexivity|].
  split; [unfold map_field; rewrite Hm; reflexivity|].
  split; [unfold map_field; rewrite Hm; reflexivity|].
  split.
  - intros k Hk. apply in_or_app.
    destruct (assigned_keys _ _ _ k Ha Hk) as [Hl|Hi]; [right; exact Hl|].
    left. exact Hi.
  - intros k Hk.
    assert (Hn : among late_names k = false).
    { simpl in Hk.
      repeat (destruct Hk as [<-|Hk]; [vm_compute; reflexivity|]).
      destruct Hk. }
    rewrite (initial_lookup _ _ _ _ Ha Hn).
    simpl in Hk.
    repeat (destruct Hk as [<-|Hk]; [reflexivity|]).
    destruct Hk.
Qed.

(** The sort key is made of the two source values, each replaced by
    "Unknown" when falsy and trimmed. *)
Lemma format_hierarchical_key_segments mokupuni moku island district :
  segment_of mokupuni = Some island ->
  segment_of moku = Some district ->
  format_hierarchical_key
    (match mokupuni with Some v => v | None => VStr (lit "Unknown") end)
    (match moku with Some v => v | None => VStr (lit "Unknown") end)
  = Ok (lit "MOKUPUNI#" ++ island ++ lit "#MOKU#" ++ district).
Proof.
  assert (Hseg : forall src seg,
             segment_of src = Some seg ->
             call_strip (or_unknown
               (match src with Some v => v | None => VStr (lit "Unknown") end))
             = Ok seg).
  { intros [v|] seg; simpl.
    - unfold or_unknown. destruct (truthy v) eqn:Ht.
      + destruct v; try discriminate. simpl.
        destruct (strip s) eqn:Es; [discriminate|].
        intros E. injection E as <-. reflexivity.
      + intros E. injection E as <-. reflexivity.
    - intros E. injection E as <-. reflexivity. }
  intros Hi Hd. unfold format_hierarchical_key.
  rewrite (Hseg _ _ Hi). cbn [bind]. rewrite (Hseg _ _ Hd). reflexivity.
Qed.

(** Where the sort key is as specified: it is "MOKUPUNI#" + island +
    "#MOKU#" + district, where island and district are "Unknown" when the
    source property is absent or falsy (null, empty string) and the trimmed
    source text when it is a string that is not blank. *)
Lemma sort_key_of_record data_version now feature_index feature item
  props island district :
  build_item data_version now feature_index feature = Ok item ->
  get feature (lit "properties") (VDict []) = Ok (VDict props) ->
  segment_of (lookup (lit "mokupuni") props) = Some island ->
  segment_of (lookup (lit "moku") props) = Some district ->
  lookup (lit "HierarchySK") (item_fields item)
  = Some (attr_S (VStr (lit "MOKUPUNI#" ++ island ++ lit "#MOKU#" ++ district))).
Proof.
  intros H Hprops Hi Hd.
  destruct (build_item_inv _ _ _ _ _ H)
    as [ids [geo [priority [hash [Hids [Hgeo [Hp [Hh [Ha _]]]]]]]]].
  rewrite (initial_lookup _ _ _ (lit "HierarchySK") Ha eq_refl).
  change (lookup (lit "HierarchySK") (initial_item ids geo))
    with (Some (attr_S (VStr (hierarchy_sk ids)))).
  pose proof (format_hierarchical_key_segments _ _ _ _ Hi Hd) as Hk.
  destruct (resolve_identifiers_keys _ _ _ Hids)
    as [_ [Hsk [Hget [Hmokupuni Hmoku]]]].
  rewrite Hprops in Hget. injection Hget as Hget. rewrite <- Hget in *.
  cbn [get] in Hmokupuni, Hmoku.
  injection Hmokupuni as Hmokupuni. injection Hmoku as Hmoku.
  assert (E : Ok (hierarchy_sk ids)
              = Ok (lit "MOKUPUNI#" ++ island ++ lit "#MOKU#" ++ district)).
  { rewrite <- Hsk, <- Hk, <- Hmokupuni, <- Hmoku.
    destruct (lookup (lit "mokupuni") props);
      destruct (lookup (lit "moku") props); reflexivity. }
  injection E as ->. reflexivity.
Qed.

(** C3 fails on the code. The sort key of every record is "MOKUPUNI#" +
    island + "#MOKU#" + district, each segment made by
    [(value or "Unknown").strip()] from the property, the default being
    taken before the trimming: a name that is not empty and blank after
    trimming is truthy, so it is trimmed to the empty segment and is not
    replaced by "Unknown". *)
Theorem sort_key_blank_segment data_version now feature_index feature item
  props :
  build_item data_version now feature_index feature = Ok item ->
  get feature (lit "properties") (VDict []) = Ok (VDict props) ->
  exists island district,
    key_segment (lookup (lit "mokupuni") props) = Ok island /\
    key_segment (lookup (lit "moku") props) = Ok district /\
    lookup (lit "HierarchySK") (item_fields item)
    = Some (attr_S (VStr (lit "MOKUPUNI#" ++ island ++ lit "#MOKU#" ++ district))) /\
    (forall s,
        lookup (lit "mokupuni") props = Some (VStr s) ->
        s <> [] -> strip s = [] ->
        island = [] /\ island <> lit "Unknown" /\
        lookup (lit "HierarchySK") (item_fields item)
        = Some (attr_S (VStr (lit "MOKUPUNI##MOKU#" ++ district)))) /\
    (forall s,
        lookup (lit "moku") props = Some (VStr s) ->
        s <> [] -> strip s = [] ->
        district = [] /\ district <> lit "Unknown" /\
        lookup (lit "HierarchySK") (item_fields item)
        = Some (attr_S (VStr (lit "MOKUPUNI#" ++ island ++ lit "#MOKU#")))).
Proof.
  intros H Hprops.
  destruct (build_item_inv _ _ _ _ _ H)
    as [ids [geo [priority [hash [Hids [Hgeo [Hp [Hh [Ha _]]]]]]]]].
  destruct (resolve_identifiers_keys _ _ _ Hids)
    as [_ [Hsk [Hget [Hmokupuni Hmoku]]]].
  rewrite Hprops in Hget. injection Hget as Hget. rewrite <- Hget in *.
  cbn [get] in Hmokupuni, Hmoku.
  injection Hmokupuni as Hmokupuni. injection Hmoku as Hmoku.
  unfold format_hierarchical_key in Hsk.
  rewrite <- Hmokupuni, <- Hmoku in Hsk.
  assert (Hkey : forall k,
             call_strip (or_unknown (match lookup k props with
                                     | Some v => v
                                     | None => VStr (lit "Unknown")
                                     end))
             = key_segment (lookup k props)) by reflexivity.
  rewrite !Hkey in Hsk.
  destruct (key_segment (lookup (lit "mokupuni") props)) as [island|] eqn:Ei;
    cbn [bind] in Hsk; [|discriminate Hsk].
  destruct (key_segment (lookup (lit "moku") props)) as [district|] eqn:Ed;
    cbn [bind] in Hsk; [|discriminate Hsk].
  injection Hsk as Hsk.
  assert (Hfield : lookup (lit "HierarchySK") (item_fields item)
                   = Some (attr_S (VStr (lit "MOKUPUNI#" ++ island
                                         ++ lit "#MOKU#" ++ district)))).
  { rewrite (initial_lookup _ _ _ (lit "HierarchySK") Ha eq_refl).
    change (lookup (lit "HierarchySK") (initial_item ids geo))
      with (Some (attr_S (VStr (hierarchy_sk ids)))).
    rewrite <- Hsk. reflexivity. }
  assert (Hblank : forall src seg s,
             key_segment src = Ok seg -> src = Some (VStr s) ->
             s <> [] -> strip s = [] -> seg = []).
  { intros src seg s Hseg -> Hne Hs. unfold key_segment, or_unknown in Hseg.
    destruct s as [|c s']; [congruence|]. cbn [truthy List.length Nat.eqb negb] in Hseg.
    cbn [call_strip] in Hseg. rewrite Hs in Hseg. injection Hseg as <-. reflexivity. }
  exists island, district.
  split; [reflexivity|]. split; [reflexivity|]. split; [exact Hfield|].
  split.
  - intros s Hs Hne Hb. pose proof (Hblank _ _ _ Ei Hs Hne Hb) as ->.
    split; [reflexivity|]. split; [discriminate|]. exact Hfield.
  - intros s Hs Hne Hb. pose proof (Hblank _ _ _ Ed Hs Hne Hb) as ->.
    split; [reflexivity|]. split; [discriminate|].
    rewrite Hfield. rewrite app_nil_r. reflexivity.
Qed.

(** C9. The hash stored with a feature is the digest of the key-sorted
    serialization of the raw feature: two runs over the same feature store
    the same value, whatever the run's [DATA_VERSION], the time of the
    clock and the position of the feature in the stream. *)
Theorem feature_hash_stable dv1 dv2 now1 now2 index1 index2 feature item1 item2 :
  build_item dv1 now1 index1 feature = Ok item1 ->
  build_item dv2 now2 index2 feature = Ok item2 ->
  map_field item1 (lit "Metadata") (lit "FeatureHash")
  = map_field item2 (lit "Metadata") (lit "FeatureHash") /\
  exists dumped,
    json_dumps true feature = Ok dumped /\
    map_field item1 (lit "Metadata") (lit "FeatureHash")
    = Some (attr_S (VStr (md5_hexdigest dumped))).
Proof.
  intros H1 H2.
  destruct (build_item_inv _ _ _ _ _ H1)
    as [ids1 [geo1 [p1 [hash1 [_ [_ [_ [Hh1 [_ [_ Hm1]]]]]]]]]].
  destruct (build_item_inv _ _ _ _ _ H2)
    as [ids2 [geo2 [p2 [hash2 [_ [_ [_ [Hh2 [_ [_ Hm2]]]]]]]]]].
  assert (E : hash1 = hash2) by congruence. subst hash2.
  unfold map_field. rewrite Hm1, Hm2. split; [reflexivity|].
  unfold feature_hash in Hh1.
  destruct (json_dumps true feature) as [dumped|]; [|discriminate].
  exists dumped. split; [reflexivity|].
  cbn [bind] in Hh1. injection Hh1 as <-. reflexivity.
Qed.

(** The priority of a feature without area is 1. *)
Lemma display_priority_default props :
  lookup (lit "gisacres") props = None ->
  lookup (lit "st_areashape") props = None ->
  display_priority (VDict props) = Ok 1.
Proof.
  intros Hg Hs. unfold display_priority. cbn [get bind].
  rewrite Hg, Hs. vm_compute. reflexivity.
Qed.

Lemma priority_of_area_raise area e :
  priority_of_area area = Raise e ->
  float area = Raise e
  \/ exists a, float area = Ok a /\
               int_of_float (float_div a (float_lit 10000)) = Raise e.
Proof.
  unfold priority_of_area. intros He.
  destruct (float area) as [a|e0]; cbn [bind] in He;
    [|left; injection He as ->; reflexivity].
  right. exists a. split; [reflexivity|].
  unfold truediv in He.
  change (float_is_zero (float_lit 10000)) with false in He.
  cbn [bind] in He.
  destruct (int_of_float (float_div a (float_lit 10000)));
    cbn [bind] in He; [discriminate | injection He as ->; reflexivity].
Qed.

(** C10. A feature whose properties hold neither [gisacres] nor
    [st_areashape] gets DisplayPriority 1. The fallback is taken only for
    an area that is present and fails a numeric conversion: when [float] of
    the area and [int] of the quotient both return, the DisplayPriority of
    the record is the clamped quotient; when one of them raises and the
    record is built, the exception is a [ValueError] or a [TypeError], an
    area key is present and the DisplayPriority of the record is 5. *)
Theorem display_priority_without_area data_version now feature_index feature
  item props :
  build_item data_version now feature_index feature = Ok item ->
  get feature (lit "properties") (VDict []) = Ok (VDict props) ->
  (lookup (lit "gisacres") props = None ->
   lookup (lit "st_areashape") props = None ->
   lookup (lit "DisplayPriority") (item_fields item) = Some (attr_N (lit "1")))
  /\
  (forall a n,
      float (area_of props) = Ok a ->
      int_of_float (float_div a (float_lit 10000)) = Ok n ->
      lookup (lit "DisplayPriority") (item_fields item)
      = Some (attr_N (str_of_int (Z.min 10 (Z.max 1 n)))))
  /\
  (forall e,
      (float (area_of props) = Raise e
       \/ exists a, float (area_of props) = Ok a /\
                    int_of_float (float_div a (float_lit 10000)) = Raise e) ->
      lookup (lit "DisplayPriority") (item_fields item) = Some (attr_N (lit "5"))
      /\
      (e = ValueError \/ e = TypeError)
      /\
      (lookup (lit "gisacres") props <> None
       \/ lookup (lit "st_areashape") props <> None))
  /\
  (forall e,
      priority_of_area (area_of props) = Raise e ->
      (lookup (lit "gisacres") props <> None
       \/ lookup (lit "st_areashape") props <> None)
      /\
      (float (area_of props) = Raise e
       \/ exists a, float (area_of props) = Ok a /\
                    int_of_float (float_div a (float_lit 10000)) = Raise e)).
Proof.
  intros H Hprops.
  destruct (build_item_inv _ _ _ _ _ H)
    as [ids [geo [priority [hash [Hids [_ [Hp [_ [_ [Hd _]]]]]]]]]].
  destruct (resolve_identifiers_keys _ _ _ Hids) as [_ [_ [Hget _]]].
  rewrite Hprops in Hget. injection Hget as Hget. rewrite <- Hget in Hp.
  assert (Harea : display_priority (VDict props)
                  = match priority_of_area (area_of props) with
                    | Raise ValueError | Raise TypeError => Ok 5
                    | r => r
                    end).
  { unfold display_priority, area_of. cbn [get bind].
    destruct (lookup (lit "gisacres") props); reflexivity. }
  assert (Hpresent : forall e,
             priority_of_area (area_of props) = Raise e ->
             lookup (lit "gisacres") props <> None
             \/ lookup (lit "st_areashape") props <> None).
  { intros e He. unfold area_of in He.
    destruct (lookup (lit "gisacres") props); [left; discriminate|].
    destruct (lookup (lit "st_areashape") props); [right; discriminate|].
    vm_compute in He. discriminate. }
  split; [|split; [|split]].
  - intros Hg Hs. rewrite Hd.
    rewrite (display_priority_default props Hg Hs) in Hp.
    injection Hp as <-. reflexivity.
  - intros a n Hf Hi. rewrite Hd. rewrite Harea in Hp.
    unfold priority_of_area in Hp. rewrite Hf in Hp. cbn [bind] in Hp.
    unfold truediv in Hp.
    change (float_is_zero (float_lit 10000)) with false in Hp.
    cbn [bind] in Hp. rewrite Hi in Hp. cbn [bind] in Hp.
    injection Hp as <-. reflexivity.
  - intros e He.
    assert (Hr : priority_of_area (area_of props) = Raise e).
    { unfold priority_of_area. destruct He as [Hf|[a [Hf Hi]]].
      - rewrite Hf. reflexivity.
      - rewrite Hf. cbn [bind]. unfold truediv.
        change (float_is_zero (float_lit 10000)) with false.
        cbn [bind]. rewrite Hi. reflexivity. }
    rewrite Harea, Hr in Hp.
    split; [|split; [|exact (Hpresent e Hr)]].
    + rewrite Hd. destruct e; try discriminate Hp; injection Hp as <-; reflexivity.
    + destruct e; try discriminate Hp; [right | left]; reflexivity.
  - intros e He. split; [exact (Hpresent e He)|].
    exact (priority_of_area_raise _ _ He).
Qed.

End RecordClaims.

(** ** Sample records *)

Lemma item_wire_names_witness :
  let item := built (build_item (rt := sample_runtime) 1735689600
                       (sample_clock 0) 0 named_feature) in
  lookup (lit "AhupuaaPK") (item_fields item)
  = Some (attr_S (VStr (lit "AHUPUAA#42"))) /\
  lookup (lit "HierarchySK") (item_fields item)
  = Some (attr_S (VStr (lit "MOKUPUNI#Oahu#MOKU#Unknown"))) /\
  lookup (lit "PrimaryKey") (item_fields item) = None.
Proof.
  intros item.
  destruct (item_wire_names (rt := sample_runtime) 1735689600 (sample_clock 0)
              0 named_feature item ltac:(vm_compute; reflexivity))
    as [ids [hash [Hids [_ [Hpk [_ [Hsk [_ [_ [_ [_ [_ [_ Hspec]]]]]]]]]]]]].
  vm_compute in Hids. injection Hids as <-.
  destruct Hsk as [island [district [Hi [Hd Hsk]]]].
  vm_compute in Hi. injection Hi as <-.
  vm_compute in Hd. injection Hd as <-.
  split; [exact Hpk|]. split; [exact Hsk|].
  apply Hspec. left. reflexivity.
Defined.

(** C1 as stated fails: the item built for a sample feature has none of the
    attributes [PrimaryKey], [SortKey], [Name], [IslandName],
    [DistrictName], and its [Metadata] has no [ContentHash]. *)
Lemma item_spec_names_counterexample :
  exists item,
    build_item (rt := sample_runtime) 1735689600 (sample_clock 0) 0 named_feature
    = Ok item /\
    lookup (lit "PrimaryKey") (item_fields item) = None /\
    lookup (lit "SortKey") (item_fields item) = None /\
    lookup (lit "Name") (item_fields item) = None /\
    lookup (lit "IslandName") (item_fields item) = None /\
    lookup (lit "DistrictName") (item_fields item) = None /\
    map_field item (lit "Metadata") (lit "ContentHash") = None.
Proof.
  eexists. split; [vm_compute; reflexivity|].
  repeat split; vm_compute; reflexivity.
Qed.

Lemma sort_key_of_record_witness :
  lookup (lit "HierarchySK")
    (item_fields (built (build_item (rt := sample_runtime) 1735689600
                           (sample_clock 0) 0 named_feature)))
  = Some (attr_S (VStr (lit "MOKUPUNI#" ++ lit "Oahu" ++ lit "#MOKU#"
                        ++ lit "Unknown"))).
Proof.
  apply (sort_key_of_record (rt := sample_runtime) 1735689600 (sample_clock 0)
           0 named_feature _
           [(lit "ahupuaa", VStr (lit "Waikiki"));
            (lit "mokupuni", VStr (lit "  Oahu "));
            (lit "objectid", VInt 42)]).
  - vm_compute. reflexivity.
  - vm_compute. reflexivity.
  - vm_compute. reflexivity.
  - vm_compute. reflexivity.
Defined.

(** The default of the sort key, when island and district are both absent. *)
Example sort_key_default :
  format_hierarchical_key (VStr (lit "Unknown")) (VStr (lit "Unknown"))
  = Ok (lit "MOKUPUNI#Unknown#MOKU#Unknown") /\
  format_hierarchical_key VNone (VStr []) = Ok (lit "MOKUPUNI#Unknown#MOKU#Unknown").
Proof. split; vm_compute; reflexivity. Qed.

Lemma sort_key_blank_segment_witness :
  lookup (lit "HierarchySK")
    (item_fields (built (build_item (rt := sample_runtime) 1735689600
                           (sample_clock 0) 0 blank_island_feature)))
  = Some (attr_S (VStr (lit "MOKUPUNI##MOKU#Unknown"))).
Proof.
  destruct (sort_key_blank_segment (rt := sample_runtime) 1735689600
              (sample_clock 0) 0 blank_island_feature
              (built (build_item (rt := sample_runtime) 1735689600
                        (sample_clock 0) 0 blank_island_feature))
              [(lit "ahupuaa", VStr (lit "Waikiki"));
               (lit "mokupuni", VStr (lit " "))]
              ltac:(vm_compute; reflexivity) ltac:(vm_compute; reflexivity))
    as [island [district [_ [Hd [_ [Hblank _]]]]]].
  vm_compute in Hd. injection Hd as <-.
  destruct (Hblank (lit " ") ltac:(vm_compute; reflexivity)
              ltac:(discriminate) ltac:(vm_compute; reflexivity))
    as [_ [_ Hsk]].
  exact Hsk.
Defined.

(** The same on a sample: an island that is blank after trimming does not
    default to "Unknown"; the key gets an empty island segment. *)
Lemma sort_key_blank_counterexample :
  strip (lit " ") = [] /\
  format_hierarchical_key (VStr (lit " ")) (VStr (lit "Unknown"))
  = Ok (lit "MOKUPUNI##MOKU#Unknown") /\
  lookup (lit "HierarchySK")
    (item_fields (built (build_item (rt := sample_runtime) 1735689600
                           (sample_clock 0) 0 blank_island_feature)))
  = Some (attr_S (VStr (lit "MOKUPUNI##MOKU#Unknown"))) /\
  lit "MOKUPUNI##MOKU#Unknown" <> lit "MOKUPUNI#Unknown#MOKU#Unknown".
Proof.
  repeat split; try (vm_compute; reflexivity).
  vm_compute. discriminate.
Qed.

Lemma feature_hash_stable_witness :
  map_field (built (build_item (rt := sample_runtime) 1735689600
                      (lit "2025-01-01T00:00:00") 0 named_feature))
    (lit "Metadata") (lit "FeatureHash")
  = map_field (built (build_item (rt := sample_runtime) 1767225600
                        (lit "2026-01-01T12:30:00") 7 named_feature))
      (lit "Metadata") (lit "FeatureHash").
Proof.
  apply (feature_hash_stable (rt := sample_runtime) 1735689600 1767225600
           (lit "2025-01-01T00:00:00") (lit "2026-01-01T12:30:00") 0 7
           named_feature).
  - vm_compute. reflexivity.
  - vm_compute. reflexivity.
Defined.

Lemma display_priority_without_area_witness :
  lookup (lit "DisplayPriority")
    (item_fields (built (build_item (rt := sample_runtime) 1735689600
                           (sample_clock 0) 0 named_feature)))
  = Some (attr_N (lit "1")) /\
  lookup (lit "DisplayPriority")
    (item_fields (built (build_item (rt := sample_runtime) 1735689600
                           (sample_clock 0) 0 feature_area_text)))
  = Some (attr_N (lit "5")).
Proof.
  split.
  - apply (proj1 (display_priority_without_area (rt := sample_runtime) 1735689600
                    (sample_clock 0) 0 named_feature _
                    [(lit "ahupuaa", VStr (lit "Waikiki"));
                     (lit "mokupuni", VStr (lit "  Oahu "));
                     (lit "objectid", VInt 42)]
                    ltac:(vm_compute; reflexivity) ltac:(vm_compute; reflexivity)));
      vm_compute; reflexivity.
  - apply (proj1 (proj2 (proj2
             (display_priority_without_area (rt := sample_runtime) 1735689600
                (sample_clock 0) 0 feature_area_text _
                [(lit "gisacres", VStr (lit "n/a"))]
                ltac:(vm_compute; reflexivity) ltac:(vm_compute; reflexivity))))
             ValueError).
    left. vm_compute. reflexivity.
Defined.

(** ** Limited runs *)

Section LimitedRuns.
Context {rt : Runtime}.
Variable data_version : Z.
Variable clock : nat -> pystr.
Variable test_limit : Z.

Import BatchWriter Importer.

Let cap : Z := whole_batches test_limit.

Lemma accepting_outcomes (max_retries : nat) (chunks : list (nat * list pyval)) :
  forallb fst
    (List.map (fun gb => process_batch accepting_store (S max_retries) (snd gb)) chunks)
  = true.
Proof.
  induction chunks as [|[g b] t IH]; [reflexivity|].
  cbn [List.map forallb]. rewrite IH.
  destruct b; reflexivity.
Qed.

Lemma accepting_write (b : list pyval) :
  b <> [] ->
  write_batch_to_dynamo (fun _ => accepting_store) MAX_RETRIES b = Ok true.
Proof.
  intros Hb. destruct b as [|x b]; [congruence|].
  unfold write_batch_to_dynamo, group_outcomes.
  f_equal. apply (accepting_outcomes 9).
Qed.

Lemma cap_bounds : test_limit <= cap < test_limit + 25.
Proof.
  unfold cap, whole_batches.
  pose proof (Z.div_mod (test_limit + 24) 25 ltac:(lia)).
  pose proof (Z.mod_pos_bound (test_limit + 24) 25 ltac:(lia)). lia.
Qed.

Lemma feature_loop_limited (features : list pyval) :
  all_build data_version features ->
  forall (feature_index : nat) (st : loop_state) (c : Z),
    (List.length (batch st) < 25)%nat ->
    Z.of_nat (total_processed st) = 25 * c ->
    (test_limit <= Z.of_nat (total_processed st) -> batch st = []) ->
    Z.of_nat (total_processed st) <= cap ->
    exists st',
      feature_loop data_version clock (fun _ _ => accepting_store) true test_limit
        features feature_index st = Finished st' /\
      count st' = Z.min (count st + Z.of_nat (List.length features)) cap.
Proof.
  pose proof cap_bounds as Hcap.
  assert (Hmul : exists k, cap = 25 * k) by (eexists; reflexivity).
  destruct Hmul as [k Hk].
  induction features as [|f rest IH]; intros Hall idx st c Hb Ht Hfull Hle.
  - exists st. split; [reflexivity|]. unfold count in *.
    cbn [List.length]. 
    destruct (Z_le_gt_dec test_limit (Z.of_nat (total_processed st))) as [H|H].
    + rewrite (Hfull H). cbn [List.length]. lia.
    + lia.
  - inversion Hall as [|f' rest' Hf Hrest]; subst.
    cbn [feature_loop andb].
    destruct (Z.leb_spec test_limit (Z.of_nat (total_processed st))) as [H|H].
    + exists st. split; [reflexivity|]. unfold count.
      rewrite (Hfull H). cbn [List.length]. lia.
    + destruct (Hf (clock idx) idx) as [item Hitem]. rewrite Hitem.
      cbv zeta.
      destruct (Nat.leb_spec BATCH_SIZE (List.length (batch st ++ [item]))) as [Hflush|Hkeep].
      * unfold flush. rewrite accepting_write by (destruct (batch st); discriminate).
        rewrite length_app in Hflush. cbn [List.length] in Hflush. unfold BATCH_SIZE in Hflush.
        match goal with |- context [feature_loop _ _ _ _ _ rest (S idx) ?s] =>
          destruct (IH Hrest (S idx) s (c + 1)) as [st' [Hrun Hcount]] end.
        -- cbn. lia.
        -- cbn [total_processed]. rewrite length_app. cbn [List.length]. lia.
        -- intros _. reflexivity.
        -- cbn [total_processed]. rewrite length_app. cbn [List.length]. lia.
        -- exists st'. split; [exact Hrun|]. rewrite Hcount. unfold count.
           cbn [total_processed batch List.length]. rewrite length_app. cbn [List.length]. lia.
      * rewrite length_app in Hkeep. cbn [List.length] in Hkeep. unfold BATCH_SIZE in Hkeep.
        match goal with |- context [feature_loop _ _ _ _ _ rest (S idx) ?s] =>
          destruct (IH Hrest (S idx) s c) as [st' [Hrun Hcount]] end.
        -- cbn [batch]. rewrite length_app. cbn [List.length]. lia.
        -- exact Ht.
        -- cbn [total_processed]. lia.
        -- exact Hle.
        -- exists st'. split; [exact Hrun|]. rewrite Hcount. unfold count.
           cbn [total_processed batch List.length]. rewrite length_app. cbn [List.length]. lia.
Qed.

(** In test mode, against a store that accepts every write, a document whose
    features all make a record has its first min(n, 25 * ceil(limit / 25))
    features imported: the limit rounded up to whole batches. *)
Lemma limited_run_count (features : list pyval) :
  all_build data_version features ->
  1 <= test_limit ->
  let run := process_geojson data_version clock (fun _ _ => accepting_store)
               true test_limit features in
  success run = true /\
  Z.of_nat (imported run) = Z.min (Z.of_nat (List.length features)) cap.
Proof.
  intros Hall Hlimit run. unfold run, process_geojson.
  pose proof cap_bounds as Hcap.
  destruct (feature_loop_limited features Hall 0
              {| batch := []; total_processed := 0; calls := 0; written := [] |} 0)
    as [st' [Hrun Hcount]]; cbn [batch total_processed List.length]; try lia.
  rewrite Hrun. unfold count in Hcount. cbn [batch total_processed List.length] in Hcount.
  destruct (batch st') as [|x b] eqn:Eb.
  - cbn [report success imported]. cbn [List.length] in Hcount. split; [reflexivity | lia].
  - unfold flush. rewrite accepting_write by discriminate.
    cbn [report success imported total_processed]. split; [reflexivity|].
    rewrite Nat2Z.inj_add. lia.
Qed.

End LimitedRuns.


(** The sample features make a record at every position. *)
Example thirty_features_build :
  all_build (rt := sample_runtime) 1735689600 thirty_features.
Proof.
  apply Forall_forall. intros f Hf.
  apply repeat_spec in Hf. subst f.
  intros now i. eexists. vm_compute. reflexivity.
Qed.

(** C2 fails on the code. With the default limit of 2 and a store that
    accepts everything, a document of thirty features has 25 records
    imported, in one batch: the limit is compared with [total_processed],
    which only moves when a batch of [BATCH_SIZE] is written. A document of
    ten features has all ten imported. *)
Theorem limited_run_imports_whole_batches :
  let run := Importer.process_geojson (rt := sample_runtime) 1735689600
               sample_clock (fun _ _ => accepting_store) true 2 in
  Importer.success (run thirty_features) = true /\
  Importer.imported (run thirty_features) = 25%nat /\
  List.map (@List.length pyval) (Importer.batches (run thirty_features)) = [25%nat] /\
  Importer.success (run ten_features) = true /\
  Importer.imported (run ten_features) = 10%nat.
Proof.
  intros run. repeat split; vm_compute; reflexivity.
Qed.

(** ** The quotient of a binary64 number by 10000

    [SFdiv] is unfolded for the divisor 10000.0: the integer quotient of the
    mantissas has 53 or 54 digits (fewer below the normal range), so that
    the rounding shifts by at most one digit. *)

Lemma float_lit_10000 : float_lit 10000 = S754_finite false 5497558138880000 (-39).
Proof. vm_compute. reflexivity. Qed.

Lemma digits_bounds (p : positive) :
  2 ^ (Zpos (digits2_pos p) - 1) <= Zpos p < 2 ^ Zpos (digits2_pos p).
Proof.
  induction p as [p IH|p IH|]; simpl digits2_pos.
  - rewrite Pos2Z.inj_succ.
    replace (Z.succ (Zpos (digits2_pos p)) - 1) with (Z.succ (Zpos (digits2_pos p) - 1)) by lia.
    rewrite !Z.pow_succ_r by lia. lia.
  - rewrite Pos2Z.inj_succ.
    replace (Z.succ (Zpos (digits2_pos p)) - 1) with (Z.succ (Zpos (digits2_pos p) - 1)) by lia.
    rewrite !Z.pow_succ_r by lia. lia.
  - simpl. lia.
Qed.

Lemma digits_unique (p : positive) (k : Z) :
  2 ^ (k - 1) <= Zpos p < 2 ^ k -> Zpos (digits2_pos p) = k.
Proof.
  intros [Hlo Hhi]. pose proof (digits_bounds p) as [Dlo Dhi].
  set (d := Zpos (digits2_pos p)) in *.
  assert (0 < k). { destruct (Z_lt_le_dec 0 k); [assumption|]. 
    assert (2 ^ k <= 1). { destruct (Z.eq_dec k 0) as [->|]; [simpl; lia|]. rewrite Z.pow_neg_r by lia. lia. } lia. }
  assert (d - 1 < k). { apply (Z.pow_lt_mono_r_iff 2); lia. }
  assert (k - 1 < d). { apply (Z.pow_lt_mono_r_iff 2); lia. }
  lia.
Qed.

Lemma div_eucl_div_mod a b : Z.div_eucl a b = (a / b, a mod b).
Proof. unfold Z.div, Z.modulo. destruct (Z.div_eucl a b). reflexivity. Qed.

(** What a valid mantissa and exponent are: at most 53 digits, and exactly
    53 unless the exponent is the smallest one. *)
Lemma bounded_inv m e :
  bounded prec emax m e = true ->
  let d := Zpos (digits2_pos m) in
  d <= 53 /\ -1074 <= e <= 971 /\ (d = 53 \/ e = -1074).
Proof.
  unfold bounded, canonical_mantissa, fexp, emin, prec, emax. intros H.
  apply andb_prop in H. destruct H as [H1 H2].
  apply Z.eqb_eq in H1. apply Z.leb_le in H2. lia.
Qed.

Lemma core_eq (m : positive) (e : Z) :
  bounded prec emax m e = true ->
  let d := Zpos (digits2_pos m) in
  let e' := Z.max (d + e - 67) (-1074) in
  let s := e + 39 - e' in
  SFdiv_core_binary prec emax (Zpos m) e mc (-39)
  = ((Zpos m * 2 ^ s) / mc, e',
     new_location_even mc ((Zpos m * 2 ^ s) mod mc)).
Proof.
  intros Hb d e' s. pose proof (bounded_inv m e Hb) as Hv. cbv zeta in Hv. fold d in Hv.
  unfold SFdiv_core_binary.
  change (Zdigits2 (Zpos m)) with d.
  change (Zdigits2 mc) with 53.
  replace (Z.min (fexp prec emax (d + e - (53 + -39))) (e - -39)) with e'
    by (unfold fexp, emin, prec, emax, e'; lia).
  replace (e - -39 - e') with s by (unfold s; lia).
  assert (Hs : 0 < s) by (unfold s, e'; lia).
  destruct s as [|ps|ps] eqn:Es; try lia.
  rewrite Z.shiftl_mul_pow2 by lia.
  rewrite div_eucl_div_mod. reflexivity.
Qed.

Lemma shr_m_of_loc m l : shr_m (shr_record_of_loc m l) = m.
Proof. destruct l as [|[]]; reflexivity. Qed.

Lemma loc_of_loc m l : loc_of_shr_record (shr_record_of_loc m l) = l.
Proof. destruct l as [|[]]; reflexivity. Qed.

Lemma round_even_bounds m l :
  m <= round_nearest_even m l <= m + 1.
Proof.
  unfold round_nearest_even. destruct l as [|[]]; try lia.
  destruct (Z.even m); lia.
Qed.

Lemma round_aux_no_shift sx mx ex lx :
  fexp prec emax (Zdigits2 mx + ex) <= ex ->
  binary_round_aux prec emax sx mx ex lx
  = finish sx (round_nearest_even mx lx) ex.
Proof.
  intros Hn. unfold binary_round_aux, finish.
  unfold shr_fexp at 1. unfold shr.
  destruct (fexp prec emax (Zdigits2 mx + ex) - ex) eqn:En; try lia;
    rewrite shr_m_of_loc, loc_of_loc; reflexivity.
Qed.

Lemma shr_1_halves mx lx :
  0 <= mx ->
  let r := shr_1 (shr_record_of_loc mx lx) in
  let m1 := round_nearest_even (shr_m r) (loc_of_shr_record r) in
  mx / 2 <= m1 <= mx / 2 + 1 /\ (Z.even mx = true -> m1 = mx / 2).
Proof.
  intros Hm.
  destruct mx as [|p|p]; [| |lia].
  - change (0 / 2) with 0. destruct lx as [|[]]; simpl;
      (split; [lia | first [discriminate | intros _; reflexivity]]).
  - destruct p as [p|p|].
    + assert (E : Zpos p~1 / 2 = Zpos p).
      { change (Zpos p~1) with (2 * Zpos p + 1).
        rewrite Z.add_comm, Z.mul_comm, Z.div_add by lia. reflexivity. }
      rewrite E. change (Z.even (Zpos p~1)) with false.
      destruct lx as [|[]];
        cbn [shr_1 shr_record_of_loc loc_of_shr_record shr_m round_nearest_even orb];
        try (destruct (Z.even (Zpos p)));
        (split; [lia | discriminate]).
    + assert (E : Zpos p~0 / 2 = Zpos p).
      { change (Zpos p~0) with (2 * Zpos p). rewrite Z.mul_comm, Z.div_mul by lia. reflexivity. }
      rewrite E.
      destruct lx as [|[]];
        cbn [shr_1 shr_record_of_loc loc_of_shr_record shr_m round_nearest_even orb];
        (split; [lia | intros _; reflexivity]).
    + change (1 / 2) with 0. change (Z.even 1) with false.
      destruct lx as [|[]];
        cbn [shr_1 shr_record_of_loc loc_of_shr_record shr_m round_nearest_even orb];
        change (Z.even 0) with true; cbv iota;
        (split; [lia | discriminate]).
Qed.

Lemma round_aux_shift_one sx mx ex lx :
  fexp prec emax (Zdigits2 mx + ex) = ex + 1 ->
  let r := shr_1 (shr_record_of_loc mx lx) in
  binary_round_aux prec emax sx mx ex lx
  = finish sx (round_nearest_even (shr_m r) (loc_of_shr_record r)) (ex + 1).
Proof.
  intros Hn r. unfold binary_round_aux, finish.
  unfold shr_fexp at 1. unfold shr.
  replace (fexp prec emax (Zdigits2 mx + ex) - ex) with 1 by lia.
  reflexivity.
Qed.

Lemma int_of_finite s p e :
  int_of_float (S754_finite s p e) = Ok (signed s (trunc_scaled (Zpos p) e)).
Proof.
  unfold int_of_float, trunc_scaled, signed.
  destruct e as [|k|k].
  - reflexivity.
  - reflexivity.
  - change (0 <=? Zneg k) with false. cbv iota.
    rewrite Z.shiftr_div_pow2 by lia. reflexivity.
Qed.

Lemma digits_le_53 p : Zpos p < 2 ^ 53 -> Zpos (digits2_pos p) <= 53.
Proof.
  intros H. pose proof (digits_bounds p) as [Hlo _].
  assert (Zpos (digits2_pos p) - 1 < 53); [|lia].
  apply (Z.pow_lt_mono_r_iff 2); lia.
Qed.

Lemma finish_int sx m1 e1 :
  0 <= m1 <= 2 ^ 53 -> -1074 <= e1 <= 970 ->
  int_of_float (finish sx m1 e1) = Ok (signed sx (trunc_scaled m1 e1)).
Proof.
  intros Hm He. unfold finish, shr_fexp, shr.
  destruct m1 as [|p|p]; [| |lia].
  - change (Zdigits2 0) with 0.
    destruct (fexp prec emax (0 + e1) - e1) eqn:En.
    + simpl. unfold trunc_scaled, signed.
      destruct (0 <=? e1), sx; reflexivity.
    + unfold fexp, emin, prec, emax in En. lia.
    + simpl. unfold trunc_scaled, signed.
      destruct (0 <=? e1), sx; reflexivity.
  - change (Zdigits2 (Zpos p)) with (Zpos (digits2_pos p)).
    destruct (Z.eq_dec (Zpos p) (2 ^ 53)) as [E|NE].
    + injection E as ->.
      change (Zpos (digits2_pos 9007199254740992)) with 54.
      replace (fexp prec emax (54 + e1) - e1) with 1
        by (unfold fexp, emin, prec, emax; lia).
      cbn [iter_pos shr_1 shr_record_of_loc shr_m orb].
      replace (e1 + 1 <=? emax - prec) with true
        by (symmetry; apply Z.leb_le; unfold emax, prec; lia).
      rewrite int_of_finite. f_equal. f_equal.
      unfold trunc_scaled.
      destruct (Z.leb_spec 0 e1) as [H0|H0].
      * replace (0 <=? e1 + 1) with true by (symmetry; apply Z.leb_le; lia).
        rewrite Z.pow_add_r by lia. lia.
      * destruct (Z.leb_spec 0 (e1 + 1)) as [H1|H1].
        -- replace e1 with (-1) by lia. reflexivity.
        -- replace (- e1) with ((- (e1 + 1)) + 1) by lia.
           rewrite (Z.pow_add_r 2 (- (e1 + 1)) 1) by lia.
           change 9007199254740992 with (4503599627370496 * 2 ^ 1).
           rewrite Z.div_mul_cancel_r; [reflexivity | | lia].
           apply Z.pow_nonzero; lia.
    + assert (Hlt : Zpos p < 2 ^ 53) by lia.
      pose proof (digits_le_53 p Hlt) as Hd.
      assert (Hn : fexp prec emax (Zpos (digits2_pos p) + e1) - e1 <= 0)
        by (unfold fexp, emin, prec, emax; lia).
      replace (e1 <=? emax - prec) with true
        by (symmetry; apply Z.leb_le; unfold emax, prec; lia).
      destruct (fexp prec emax (Zpos (digits2_pos p) + e1) - e1) eqn:En;
        try lia; cbn [shr_record_of_loc shr_m];
        replace (e1 <=? emax - prec) with true
          by (symmetry; apply Z.leb_le; unfold emax, prec; lia);
        apply int_of_finite.
Qed.

Lemma clamp_thresholds (t t' : Z) :
  (forall k, 2 <= k <= 10 -> (k <= t <-> k <= t')) -> clamp t = clamp t'.
Proof.
  intros H. unfold clamp.
  pose proof (H 2). pose proof (H 3). pose proof (H 4). pose proof (H 5).
  pose proof (H 6). pose proof (H 7). pose proof (H 8). pose proof (H 9).
  pose proof (H 10). lia.
Qed.

Lemma le_div_iff (a b k : Z) : 0 < b -> (k <= a / b <-> k * b <= a).
Proof.
  intros Hb. split; intros H.
  - pose proof (Z.mul_div_le a b Hb). nia.
  - apply Z.div_le_lower_bound; lia.
Qed.

Lemma trunc_scaled_neg (m1 E : Z) :
  E < 0 -> trunc_scaled m1 E = m1 / 2 ^ (- E).
Proof.
  intros H. unfold trunc_scaled.
  destruct (Z.leb_spec 0 E); [lia | reflexivity].
Qed.

(** A quotient below the normal range is truncated to 0, as the exact one. *)
Lemma arith_tiny (m m1 d e : Z) :
  0 < m < 2 ^ d -> 0 <= m1 <= 2 ^ 53 -> 0 <= d -> -1074 <= e -> d + e <= -1008 ->
  clamp (trunc_scaled m1 (-1074))
  = clamp (m * 2 ^ (e + 1074) / (10000 * 2 ^ 1074)).
Proof.
  intros Hm Hm1 Hd He Hde.
  rewrite trunc_scaled_neg by lia.
  assert (H1 : m1 / 2 ^ (- -1074) = 0).
  { apply Z.div_small. split; [lia|].
    apply Z.le_lt_trans with (2 ^ 53); [lia|].
    apply Z.pow_lt_mono_r; lia. }
  assert (H2 : m * 2 ^ (e + 1074) / (10000 * 2 ^ 1074) = 0).
  { apply Z.div_small. split.
    - apply Z.mul_nonneg_nonneg; [lia|]. apply Z.pow_nonneg. lia.
    - assert (m * 2 ^ (e + 1074) < 2 ^ d * 2 ^ (e + 1074)).
      { apply Z.mul_lt_mono_pos_r; [|lia]. apply Z.pow_pos_nonneg; lia. }
      rewrite <- Z.pow_add_r in H by lia.
      assert (2 ^ (d + (e + 1074)) <= 2 ^ 1074) by (apply Z.pow_le_mono_r; lia).
      assert (0 < 2 ^ 1074) by (apply Z.pow_pos_nonneg; lia).
      lia. }
  rewrite H1, H2. reflexivity.
Qed.

(** From 2^57 on, the quotient and the exact one are both above 10. *)
Lemma arith_big (m m1 e E : Z) :
  2 ^ 52 <= m -> 2 ^ 52 <= m1 -> 5 <= e -> e - 14 <= E ->
  clamp (trunc_scaled m1 E)
  = clamp (m * 2 ^ (e + 1074) / (10000 * 2 ^ 1074)).
Proof.
  intros Hm Hm1 He HE.
  assert (H1 : 10 <= trunc_scaled m1 E).
  { unfold trunc_scaled. destruct (Z.leb_spec 0 E) as [H0|H0].
    - assert (1 <= 2 ^ E) by (apply (Z.pow_le_mono_r 2 0 E); lia). nia.
    - apply le_div_iff; [apply Z.pow_pos_nonneg; lia|].
      assert (2 ^ (- E) <= 2 ^ 9) by (apply Z.pow_le_mono_r; lia).
      change (2 ^ 9) with 512 in *. change (2 ^ 52) with 4503599627370496 in *.
      lia. }
  assert (H2 : 10 <= m * 2 ^ (e + 1074) / (10000 * 2 ^ 1074)).
  { assert (0 < 2 ^ 1074) by (apply Z.pow_pos_nonneg; lia).
    apply le_div_iff; [lia|].
    rewrite Z.pow_add_r by lia.
    assert (2 ^ 5 <= 2 ^ e) by (apply Z.pow_le_mono_r; lia).
    change (2 ^ 5) with 32 in *. change (2 ^ 52) with 4503599627370496 in *.
    nia. }
  unfold clamp. lia.
Qed.

(** The exact quotient reaches [k] when the mantissa reaches 625 * k * 2^(4-e). *)
Lemma exact_threshold (m e k : Z) :
  -1074 <= e <= 4 ->
  (k <= m * 2 ^ (e + 1074) / (10000 * 2 ^ 1074) <-> 625 * k * 2 ^ (4 - e) <= m).
Proof.
  intros He.
  assert (HW : 0 < 2 ^ (e + 1074)) by (apply Z.pow_pos_nonneg; lia).
  assert (H0 : 0 < 2 ^ 1074) by (apply Z.pow_pos_nonneg; lia).
  rewrite le_div_iff by lia.
  assert (E : 10000 * 2 ^ 1074 = 625 * 2 ^ (4 - e) * 2 ^ (e + 1074)).
  { rewrite <- Z.mul_assoc, <- Z.pow_add_r by lia.
    replace (4 - e + (e + 1074)) with (4 + 1074) by lia.
    rewrite Z.pow_add_r by lia. change (2 ^ 4) with 16. lia. }
  rewrite E. set (P := 2 ^ (4 - e)) in *. set (W := 2 ^ (e + 1074)) in *.
  split; intros H; nia.
Qed.

(** The rounded quotient reaches a threshold when the exact one does: the
    mantissa is an integer, so the exact quotient stays more than half a
    unit in the last place below every threshold it does not reach. First
    for a quotient of 53 digits, then for one of 54 digits. *)
Lemma arith_small (m m1 e : Z) :
  -1060 <= e <= 4 ->
  let q := 1024 * m / 625 in
  q <= m1 <= q + 1 ->
  clamp (trunc_scaled m1 (e - 14))
  = clamp (m * 2 ^ (e + 1074) / (10000 * 2 ^ 1074)).
Proof.
  intros He q Hm1. apply clamp_thresholds. intros k Hk.
  rewrite trunc_scaled_neg by lia.
  rewrite exact_threshold by lia.
  assert (HP : 0 < 2 ^ (4 - e)) by (apply Z.pow_pos_nonneg; lia).
  replace (- (e - 14)) with (4 - e + 10) by lia.
  rewrite Z.pow_add_r by lia. change (2 ^ 10) with 1024.
  rewrite le_div_iff by lia.
  set (P := 2 ^ (4 - e)) in *.
  pose proof (Z.div_mod (1024 * m) 625 ltac:(lia)) as Hd.
  pose proof (Z.mod_pos_bound (1024 * m) 625 ltac:(lia)) as Hr.
  fold q in Hd.
  set (K := k * P) in *.
  replace (k * (P * 1024)) with (1024 * K) by (unfold K; lia).
  replace (625 * k * P) with (625 * K) by (unfold K; lia).
  lia.
Qed.

Lemma arith_small_shift (m m1 e : Z) :
  -1060 <= e <= 4 ->
  let q := 1024 * m / 625 in
  q / 2 <= m1 <= q / 2 + 1 ->
  (Z.even q = true -> m1 = q / 2) ->
  clamp (trunc_scaled m1 (e - 14 + 1))
  = clamp (m * 2 ^ (e + 1074) / (10000 * 2 ^ 1074)).
Proof.
  intros He q Hm1 Heven. apply clamp_thresholds. intros k Hk.
  rewrite trunc_scaled_neg by lia.
  rewrite exact_threshold by lia.
  assert (HP : 0 < 2 ^ (4 - e)) by (apply Z.pow_pos_nonneg; lia).
  replace (- (e - 14 + 1)) with (4 - e + 9) by lia.
  rewrite Z.pow_add_r by lia. change (2 ^ 9) with 512.
  rewrite le_div_iff by lia.
  set (P := 2 ^ (4 - e)) in *.
  pose proof (Z.div_mod (1024 * m) 625 ltac:(lia)) as Hd.
  pose proof (Z.mod_pos_bound (1024 * m) 625 ltac:(lia)) as Hr.
  fold q in Hd.
  pose proof (Z.div_mod q 2 ltac:(lia)) as Hd2.
  pose proof (Z.mod_pos_bound q 2 ltac:(lia)) as Hr2.
  assert (Hpar : q mod 2 = 0 -> m1 = q / 2).
  { intros H0. apply Heven. rewrite Z.even_spec. 
    exists (q / 2). lia. }
  set (K := k * P) in *.
  replace (k * (P * 512)) with (512 * K) by (unfold K; lia).
  replace (625 * k * P) with (625 * K) by (unfold K; lia).
  set (h := q / 2) in *. set (r2 := q mod 2) in *.
  assert (r2 = 0 \/ r2 = 1) by lia.
  destruct H as [H|H]; [specialize (Hpar H)|]; lia.
Qed.

Lemma zdigits_le_53 (q : Z) : 0 <= q < 2 ^ 53 -> Zdigits2 q <= 53.
Proof.
  intros [H0 H1]. destruct q as [|p|p]; [simpl; lia | | lia].
  apply digits_le_53. exact H1.
Qed.

Lemma zdigits_exact (q k : Z) : 0 < k -> 2 ^ (k - 1) <= q < 2 ^ k -> Zdigits2 q = k.
Proof.
  intros Hk H. destruct q as [|p|p].
  - assert (0 < 2 ^ (k - 1)) by (apply Z.pow_pos_nonneg; lia). lia.
  - apply digits_unique. exact H.
  - assert (0 < 2 ^ (k - 1)) by (apply Z.pow_pos_nonneg; lia). lia.
Qed.

(** [int(a / 10000)] for a positive or negative binary64 number a: a value
    whose clamp is the clamp of the exact quotient. *)
Lemma div_10000_magnitude (s : bool) (m : positive) (e : Z) :
  bounded prec emax m e = true ->
  exists t,
    int_of_float (float_div (S754_finite s m e) (float_lit 10000))
    = Ok (signed s t) /\
    0 <= t /\
    clamp t = clamp (Zpos m * 2 ^ (e + 1074) / (10000 * 2 ^ 1074)).
Proof.
  intros Hb.
  pose proof (bounded_inv m e Hb) as Hv. cbv zeta in Hv.
  pose proof (digits_bounds m) as Hm.
  rewrite float_lit_10000. unfold float_div. cbn [SFdiv].
  fold mc.
  rewrite (core_eq m e Hb). rewrite xorb_false_r.
  set (d := Zpos (digits2_pos m)) in *.
  set (e' := Z.max (d + e - 67) (-1074)).
  set (sh := e + 39 - e').
  set (A := Zpos m * 2 ^ sh).
  set (q := A / mc).
  set (loc := new_location_even mc (A mod mc)).
  assert (Hmc : mc = 625 * 2 ^ 43) by reflexivity.
  assert (Hmcpos : 0 < mc) by reflexivity.
  assert (Hsh : 0 <= sh) by (unfold sh, e'; lia).
  assert (HA0 : 0 <= A).
  { unfold A. apply Z.mul_nonneg_nonneg; [lia|]. apply Z.pow_nonneg. lia. }
  assert (Hq0 : 0 <= q) by (apply Z.div_pos; assumption).
  destruct (Z_lt_le_dec (d + e - 67) (-1074)) as [Htiny|Hnormal].
  - (* the quotient is below the normal range *)
    assert (He' : e' = -1074) by (unfold e'; lia).
    assert (Hq : q < 2 ^ 53).
    { apply Z.div_lt_upper_bound; [assumption|].
      assert (A < 2 ^ d * 2 ^ sh).
      { unfold A. apply Z.mul_lt_mono_pos_r; [apply Z.pow_pos_nonneg; lia | lia]. }
      rewrite <- Z.pow_add_r in H by lia.
      assert (2 ^ (d + sh) <= 2 ^ 105)
        by (apply Z.pow_le_mono_r; unfold sh; lia).
      assert (2 ^ 105 <= mc * 2 ^ 53) by (vm_compute; discriminate).
      lia. }
    pose proof (zdigits_le_53 q (conj Hq0 Hq)) as Hdq.
    rewrite round_aux_no_shift
      by (rewrite He'; unfold fexp, emin, prec, emax; lia).
    pose proof (round_even_bounds q loc) as Hr.
    set (m1 := round_nearest_even q loc) in *.
    exists (trunc_scaled m1 e'). split; [|split].
    + apply finish_int; lia.
    + rewrite He', trunc_scaled_neg by lia.
      apply Z.div_pos; [lia | apply Z.pow_pos_nonneg; lia].
    + rewrite He'. apply (arith_tiny (Zpos m) m1 d e); lia.
  - (* a normal quotient *)
    assert (Hd : d = 53) by lia.
    assert (He' : e' = e - 14) by (unfold e'; lia).
    assert (Hshv : sh = 53) by (unfold sh; lia).
    assert (Hqv : q = 1024 * Zpos m / 625).
    { unfold q, A. rewrite Hshv, Hmc.
      replace (Zpos m * 2 ^ 53) with (Zpos m * 1024 * 2 ^ 43)
        by (change (2 ^ 53) with (1024 * 2 ^ 43); lia).
      rewrite Z.div_mul_cancel_r by (try apply Z.pow_nonzero; lia).
      f_equal. lia. }
    rewrite Hd in Hm.
    pose proof (Z.div_mod (1024 * Zpos m) 625 ltac:(lia)) as Hdm.
    pose proof (Z.mod_pos_bound (1024 * Zpos m) 625 ltac:(lia)) as Hrm.
    rewrite <- Hqv in Hdm.
    change (2 ^ (53 - 1)) with 4503599627370496 in Hm.
    change (2 ^ 53) with 9007199254740992 in Hm.
    assert (Hqlo : 2 ^ 52 <= q) by (change (2 ^ 52) with 4503599627370496; lia).
    assert (Hqhi : q < 2 ^ 54) by (change (2 ^ 54) with 18014398509481984; lia).
    destruct (Z_lt_le_dec q (2 ^ 53)) as [Hq53|Hq53].
    + (* 53 digits: no shift *)
      assert (Hdq : Zdigits2 q = 53) by (apply zdigits_exact; [lia|]; split; assumption).
      rewrite round_aux_no_shift
        by (rewrite Hdq, He'; unfold fexp, emin, prec, emax; lia).
      pose proof (round_even_bounds q loc) as Hr.
      set (m1 := round_nearest_even q loc) in *.
      exists (trunc_scaled m1 e'). split; [|split].
      * apply finish_int; lia.
      * unfold trunc_scaled. destruct (Z.leb_spec 0 e').
        -- apply Z.mul_nonneg_nonneg; [lia | apply Z.pow_nonneg; lia].
        -- apply Z.div_pos; [lia | apply Z.pow_pos_nonneg; lia].
      * rewrite He'. destruct (Z_le_gt_dec e 4) as [Hsmall|Hbig].
        -- apply (arith_small (Zpos m) m1 e); [lia|]. rewrite <- Hqv. exact Hr.
        -- apply (arith_big (Zpos m) m1 e (e - 14));
             change (2 ^ 52) with 4503599627370496 in *; lia.
    + (* 54 digits: one shift *)
      assert (Hdq : Zdigits2 q = 54) by (apply zdigits_exact; [lia|]; split; assumption).
      rewrite round_aux_shift_one
        by (rewrite Hdq, He'; unfold fexp, emin, prec, emax; lia).
      destruct (shr_1_halves q loc Hq0) as [Hr Heven].
      set (m1 := round_nearest_even _ _) in *.
      assert (Hh : 2 ^ 52 <= q / 2 < 2 ^ 53).
      { change (2 ^ 52) with 4503599627370496. change (2 ^ 53) with 9007199254740992 in *.
        change (2 ^ 54) with 18014398509481984 in *.
        pose proof (Z.div_mod q 2 ltac:(lia)). pose proof (Z.mod_pos_bound q 2 ltac:(lia)).
        lia. }
      exists (trunc_scaled m1 (e' + 1)). split; [|split].
      * apply finish_int; lia.
      * unfold trunc_scaled. destruct (Z.leb_spec 0 (e' + 1)).
        -- apply Z.mul_nonneg_nonneg; [lia | apply Z.pow_nonneg; lia].
        -- apply Z.div_pos; [lia | apply Z.pow_pos_nonneg; lia].
      * rewrite He'. destruct (Z_le_gt_dec e 4) as [Hsmall|Hbig].
        -- apply (arith_small_shift (Zpos m) m1 e); [lia | |]; rewrite <- Hqv; assumption.
        -- apply (arith_big (Zpos m) m1 e (e - 14 + 1));
             change (2 ^ 52) with 4503599627370496 in *; lia.
Qed.

(** ** Display priority *)

(** Of two binary64 numbers, the one with the smaller exponent is the
    smaller. *)
Lemma magnitude_lt (m1 m2 : positive) (e1 e2 : Z) :
  bounded prec emax m1 e1 = true ->
  bounded prec emax m2 e2 = true ->
  e1 < e2 ->
  Zpos m1 * 2 ^ (e1 + 1074) < Zpos m2 * 2 ^ (e2 + 1074).
Proof.
  intros H1 H2 He.
  pose proof (bounded_inv m1 e1 H1) as V1. pose proof (bounded_inv m2 e2 H2) as V2.
  cbv zeta in V1, V2.
  pose proof (digits_bounds m1) as D1. pose proof (digits_bounds m2) as D2.
  assert (Hd2 : Zpos (digits2_pos m2) = 53) by lia.
  rewrite Hd2 in D2.
  assert (Hm1 : Zpos m1 < 2 ^ 53).
  { apply Z.lt_le_trans with (2 ^ Zpos (digits2_pos m1)); [lia|].
    apply Z.pow_le_mono_r; lia. }
  assert (P1 : 0 < 2 ^ (e1 + 1074)) by (apply Z.pow_pos_nonneg; lia).
  assert (E : 2 ^ (e2 + 1074) = 2 ^ (e2 - e1 - 1) * 2 * 2 ^ (e1 + 1074)).
  { replace (e2 + 1074) with ((e2 - e1 - 1) + 1 + (e1 + 1074)) by lia.
    rewrite !Z.pow_add_r by lia. reflexivity. }
  assert (P2 : 1 <= 2 ^ (e2 - e1 - 1))
    by (apply (Z.pow_le_mono_r 2 0); lia).
  rewrite E.
  change (2 ^ (53 - 1)) with 4503599627370496 in D2.
  change (2 ^ 53) with 9007199254740992 in Hm1.
  nia.
Qed.

(** The order of Python's [<=] on binary64 numbers is the order of their
    values. *)
Lemma scaled_order (a a' : spec_float) :
  is_finite a = true -> is_finite a' = true ->
  valid_binary prec emax a = true -> valid_binary prec emax a' = true ->
  SFleb a a' = true -> scaled a <= scaled a'.
Proof.
  assert (Hpos : forall m e, 0 < Zpos m * 2 ^ (e + 1074) \/ e + 1074 < 0).
  { intros m e. destruct (Z_lt_le_dec (e + 1074) 0); [right; assumption|].
    left. apply Z.mul_pos_pos; [lia | apply Z.pow_pos_nonneg; lia]. }
  intros F F' V V' Hle.
  destruct a as [s|s| |s m e], a' as [s'|s'| |s' m' e']; try discriminate;
    unfold SFleb, SFcompare in Hle; cbn [scaled signed valid_binary] in *.
  - pose proof (bounded_inv m' e' V') as B. cbv zeta in B.
    destruct (Hpos m' e'); [|lia]. destruct s'; [discriminate|]. unfold signed. lia.
  - pose proof (bounded_inv m e V) as B. cbv zeta in B.
    destruct (Hpos m e); [|lia]. destruct s; [|discriminate]. unfold signed. lia.
  - pose proof (bounded_inv m e V) as B. cbv zeta in B.
    pose proof (bounded_inv m' e' V') as B'. cbv zeta in B'.
    destruct (Hpos m e) as [P|]; [|lia]. destruct (Hpos m' e') as [P'|]; [|lia].
    destruct s, s'; unfold signed; try discriminate.
    + destruct (Z.compare_spec e e') as [E|E|E]; try discriminate.
      * subst e'. 
        assert (Zpos m' <= Zpos m).
        { change (Pos.compare_cont Eq m m') with (Pos.compare m m') in Hle.
          destruct (Pos.compare_spec m m'); try discriminate; lia. }
        nia.
      * pose proof (magnitude_lt m' m e' e V' V E). lia.
    + lia.
    + destruct (Z.compare_spec e e') as [E|E|E]; try discriminate.
      * subst e'.
        assert (Zpos m <= Zpos m').
        { change (Pos.compare_cont Eq m m') with (Pos.compare m m') in Hle.
          destruct (Pos.compare_spec m m'); try discriminate; lia. }
        nia.
      * pose proof (magnitude_lt m m' e e' V V' E). lia.
Qed.

Lemma clamp_range (z : Z) : 1 <= clamp z <= 10.
Proof. unfold clamp. lia. Qed.

Lemma clamp_mono (z z' : Z) : z <= z' -> clamp z <= clamp z'.
Proof. unfold clamp. lia. Qed.

Lemma clamp_nonpos (z : Z) : z <= 0 -> clamp z = 1.
Proof. unfold clamp. lia. Qed.

(** [int(a / 10000)], clamped, is the clamped exact quotient. *)
Lemma int_div_10000_exact (a : spec_float) :
  is_finite a = true ->
  valid_binary prec emax a = true ->
  exists n,
    int_of_float (float_div a (float_lit 10000)) = Ok n /\
    clamp n = exact_priority a.
Proof.
  intros Hfin Hvalid. destruct a as [s|s| |s m e]; try discriminate.
  - exists 0. split; [reflexivity|]. reflexivity.
  - destruct (div_10000_magnitude s m e Hvalid) as [t [Hint [Ht Hc]]].
    exists (signed s t). split; [exact Hint|].
    unfold exact_priority, scaled.
    assert (HX : 0 <= Zpos m * 2 ^ (e + 1074)).
    { apply Z.mul_nonneg_nonneg; [lia | apply Z.pow_nonneg; lia]. }
    assert (HD : 0 < 10000 * 2 ^ 1074).
    { assert (0 < 2 ^ 1074) by (apply Z.pow_pos_nonneg; lia). lia. }
    destruct s; unfold signed.
    + rewrite Z.quot_opp_l by lia.
      rewrite !clamp_nonpos; [reflexivity | | lia].
      assert (0 <= Zpos m * 2 ^ (e + 1074) ÷ (10000 * 2 ^ 1074))
        by (apply Z.quot_pos; lia).
      lia.
    + rewrite Z.quot_div_nonneg by lia. exact Hc.
Qed.

Section PriorityClaims.
Context {rt : Runtime}.

Lemma priority_of_area_exact (area : pyval) (a : spec_float) :
  float area = Ok a ->
  is_finite a = true ->
  valid_binary prec emax a = true ->
  priority_of_area area = Ok (exact_priority a).
Proof.
  intros Hf Hfin Hvalid. unfold priority_of_area. rewrite Hf. cbn [bind].
  unfold truediv. change (float_is_zero (float_lit 10000)) with false.
  cbn [bind].
  destruct (int_div_10000_exact a Hfin Hvalid) as [n [Hn Hc]].
  rewrite Hn. cbn [bind]. unfold clamp in Hc. rewrite Hc. reflexivity.
Qed.

Lemma display_priority_area (props : list (pystr * pyval)) :
  display_priority (VDict props)
  = match priority_of_area (area_of props) with
    | Raise ValueError | Raise TypeError => Ok 5
    | r => r
    end.
Proof.
  unfold display_priority, area_of. cbn [get bind].
  destruct (lookup (lit "gisacres") props); reflexivity.
Qed.

(** The display priority of every record lies between 1 and 10. *)
Lemma display_priority_range (properties : pyval) (p : Z) :
  display_priority properties = Ok p -> 1 <= p <= 10.
Proof.
  unfold display_priority. intros H.
  destruct (get properties (lit "st_areashape") (VInt 0)) as [v|];
    cbn [bind] in H; [|discriminate].
  destruct (get properties (lit "gisacres") v) as [area|];
    cbn [bind] in H; [|discriminate].
  unfold priority_of_area in H.
  destruct (float area) as [f|[]]; cbn [bind] in H;
    try discriminate; try (injection H as <-; lia).
  destruct (truediv f (float_lit 10000)) as [q|[]]; cbn [bind] in H;
    try discriminate; try (injection H as <-; lia).
  destruct (int_of_float q) as [n|[]]; cbn [bind] in H;
    try discriminate; injection H as <-; lia.
Qed.

(** C8. For a feature whose area converts to a binary64 number a, the
    DisplayPriority of its record is min(10, max(1, a/10000 rounded toward
    zero)); it lies between 1 and 10, and a feature whose area a' is not
    below a ([a <= a'] on floats) gets a priority that is not smaller. *)
Theorem display_priority_of_area data_version now feature_index feature item
  props a :
  build_item data_version now feature_index feature = Ok item ->
  get feature (lit "properties") (VDict []) = Ok (VDict props) ->
  float (area_of props) = Ok a ->
  is_finite a = true ->
  valid_binary prec emax a = true ->
  lookup (lit "DisplayPriority") (item_fields item)
  = Some (attr_N (str_of_int (exact_priority a))) /\
  1 <= exact_priority a <= 10 /\
  (forall data_version' now' feature_index' feature' item' props' a',
      build_item data_version' now' feature_index' feature' = Ok item' ->
      get feature' (lit "properties") (VDict []) = Ok (VDict props') ->
      float (area_of props') = Ok a' ->
      is_finite a' = true ->
      valid_binary prec emax a' = true ->
      SFleb a a' = true ->
      lookup (lit "DisplayPriority") (item_fields item')
      = Some (attr_N (str_of_int (exact_priority a'))) /\
      exact_priority a <= exact_priority a').
Proof.
  assert (Hfield : forall dv nw i f it ps x,
             build_item dv nw i f = Ok it ->
             get f (lit "properties") (VDict []) = Ok (VDict ps) ->
             float (area_of ps) = Ok x ->
             is_finite x = true ->
             valid_binary prec emax x = true ->
             lookup (lit "DisplayPriority") (item_fields it)
             = Some (attr_N (str_of_int (exact_priority x)))).
  { intros dv nw i f it ps x H Hprops Hf Hfin Hvalid.
    destruct (build_item_inv _ _ _ _ _ H)
      as [ids [geo [priority [hash [Hids [_ [Hp [_ [_ [Hd _]]]]]]]]]].
    destruct (resolve_identifiers_keys _ _ _ Hids) as [_ [_ [Hget _]]].
    rewrite Hprops in Hget. injection Hget as Hget. rewrite <- Hget in Hp.
    rewrite display_priority_area in Hp.
    rewrite (priority_of_area_exact _ _ Hf Hfin Hvalid) in Hp.
    injection Hp as <-. exact Hd. }
  intros H Hprops Hf Hfin Hvalid.
  split; [exact (Hfield _ _ _ _ _ _ _ H Hprops Hf Hfin Hvalid)|].
  split; [apply clamp_range|].
  intros dv' nw' i' f' it' ps' a' H' Hprops' Hf' Hfin' Hvalid' Hle.
  split; [exact (Hfield _ _ _ _ _ _ _ H' Hprops' Hf' Hfin' Hvalid')|].
  unfold exact_priority. apply clamp_mono.
  apply Z.quot_le_mono; [|apply scaled_order; assumption].
  assert (0 < 2 ^ 1074) by (apply Z.pow_pos_nonneg; lia). lia.
Qed.

End PriorityClaims.

Lemma display_priority_of_area_witness :
  lookup (lit "DisplayPriority")
    (item_fields (built (build_item (rt := sample_runtime) 1735689600
                           (sample_clock 0) 0 feature_25000)))
  = Some (attr_N (lit "2")).
Proof.
  apply (display_priority_of_area (rt := sample_runtime) 1735689600
           (sample_clock 0) 0 feature_25000 _
           [(lit "gisacres", VInt 25000)]
           (S754_finite false 6871947673600000 (-38))).
  - vm_compute. reflexivity.
  - vm_compute. reflexivity.
  - vm_compute. reflexivity.
  - vm_compute. reflexivity.
  - vm_compute. reflexivity.
Defined.

(** A decimal area of 123456.5 acres is clamped to 10. *)
Example display_priority_clamped :
  lookup (lit "DisplayPriority")
    (item_fields (built (build_item (rt := sample_runtime) 1735689600
                           (sample_clock 0) 0 feature_123456)))
  = Some (attr_N (lit "10")).
Proof. vm_compute. reflexivity. Qed.

(** What is not a number: a NaN area takes the fallback 5 ([int] raises
    [ValueError]); an infinite area, or an integer too large for a float,
    raises [OverflowError], which the [except] clause lets through. *)
Example display_priority_not_a_number :
  display_priority (rt := sample_runtime)
    (VDict [(lit "gisacres", VFloat S754_nan)]) = Ok 5 /\
  display_priority (rt := sample_runtime)
    (VDict [(lit "gisacres", VFloat (S754_infinity false))])
  = Raise OverflowError /\
  display_priority (rt := sample_runtime)
    (VDict [(lit "gisacres", VInt (10 ^ 400))]) = Raise OverflowError /\
  display_priority (rt := sample_runtime)
    (VDict [(lit "gisacres", VNone)]) = Ok 5.
Proof. repeat split; vm_compute; reflexivity. Qed.

(** * Further properties

    What the code shows beyond the specification's sentences: edge and
    error behaviour, invariants of the loop, and how the parts compose. *)

(** ** Float replacement *)

Lemma pyval_nested_ind (P : pyval -> Prop) :
  (forall l, Forall P l -> P (VList l)) ->
  (forall d, Forall (fun kv => P (snd kv)) d -> P (VDict d)) ->
  (forall v, (forall l, v <> VList l) -> (forall d, v <> VDict d) -> P v) ->
  forall v, P v.
Proof.
  intros Hl Hd Ho.
  fix IH 1. intros v.
  destruct v as [| | | | | |l|d]; try (apply Ho; discriminate).
  - apply Hl. induction l as [|x t IHt]; constructor; [apply IH|exact IHt].
  - apply Hd. induction d as [|[k x] t IHt]; constructor; [apply IH|exact IHt].
Qed.

Lemma replace_floats_float_free (obj : pyval) :
  float_free (replace_floats obj) = true.
Proof.
  revert obj.
  apply (pyval_nested_ind (fun obj => float_free (replace_floats obj) = true)).
  - intros l F. cbn [replace_floats float_free].
    induction F as [|x t Hx _ IHt]; [reflexivity|].
    cbn [List.map forallb]. rewrite Hx, IHt. reflexivity.
  - intros d F. cbn [replace_floats float_free].
    induction F as [|x t Hx _ IHt]; [reflexivity|].
    cbn [List.map forallb snd]. rewrite Hx, IHt. reflexivity.
  - intros v Hl Hd. destruct v; try reflexivity.
    + exfalso. eapply Hl. reflexivity.
    + exfalso. eapply Hd. reflexivity.
Qed.

Lemma replace_floats_fixed (obj : pyval) :
  float_free obj = true -> replace_floats obj = obj.
Proof.
  revert obj.
  apply (pyval_nested_ind
           (fun obj => float_free obj = true -> replace_floats obj = obj)).
  - intros l F H. change (forallb float_free l = true) in H.
    cbn [replace_floats]. f_equal.
    rewrite forallb_forall in H. rewrite Forall_forall in F.
    rewrite <- (map_id l) at 2. apply map_ext_in. intros x Hx.
    apply F; [exact Hx | apply H; exact Hx].
  - intros d F H. change (forallb (fun kv => float_free (snd kv)) d = true) in H.
    cbn [replace_floats]. f_equal.
    rewrite forallb_forall in H. rewrite Forall_forall in F.
    rewrite <- (map_id d) at 2. apply map_ext_in. intros [k x] Hx.
    cbn [fst snd]. f_equal. apply (F (k, x) Hx). apply (H (k, x) Hx).
  - intros v Hl Hd H. destruct v; try reflexivity; try discriminate H.
    + exfalso. eapply Hl. reflexivity.
    + exfalso. eapply Hd. reflexivity.
Qed.

(** X4. [replace_floats] leaves no float anywhere in its result, in lists
    and dicts of any depth; applied again it changes nothing, and a value
    without floats is returned as it is. *)
Theorem replace_floats_idempotent (obj : pyval) :
  float_free (replace_floats obj) = true /\
  replace_floats (replace_floats obj) = replace_floats obj /\
  (float_free obj = true -> replace_floats obj = obj).
Proof.
  split; [apply replace_floats_float_free|].
  split; [apply replace_floats_fixed, replace_floats_float_free|].
  apply replace_floats_fixed.
Qed.

Lemma div_half_even_error (a b : Z) :
  0 < b -> 2 * Z.abs (div_half_even a b * b - a) <= b.
Proof.
  intros Hb. unfold div_half_even.
  pose proof (Z.div_mod a b ltac:(lia)) as E.
  pose proof (Z.mod_pos_bound a b Hb) as B.
  destruct (Z.compare_spec (2 * (a mod b)) b) as [C|C|C].
  - destruct (Z.even (a / b)); nia.
  - nia.
  - nia.
Qed.

Lemma div_half_even_nonneg (a b : Z) : 0 <= a -> 0 < b -> 0 <= div_half_even a b.
Proof.
  intros Ha Hb. unfold div_half_even.
  assert (0 <= a / b) by (apply Z.div_pos; lia).
  destruct (2 * (a mod b) ?= b); [destruct (Z.even (a / b))| |]; lia.
Qed.

Lemma trim_zeros_value (k : nat) :
  forall n exp n' exp',
    - 10 <= exp ->
    trim_zeros k n exp = (n', exp') ->
    n' * 10 ^ (exp' + 10) = n * 10 ^ (exp + 10) /\
    exp <= exp' <= exp + Z.of_nat k /\
    (0 <= n -> 0 <= n').
Proof.
  induction k as [|k IH]; intros n exp n' exp' He H.
  - cbn in H. injection H as <- <-. repeat split; lia.
  - cbn [trim_zeros] in H. destruct (Z.eqb_spec (n mod 10) 0) as [Hz|Hz].
    + destruct (IH (n / 10) (exp + 1) n' exp' ltac:(lia) H) as [Hv [Hb Hn]].
      split; [|split; [lia|]].
      * rewrite Hv. replace (exp + 1 + 10) with (Z.succ (exp + 10)) by lia.
        rewrite Z.pow_succ_r by lia.
        pose proof (Z.div_mod n 10 ltac:(lia)). nia.
      * intros Hn0. apply Hn. apply Z.div_pos; lia.
    + injection H as <- <-. repeat split; lia.
Qed.

(** X5. A finite float is replaced by a Decimal of the same sign with at
    most 10 decimals, which differs from the float by at most half a unit
    of the tenth decimal (5e-11), and is equal to it when the float is an
    integer multiple of a power of two that is not below 1. *)
Theorem decimal_10f_accuracy (s : bool) (m : positive) (e : Z) :
  exists coeff exp,
    decimal_10f (S754_finite s m e) = DecFinite s coeff exp /\
    - 10 <= exp <= 0 /\
    (0 <= e ->
     ten_billionths (DecFinite s coeff exp) = Zpos m * 2 ^ e * 10 ^ 10) /\
    (e < 0 ->
     2 * Z.abs (ten_billionths (DecFinite s coeff exp) * 2 ^ (- e)
                - Zpos m * 10 ^ 10)
     <= 2 ^ (- e)).
Proof.
  unfold decimal_10f.
  set (scaled := match e with
                 | Zneg k => div_half_even (Zpos m * 10 ^ 10) (Z.pow_pos 2 k)
                 | _ => Zpos m * 2 ^ e * 10 ^ 10
                 end).
  assert (Hs : 0 <= scaled).
  { unfold scaled. destruct e as [|p|p].
    - lia.
    - assert (0 < 2 ^ Zpos p) by (apply Z.pow_pos_nonneg; lia). nia.
    - apply div_half_even_nonneg; [lia|].
      rewrite Z.pow_pos_fold. apply Z.pow_pos_nonneg; lia. }
  destruct (trim_zeros 10 scaled (-10)) as [n exp] eqn:T.
  destruct (trim_zeros_value 10 scaled (-10) n exp ltac:(lia) T) as [Hv [Hb Hn]].
  exists (Z.to_N n), exp. split; [reflexivity|]. split; [lia|].
  cbn [ten_billionths]. rewrite Z2N.id by (apply Hn; exact Hs). rewrite Hv.
  change (-10 + 10) with 0. rewrite Z.pow_0_r, Z.mul_1_r.
  split.
  - intros He. unfold scaled. destruct e; [reflexivity | reflexivity | lia].
  - intros He. unfold scaled. destruct e as [|p|p]; try lia.
    change (- Zneg p) with (Zpos p). rewrite Z.pow_pos_fold.
    apply div_half_even_error. apply Z.pow_pos_nonneg; lia.
Qed.

(** ** Write attempts of a group *)

Section GroupAttempts.

Import BatchWriter.

Lemma retry_loop_bounds (db : store) :
  forall (fuel a : nat) (items : list pyval),
    (a <= snd (retry_loop db fuel a items) <= a + fuel)%nat /\
    (fst (retry_loop db fuel a items) = false ->
     snd (retry_loop db fuel a items) = (a + fuel)%nat /\ items <> []) /\
    (items = [] -> retry_loop db fuel a items = (true, a)) /\
    (fst (retry_loop db fuel a items) = true -> items <> [] ->
     exists sent,
       sent <> [] /\
       (a < snd (retry_loop db fuel a items))%nat /\
       db (snd (retry_loop db fuel a items) - 1)%nat sent = Unprocessed []).
Proof.
  induction fuel as [|fuel IH]; intros a items.
  - destruct items as [|x xs]; cbn [retry_loop fst snd].
    + repeat split; try lia; try discriminate; congruence.
    + repeat split; try lia; try discriminate.
  - destruct items as [|x xs]; cbn [retry_loop].
    + cbn [fst snd]. repeat split; try lia; try discriminate; congruence.
    + destruct (db a (x :: xs)) as [[|u us]|] eqn:E.
      * cbn [fst snd]. repeat split; try lia; try discriminate.
        intros _ _. exists (x :: xs). split; [discriminate|]. split; [lia|].
        replace (S a - 1)%nat with a by lia. exact E.
      * destruct (IH (S a) (u :: us)) as [Hb [Hf [_ Ht]]].
        split; [lia|]. split; [|split].
        -- intros F. destruct (Hf F) as [Hs _]. split; [lia | discriminate].
        -- discriminate.
        -- intros T _. destruct (Ht T ltac:(discriminate)) as [sent [Hs [Hl Hd]]].
           exists sent. split; [exact Hs|]. split; [lia | exact Hd].
      * destruct (IH (S a) (x :: xs)) as [Hb [Hf [_ Ht]]].
        split; [lia|]. split; [|split].
        -- intros F. destruct (Hf F) as [Hs _]. split; [lia | discriminate].
        -- discriminate.
        -- intros T _. destruct (Ht T ltac:(discriminate)) as [sent [Hs [Hl Hd]]].
           exists sent. split; [exact Hs|]. split; [lia | exact Hd].
Qed.

(** X6. Whatever the store answers, a group issues at most max-retries
    write attempts; it fails only after exactly max-retries attempts; an
    empty group succeeds without any attempt; and a group that is not
    empty succeeds only through an attempt that the store accepted in
    full. *)
Theorem process_batch_attempts (db : store) (max_retries : nat)
  (batch : list pyval) :
  (snd (process_batch db max_retries batch) <= max_retries)%nat /\
  (fst (process_batch db max_retries batch) = false ->
   snd (process_batch db max_retries batch) = max_retries /\ batch <> []) /\
  (batch = [] -> process_batch db max_retries batch = (true, 0%nat)) /\
  (fst (process_batch db max_retries batch) = true -> batch <> [] ->
   exists sent,
     sent <> [] /\
     (0 < snd (process_batch db max_retries batch))%nat /\
     db (snd (process_batch db max_retries batch) - 1)%nat sent = Unprocessed []).
Proof.
  unfold process_batch.
  destruct (retry_loop_bounds db max_retries 0 batch) as [Hb [Hf [He Ht]]].
  split; [lia|]. split; [exact Hf|]. split; [exact He | exact Ht].
Qed.

Lemma retry_loop_held_back (db : store) :
  forall (k fuel a : nat) (items : list pyval),
    items <> [] ->
    (k < fuel)%nat ->
    (forall i, (a <= i < a + k)%nat -> held_back db i) ->
    accepts_all db (a + k) ->
    retry_loop db fuel a items = (true, (a + k + 1)%nat).
Proof.
  induction k as [|k IH]; intros fuel a items Hne Hk Hfirst Hlast.
  - destruct items as [|x xs]; [congruence|].
    destruct fuel as [|fuel]; [lia|]. cbn [retry_loop].
    replace (a + 0)%nat with a in Hlast by lia.
    rewrite (Hlast (x :: xs)) by discriminate. f_equal. lia.
  - destruct items as [|x xs]; [congruence|].
    destruct fuel as [|fuel]; [lia|]. cbn [retry_loop].
    assert (Hnext : forall items', items' <> [] ->
               retry_loop db fuel (S a) items' = (true, (a + S k + 1)%nat)).
    { intros items' Hne'. rewrite (IH fuel (S a) items' Hne').
      - f_equal. lia.
      - lia.
      - intros i Hi. apply Hfirst. lia.
      - replace (S a + k)%nat with (a + S k)%nat by lia. exact Hlast. }
    destruct (Hfirst a ltac:(lia) (x :: xs) ltac:(discriminate)) as [Hu|[u [us Hu]]];
      rewrite Hu; apply Hnext; discriminate.
Qed.

Lemma retry_loop_held_back_for_ever (db : store) :
  forall (fuel a : nat) (items : list pyval),
    items <> [] ->
    (forall i, held_back db i) ->
    retry_loop db fuel a items = (false, (a + fuel)%nat).
Proof.
  induction fuel as [|fuel IH]; intros a items Hne Hall.
  - destruct items; [congruence|]. cbn [retry_loop]. f_equal. lia.
  - destruct items as [|x xs]; [congruence|]. cbn [retry_loop].
    assert (Hnext : forall items', items' <> [] ->
               retry_loop db fuel (S a) items' = (false, (a + S fuel)%nat)).
    { intros items' Hne'. rewrite (IH (S a) items' Hne' Hall). f_equal. lia. }
    destruct (Hall a (x :: xs) ltac:(discriminate)) as [Hu|[u [us Hu]]];
      rewrite Hu; apply Hnext; discriminate.
Qed.

(** X7. An attempt that raises counts like an attempt with unprocessed
    items, and the same items are sent again: a group whose first k
    attempts (k < max retries) raise or leave items unprocessed and whose
    next attempt is accepted succeeds after exactly k+1 attempts; a group
    whose every attempt raises or leaves items unprocessed fails after
    exactly max-retries attempts. *)
Theorem process_batch_counts_errors (db : store) (max_retries : nat)
  (batch : list pyval) :
  batch <> [] ->
  (forall k,
      (k < max_retries)%nat ->
      (forall i, (i < k)%nat -> held_back db i) ->
      accepts_all db k ->
      process_batch db max_retries batch = (true, S k))
  /\
  ((forall i, held_back db i) ->
   process_batch db max_retries batch = (false, max_retries)).
Proof.
  intros Hne. unfold process_batch. split.
  - intros k Hk Hfirst Hlast.
    rewrite (retry_loop_held_back db k max_retries 0 batch Hne Hk).
    + f_equal. lia.
    + intros i Hi. apply Hfirst. lia.
    + exact Hlast.
  - intros Hall. rewrite (retry_loop_held_back_for_ever db max_retries 0 batch Hne Hall).
    reflexivity.
Qed.

End GroupAttempts.

Lemma process_batch_counts_errors_witness :
  BatchWriter.process_batch (store_failing_before 9) MAX_RETRIES [VNone] = (true, 10%nat).
Proof.
  apply (proj1 (process_batch_counts_errors (store_failing_before 9) MAX_RETRIES
                  [VNone] ltac:(discriminate)) 9%nat).
  - unfold MAX_RETRIES. lia.
  - intros i Hi items _. left. unfold store_failing_before.
    destruct (Nat.ltb_spec i 9) as [_|Hge]; [reflexivity | lia].
  - intros items _. reflexivity.
Defined.

(** ** The feature loop *)

Section ImporterFacts.
Context {rt : Runtime}.
Variable data_version : Z.
Variable clock : nat -> pystr.

Import BatchWriter Importer.

Lemma flush_full_batches (db : nat -> nat -> store) (st : loop_state)
  (b : list pyval) :
  full_batches st ->
  match flush db st b with
  | Finished st' =>
      batch st' = [] /\ written st' = written st ++ [b] /\
      total_processed st' = (total_processed st + List.length b)%nat /\
      b <> []
  | Aborted st' =>
      written st' = written st /\ total_processed st' = total_processed st
  end.
Proof.
  intros _. unfold flush.
  destruct (write_batch_to_dynamo (db (calls st)) MAX_RETRIES b) as [[|]|] eqn:E;
    cbn [batch written total_processed]; try (split; reflexivity).
  repeat split. intros ->. discriminate E.
Qed.

Lemma length_concat_app {A : Type} (l : list (list A)) (b : list A) :
  List.length (List.concat (l ++ [b]))
  = (List.length (List.concat l) + List.length b)%nat.
Proof. rewrite concat_app, length_app. cbn [List.concat]. rewrite app_nil_r. reflexivity. Qed.

(** What the loop keeps, whatever the store answers and whatever the mode. *)
Lemma feature_loop_full_batches (db : nat -> nat -> store) (test_mode : bool)
  (test_limit : Z) (features : list pyval) :
  forall (feature_index : nat) (st : loop_state),
    full_batches st ->
    (List.length (batch st) < BATCH_SIZE)%nat ->
    match feature_loop data_version clock db test_mode test_limit
            features feature_index st with
    | Finished st' => full_batches st' /\ (List.length (batch st') < BATCH_SIZE)%nat
    | Aborted st' => full_batches st'
    end.
Proof.
  induction features as [|f rest IH]; intros idx st Hfull Hlen; [split; assumption|].
  cbn [feature_loop].
  destruct (test_mode && (test_limit <=? Z.of_nat (total_processed st)));
    [split; assumption|].
  destruct (build_item data_version (clock idx) idx f) as [item|]; [|exact Hfull].
  cbv zeta.
  destruct (Nat.leb_spec BATCH_SIZE (List.length (batch st ++ [item]))) as [Hflush|Hkeep].
  - pose proof (flush_full_batches db st (batch st ++ [item]) Hfull) as Hf.
    rewrite length_app in Hflush. cbn [List.length] in Hflush.
    destruct (flush db st (batch st ++ [item])) as [st'|st'].
    + destruct Hf as [Hb [Hw [Ht _]]]. apply IH.
      * destruct Hfull as [Hall Htot]. split.
        -- rewrite Hw. apply Forall_app. split; [exact Hall|].
           constructor; [|constructor]. rewrite length_app. cbn [List.length]. lia.
        -- rewrite Hw, Ht, length_concat_app, Htot. reflexivity.
      * rewrite Hb. unfold BATCH_SIZE. cbn [List.length]. lia.
    + destruct Hf as [Hw Ht]. destruct Hfull as [Hall Htot].
      split; [rewrite Hw; exact Hall | rewrite Hw, Ht; exact Htot].
  - apply IH.
    + exact Hfull.
    + exact Hkeep.
Qed.

(** X8. Whatever the store answers, whatever the mode and the features:
    the count of imported records is the count of records in the batches
    written with success; every written batch holds exactly [BATCH_SIZE]
    records, except the last one of a run that came to its final flush,
    which holds between 1 and [BATCH_SIZE] - 1; a run that fails has
    written full batches only. *)
Theorem written_batches_shape (db : nat -> nat -> store) (test_mode : bool)
  (test_limit : Z) (features : list pyval) :
  imported (process_geojson data_version clock db test_mode test_limit features)
  = List.length
      (List.concat
         (batches (process_geojson data_version clock db test_mode test_limit
                     features))) /\
  (exists full rest,
      batches (process_geojson data_version clock db test_mode test_limit features)
      = full ++ rest /\
      Forall (fun b => List.length b = BATCH_SIZE) full /\
      (rest = [] \/
       exists b, rest = [b] /\ (1 <= List.length b < BATCH_SIZE)%nat)) /\
  (success (process_geojson data_version clock db test_mode test_limit features)
   = false ->
   Forall (fun b => List.length b = BATCH_SIZE)
     (batches (process_geojson data_version clock db test_mode test_limit
                 features))).
Proof.
  unfold process_geojson.
  pose proof (feature_loop_full_batches db test_mode test_limit features 0
                {| batch := []; total_processed := 0; calls := 0; written := [] |}) as H.
  destruct (feature_loop data_version clock db test_mode test_limit features 0 _)
    as [st|st].
  - destruct H as [[Hall Htot] Hlen];
      [split; [constructor | reflexivity] | unfold BATCH_SIZE; cbn; lia |].
    destruct (batch st) as [|x b] eqn:Eb.
    + cbn [report imported batches success].
      split; [exact Htot|]. split; [|discriminate].
      exists (written st), []. rewrite app_nil_r. repeat split; [exact Hall | left; reflexivity].
    + pose proof (flush_full_batches db st (x :: b) (conj Hall Htot)) as Hf.
      destruct (flush db st (x :: b)) as [st'|st'];
        cbn [report imported batches success].
      * destruct Hf as [_ [Hw [Ht _]]].
        split; [rewrite Hw, Ht, length_concat_app, Htot; reflexivity|].
        split; [|discriminate].
        exists (written st), [x :: b]. split; [exact Hw|]. split; [exact Hall|].
        right. exists (x :: b). split; [reflexivity|]. cbn [List.length] in *. lia.
      * destruct Hf as [Hw Ht].
        split; [rewrite Hw, Ht; exact Htot|].
        split; [|intros _; rewrite Hw; exact Hall].
        exists (written st), []. rewrite app_nil_r, Hw.
        repeat split; [exact Hall | left; reflexivity].
  - destruct H as [Hall Htot];
      [split; [constructor | reflexivity] | unfold BATCH_SIZE; cbn; lia |].
    cbn [report imported batches success].
    split; [exact Htot|]. split; [|intros _; exact Hall].
    exists (written st), []. rewrite app_nil_r.
    repeat split; [exact Hall | left; reflexivity].
Qed.

Lemma accepting_flush (st : loop_state) (b : list pyval) :
  b <> [] ->
  flush (fun _ _ => accepting_store) st b
  = Finished {| batch := [];
                total_processed := total_processed st + List.length b;
                calls := S (calls st);
                written := written st ++ [b] |}.
Proof.
  intros Hb. unfold flush.
  assert (E : write_batch_to_dynamo (fun _ => accepting_store) MAX_RETRIES b = Ok true).
  { destruct b as [|x b]; [congruence|].
    unfold write_batch_to_dynamo, group_outcomes. f_equal.
    generalize (combine (seq 0 (List.length (split_batches (x :: b))))
                  (split_batches (x :: b))).
    intros chunks. induction chunks as [|[g c] t IH]; [reflexivity|].
    cbn [List.map forallb]. rewrite IH. destruct c; reflexivity. }
  rewrite E. reflexivity.
Qed.

(** A run that is not a test run, against a store that accepts every
    write, over features that all make a record: the records move through
    the batch into the written batches, in order. *)
Lemma full_loop (test_limit : Z) (pre : list pyval) :
  all_build data_version pre ->
  forall (rest : list pyval) (feature_index : nat) (st : loop_state),
    (List.length (batch st) < BATCH_SIZE)%nat ->
    exists st',
      feature_loop data_version clock (fun _ _ => accepting_store) false
        test_limit (pre ++ rest) feature_index st
      = feature_loop data_version clock (fun _ _ => accepting_store) false
          test_limit rest (feature_index + List.length pre) st' /\
      List.concat (written st') ++ batch st'
      = (List.concat (written st) ++ batch st)
        ++ built_items data_version clock feature_index pre /\
      (List.length (batch st') < BATCH_SIZE)%nat /\
      (full_batches st -> full_batches st').
Proof.
  induction pre as [|f pre IH]; intros Hall rest idx st Hlen.
  - exists st. cbn [app List.length built_items]. rewrite Nat.add_0_r, app_nil_r.
    split; [reflexivity|]. split; [reflexivity|]. split; [exact Hlen|].
    intros Hfull. exact Hfull.
  - inversion Hall as [|f' pre' Hf Hpre]; subst.
    cbn [app feature_loop andb built_items].
    destruct (Hf (clock idx) idx) as [item Hitem]. rewrite Hitem. cbn [built].
    cbv zeta.
    destruct (Nat.leb_spec BATCH_SIZE (List.length (batch st ++ [item]))) as [Hflush|Hkeep].
    + rewrite accepting_flush by (destruct (batch st); discriminate).
      match goal with |- context [feature_loop _ _ _ _ _ (pre ++ rest) (S idx) ?s] =>
        destruct (IH Hpre rest (S idx) s) as [st' [Hrun [Hitems [Hlen' Hinv]]]] end.
      * unfold BATCH_SIZE. cbn. lia.
      * exists st'. split; [rewrite Hrun; f_equal; cbn [List.length]; lia|].
        split; [|split; [exact Hlen'|]].
        -- rewrite Hitems. cbn [written batch].
           rewrite concat_app. cbn [List.concat]. rewrite !app_nil_r.
           rewrite <- !app_assoc. reflexivity.
        -- intros [Hall25 Htot]. apply Hinv.
           rewrite length_app in Hflush. cbn [List.length] in Hflush.
           split; cbn [written total_processed].
           ++ apply Forall_app. split; [exact Hall25|].
              constructor; [|constructor]. rewrite length_app. cbn [List.length]. lia.
           ++ rewrite length_concat_app, Htot. reflexivity.
    + match goal with |- context [feature_loop _ _ _ _ _ (pre ++ rest) (S idx) ?s] =>
        destruct (IH Hpre rest (S idx) s) as [st' [Hrun [Hitems [Hlen' Hinv]]]] end.
      * exact Hkeep.
      * exists st'. split; [rewrite Hrun; f_equal; cbn [List.length]; lia|].
        split; [|split; [exact Hlen'|]].
        -- rewrite Hitems. cbn [written batch].
           rewrite <- !app_assoc. reflexivity.
        -- intros Hfull. apply Hinv. exact Hfull.
Qed.

Lemma built_items_length (index : nat) (features : list pyval) :
  List.length (built_items data_version clock index features) = List.length features.
Proof.
  revert index. induction features as [|f t IH]; intros index; [reflexivity|].
  cbn [built_items List.length]. rewrite IH. reflexivity.
Qed.

(** X9. A run that is not a test run, against a store that accepts every
    write, over features that all make a record, succeeds and imports
    every feature: the written batches hold the records of the features in
    the order of the document. *)
Theorem full_run_imports_all (test_limit : Z) (features : list pyval) :
  all_build data_version features ->
  success (process_geojson data_version clock (fun _ _ => accepting_store)
             false test_limit features) = true /\
  imported (process_geojson data_version clock (fun _ _ => accepting_store)
              false test_limit features) = List.length features /\
  List.concat (batches (process_geojson data_version clock
                          (fun _ _ => accepting_store) false test_limit features))
  = built_items data_version clock 0 features.
Proof.
  intros Hall. unfold process_geojson.
  destruct (full_loop test_limit features Hall [] 0
              {| batch := []; total_processed := 0; calls := 0; written := [] |})
    as [st' [Hrun [Hitems [Hlen Hinv]]]]; [unfold BATCH_SIZE; cbn; lia|].
  destruct Hinv as [_ Htot]; [split; [constructor | reflexivity]|].
  rewrite app_nil_r in Hrun. rewrite Hrun. cbn [feature_loop].
  cbn [written batch List.concat app] in Hitems.
  pose proof (built_items_length 0 features) as Hn. rewrite <- Hitems in Hn.
  rewrite length_app in Hn.
  destruct (batch st') as [|x b] eqn:Eb.
  - cbn [report success imported batches]. rewrite app_nil_r in Hitems.
    split; [reflexivity|]. split; [|exact Hitems].
    cbn [List.length] in Hn. lia.
  - rewrite accepting_flush by discriminate.
    cbn [report success imported batches total_processed written].
    split; [reflexivity|]. split; [lia|].
    rewrite concat_app. cbn [List.concat]. rewrite app_nil_r. exact Hitems.
Qed.

(** X10. A feature whose loop body raises ends the run with failure: of
    the features before it (which all make a record, against a store that
    accepts every write) only the full batches are written, the records
    waiting in the batch (up to 24) are dropped, and no feature after it
    is read. *)
Theorem unbuildable_feature_aborts (test_limit : Z) (pre post : list pyval)
  (bad : pyval) (e : exn) :
  all_build data_version pre ->
  build_item data_version (clock (List.length pre)) (List.length pre) bad = Raise e ->
  success (process_geojson data_version clock (fun _ _ => accepting_store)
             false test_limit (pre ++ bad :: post)) = false /\
  imported (process_geojson data_version clock (fun _ _ => accepting_store)
              false test_limit (pre ++ bad :: post))
  = (BATCH_SIZE * (List.length pre / BATCH_SIZE))%nat /\
  List.concat (batches (process_geojson data_version clock
                          (fun _ _ => accepting_store) false test_limit
                          (pre ++ bad :: post)))
  = firstn (BATCH_SIZE * (List.length pre / BATCH_SIZE))
      (built_items data_version clock 0 pre).
Proof.
  intros Hall Hbad. unfold process_geojson.
  destruct (full_loop test_limit pre Hall (bad :: post) 0
              {| batch := []; total_processed := 0; calls := 0; written := [] |})
    as [st' [Hrun [Hitems [Hlen Hinv]]]]; [unfold BATCH_SIZE; cbn; lia|].
  destruct Hinv as [Hfull Himp]; [split; [constructor | reflexivity]|].
  rewrite Hrun. cbn [feature_loop andb Nat.add]. rewrite Hbad.
  cbn [report success imported batches].
  cbn [written batch List.concat app] in Hitems.
  assert (Hw : List.length (List.concat (written st'))
               = (BATCH_SIZE * List.length (written st'))%nat).
  { clear - Hfull. induction Hfull as [|b t Hb _ IH]; [reflexivity|].
    cbn [List.concat List.length]. rewrite length_app, IH, Hb. lia. }
  assert (Hn : (List.length (List.concat (written st')) + List.length (batch st')
                = List.length pre)%nat).
  { rewrite <- length_app, Hitems. apply built_items_length. }
  assert (Hq : (List.length pre / BATCH_SIZE = List.length (written st'))%nat).
  { symmetry. apply (Nat.div_unique _ _ _ (List.length (batch st'))); [exact Hlen|].
    lia. }
  split; [reflexivity|].
  split; [rewrite Himp, Hq; exact Hw|].
  rewrite Hq, <- Hw, <- Hitems.
  rewrite firstn_app, Nat.sub_diag, firstn_all. cbn [firstn]. rewrite app_nil_r.
  reflexivity.
Qed.

End ImporterFacts.

Lemma full_run_imports_all_witness :
  Importer.imported
    (Importer.process_geojson (rt := sample_runtime) 1735689600 sample_clock
       (fun _ _ => accepting_store) false 2 thirty_features)
  = List.length thirty_features.
Proof.
  apply (full_run_imports_all (rt := sample_runtime) 1735689600 sample_clock 2
           thirty_features).
  apply Forall_forall. intros f Hf.
  apply repeat_spec in Hf. subst f.
  intros now i. eexists. vm_compute. reflexivity.
Defined.

Lemma unbuildable_feature_aborts_witness :
  Importer.success
    (Importer.process_geojson (rt := sample_runtime) 1735689600 sample_clock
       (fun _ _ => accepting_store) false 2
       (thirty_features ++ null_geometry_feature :: ten_features))
  = false /\
  Importer.imported
    (Importer.process_geojson (rt := sample_runtime) 1735689600 sample_clock
       (fun _ _ => accepting_store) false 2
       (thirty_features ++ null_geometry_feature :: ten_features))
  = 25%nat.
Proof.
  destruct (unbuildable_feature_aborts (rt := sample_runtime) 1735689600
              sample_clock 2 thirty_features ten_features null_geometry_feature
              TypeError) as [Hs [Hi _]].
  - apply Forall_forall. intros f Hf.
    apply repeat_spec in Hf. subst f.
    intros now i. eexists. vm_compute. reflexivity.
  - vm_compute. reflexivity.
  - split; [exact Hs | exact Hi].
Defined.

(** ** The record of a feature *)

Ltac binds H :=
  repeat match type of H with
         | bind ?c _ = Ok _ =>
             let E := fresh "E" in
             destruct c eqn:E; cbn [bind] in H; [|discriminate H]
         end.

Ltac literal_keys :=
  repeat match goal with
         | |- context [pystr_eqb (lit ?a) (lit ?b)] =>
             let v := eval vm_compute in (pystr_eqb (lit a) (lit b)) in
             change (pystr_eqb (lit a) (lit b)) with v; cbv iota
         end.

Section RecordFacts.
Context {rt : Runtime}.

Lemma derive_geometry_inv feature geo :
  derive_geometry feature = Ok geo ->
  exists raw given,
    get feature (lit "geometry") (VDict []) = Ok raw /\
    geometry geo = replace_floats raw /\
    get feature (lit "geohash") VNone = Ok given /\
    feature_geohash feature (centroid geo) = Ok (geohash geo) /\
    slice_to (geohash geo) 3 = Ok (geohash_prefix geo).
Proof.
  unfold derive_geometry. intros H. binds H. cbv zeta in H. binds H.
  injection H as <-. cbn [geometry centroid geohash geohash_prefix].
  exists a.
  match goal with E : feature_geohash _ _ = Ok _ |- _ =>
    pose proof E as G; unfold feature_geohash in G end.
  destruct (get feature (lit "geohash") VNone) as [given|] eqn:Eg;
    [|discriminate G].
  exists given. repeat split; assumption.
Qed.

(** The stages of the loop body. *)
Lemma build_item_stages data_version now feature_index feature item :
  build_item data_version now feature_index feature = Ok item ->
  exists ids geo item1 priority item2 item3 item4 item5 hash,
    resolve_identifiers feature_index feature = Ok ids /\
    derive_geometry feature = Ok geo /\
    add_centroid ids (centroid geo) (initial_item ids geo) = Ok item1 /\
    display_priority (properties ids) = Ok priority /\
    add_bounds (bounds geo)
      (store (lit "DisplayPriority") (attr_N (str_of_int priority)) item1)
    = Ok item2 /\
    add_geometry (geometry geo) item2 = Ok item3 /\
    add_detail_tiers (geometry geo)
      (store (lit "StyleProperties") style_properties item3) = Ok item4 /\
    add_properties (properties ids)
      (store (lit "iOSRenderingHints") (rendering_hints priority) item4)
    = Ok item5 /\
    feature_hash feature = Ok hash /\
    item_fields item = store (lit "Metadata") (metadata data_version hash now) item5.
Proof.
  unfold build_item. intros H.
  destruct (resolve_identifiers feature_index feature) as [ids|] eqn:Eids;
    cbn [bind] in H; [|discriminate H].
  destruct (derive_geometry feature) as [geo|] eqn:Egeo;
    cbn [bind] in H; [|discriminate H].
  destruct (add_centroid ids (centroid geo) (initial_item ids geo))
    as [item1|] eqn:E1; cbn [bind] in H; [|discriminate H].
  destruct (display_priority (properties ids)) as [priority|] eqn:Ep;
    cbn [bind] in H; [|discriminate H].
  cbv zeta in H.
  destruct (add_bounds (bounds geo) _) as [item2|] eqn:E2;
    cbn [bind] in H; [|discriminate H].
  destruct (add_geometry (geometry geo) item2) as [item3|] eqn:E3;
    cbn [bind] in H; [|discriminate H].
  destruct (add_detail_tiers (geometry geo) _) as [item4|] eqn:E4;
    cbn [bind] in H; [|discriminate H].
  destruct (add_properties (properties ids) _) as [item5|] eqn:E5;
    cbn [bind] in H; [|discriminate H].
  destruct (feature_hash feature) as [hash|] eqn:Eh;
    cbn [bind] in H; [|discriminate H].
  injection H as <-.
  exists ids, geo, item1, priority, item2, item3, item4, item5, hash.
  repeat split; assumption || reflexivity.
Qed.

(** What is assigned after the bounds block does not touch the names of
    the blocks before it. *)
Lemma tail_assigned data_version now hash geo ids priority item2 item3 item4 item5 :
  add_geometry (geometry geo) item2 = Ok item3 ->
  add_detail_tiers (geometry geo)
    (store (lit "StyleProperties") style_properties item3) = Ok item4 ->
  add_properties (properties ids)
    (store (lit "iOSRenderingHints") (rendering_hints priority) item4)
  = Ok item5 ->
  assigned tail_names item2
    (store (lit "Metadata") (metadata data_version hash now) item5).
Proof.
  intros E3 E4 E5.
  apply add_geometry_assigned in E3. apply add_detail_tiers_assigned in E4.
  apply add_properties_assigned in E5.
  pose proof (assigned_weaken geometry_names tail_names _ _ eq_refl E3) as L3.
  pose proof (assigned_weaken tier_names tail_names _ _ eq_refl E4) as L4.
  pose proof (assigned_weaken properties_names tail_names _ _ eq_refl E5) as L5.
  apply assigned_more; [|vm_compute; reflexivity].
  refine (assigned_trans _ _ _ _ _ L5).
  apply assigned_more; [|vm_compute; reflexivity].
  refine (assigned_trans _ _ _ _ _ L4).
  apply assigned_more; [|vm_compute; reflexivity].
  exact L3.
Qed.

Lemma add_bounds_inv b item item' :
  add_bounds b item = Ok item' ->
  (truthy b = false /\ item' = item)
  \/
  (truthy b = true /\
   exists bnd mbr z,
     In z [12; 10; 8; 5] /\
     item' = store (lit "MaxZoom") (attr_N (str_of_int 16))
               (store (lit "MinZoom") (attr_N (str_of_int z))
                  (store (lit "MBR") (attr_S (VStr mbr))
                     (store (lit "Bounds") bnd item)))).
Proof.
  unfold add_bounds. intros H.
  destruct (truthy b); [right | left; injection H as <-; split; reflexivity].
  split; [reflexivity|].
  binds H. cbv zeta in H. binds H. injection H as <-.
  do 2 eexists.
  match goal with |- context [str_of_int (if ?c1 then 12 else if ?c2 then 10 else if ?c3 then 8 else 5)] =>
    exists (if c1 then 12 else if c2 then 10 else if c3 then 8 else 5);
    split; [destruct c1; [simpl; tauto|]; destruct c2; [simpl; tauto|];
            destruct c3; simpl; tauto|]
  end.
  reflexivity.
Qed.

(** X11. The bounds attributes come together: a record whose feature has
    no bounds (given, or taken from its polygon) has none of [Bounds],
    [MBR], [MinZoom], [MaxZoom]; a record with bounds has all four, with
    [MinZoom] one of 12, 10, 8, 5 and [MaxZoom] 16. *)
Theorem zoom_range_with_bounds data_version now feature_index feature item :
  build_item data_version now feature_index feature = Ok item ->
  exists geo,
    derive_geometry feature = Ok geo /\
    ((truthy (bounds geo) = false /\
      lookup (lit "Bounds") (item_fields item) = None /\
      lookup (lit "MBR") (item_fields item) = None /\
      lookup (lit "MinZoom") (item_fields item) = None /\
      lookup (lit "MaxZoom") (item_fields item) = None)
     \/
     (truthy (bounds geo) = true /\
      exists bnd mbr z,
        lookup (lit "Bounds") (item_fields item) = Some bnd /\
        lookup (lit "MBR") (item_fields item) = Some (attr_S (VStr mbr)) /\
        lookup (lit "MinZoom") (item_fields item) = Some (attr_N (str_of_int z)) /\
        In z [12; 10; 8; 5] /\
        lookup (lit "MaxZoom") (item_fields item) = Some (attr_N (lit "16")))).
Proof.
  intros H.
  destruct (build_item_stages _ _ _ _ _ H)
    as (ids & geo & item1 & priority & item2 & item3 & item4 & item5 & hash
        & Hids & Hgeo & E1 & Hp & E2 & E3 & E4 & E5 & Hh & Hitem).
  exists geo. split; [exact Hgeo|].
  pose proof (tail_assigned data_version now hash _ _ _ _ _ _ _ E3 E4 E5) as T.
  rewrite <- Hitem in T.
  apply add_centroid_assigned in E1.
  assert (Hbefore : forall k,
             among centroid_names k = false ->
             pystr_eqb k (lit "DisplayPriority") = false ->
             lookup k (initial_item ids geo) = None ->
             lookup k (store (lit "DisplayPriority") (attr_N (str_of_int priority)) item1)
             = None).
  { intros k Hk Hd Hi. rewrite lookup_store, Hd.
    rewrite (assigned_lookup _ _ _ k E1 Hk). exact Hi. }
  destruct (add_bounds_inv _ _ _ E2) as [[Hb ->]|[Hb (bnd & mbr & z & Hz & ->)]].
  - left. split; [exact Hb|].
    repeat split.
    + rewrite (assigned_lookup _ _ _ (lit "Bounds") T eq_refl).
      apply Hbefore; reflexivity.
    + rewrite (assigned_lookup _ _ _ (lit "MBR") T eq_refl).
      apply Hbefore; reflexivity.
    + rewrite (assigned_lookup _ _ _ (lit "MinZoom") T eq_refl).
      apply Hbefore; reflexivity.
    + rewrite (assigned_lookup _ _ _ (lit "MaxZoom") T eq_refl).
      apply Hbefore; reflexivity.
  - right. split; [exact Hb|]. exists bnd, mbr, z.
    split; [|split; [|split; [|split; [exact Hz|]]]].
    + rewrite (assigned_lookup _ _ _ (lit "Bounds") T eq_refl).
      rewrite !lookup_store. literal_keys. reflexivity.
    + rewrite (assigned_lookup _ _ _ (lit "MBR") T eq_refl).
      rewrite !lookup_store. literal_keys. reflexivity.
    + rewrite (assigned_lookup _ _ _ (lit "MinZoom") T eq_refl).
      rewrite !lookup_store. literal_keys. reflexivity.
    + rewrite (assigned_lookup _ _ _ (lit "MaxZoom") T eq_refl).
      rewrite !lookup_store. literal_keys. reflexivity.
Qed.

(** X12. The [ZIndex] of the rendering hints is the [DisplayPriority] of
    the record, a number between 1 and 10. *)
Theorem z_index_is_display_priority data_version now feature_index feature item :
  build_item data_version now feature_index feature = Ok item ->
  exists priority,
    1 <= priority <= 10 /\
    lookup (lit "DisplayPriority") (item_fields item)
    = Some (attr_N (str_of_int priority)) /\
    map_field item (lit "iOSRenderingHints") (lit "ZIndex")
    = Some (attr_N (str_of_int priority)).
Proof.
  intros H.
  destruct (build_item_stages _ _ _ _ _ H)
    as (ids & geo & item1 & priority & item2 & item3 & item4 & item5 & hash
        & Hids & Hgeo & E1 & Hp & E2 & E3 & E4 & E5 & Hh & Hitem).
  destruct (build_item_inv _ _ _ _ _ H)
    as [ids' [geo' [priority' [hash' [Hids' [_ [Hp' [_ [_ [Hd _]]]]]]]]]].
  assert (ids' = ids) by congruence. subst ids'.
  assert (priority' = priority) by congruence. subst priority'.
  exists priority. split; [exact (display_priority_range _ _ Hp)|].
  split; [exact Hd|].
  unfold map_field. rewrite Hitem.
  apply add_properties_assigned in E5.
  rewrite lookup_store. literal_keys.
  rewrite (assigned_lookup _ _ _ (lit "iOSRenderingHints") E5 eq_refl).
  rewrite lookup_store, pystr_eqb_refl. reflexivity.
Qed.


Lemma lookup_absent {A : Type} (k : pystr) (d : list (pystr * A)) :
  ~ In k (keys d) -> lookup k d = None.
Proof.
  induction d as [|[k' v] d IH]; [reflexivity|]. cbn [keys List.map fst In lookup].
  intros Hn. destruct (pystr_eqb k k') eqn:E.
  - apply pystr_eqb_eq in E. exfalso. apply Hn. left. symmetry. exact E.
  - apply IH. intros Hi. apply Hn. right. exact Hi.
Qed.

Lemma properties_map_lookup (items : list (pystr * pyval)) :
  forall (acc m : list (pystr * pyval)),
    NoDup (keys items) ->
    properties_map items acc = Ok m ->
    forall k,
      match lookup k items with
      | Some v => property_attr v = Ok (match lookup k m with
                                        | Some a => a
                                        | None => VNone
                                        end)
                  /\ lookup k m <> None
      | None => lookup k m = lookup k acc
      end.
Proof.
  induction items as [|[key value] rest IH]; intros acc m Hnd H k.
  - cbn in H. injection H as <-. reflexivity.
  - cbn [properties_map] in H.
    destruct (property_attr value) as [a|] eqn:Ea; cbn [bind] in H; [|discriminate H].
    cbn [keys List.map fst] in Hnd. inversion Hnd as [|? ? Hnotin Hnd']; subst.
    specialize (IH _ _ Hnd' H k). cbn [lookup].
    destruct (pystr_eqb k key) eqn:E.
    + apply pystr_eqb_eq in E. subst k.
      rewrite (lookup_absent key rest Hnotin) in IH.
      rewrite lookup_store, pystr_eqb_refl in IH. rewrite IH.
      split; [exact Ea | discriminate].
    + destruct (lookup k rest); [exact IH|].
      rewrite IH, lookup_store, E. reflexivity.
Qed.

Lemma lookup_map_values (f : pyval -> pyval) (k : pystr) (d : list (pystr * pyval)) :
  lookup k (List.map (fun kv => (fst kv, f (snd kv))) d)
  = option_map f (lookup k d).
Proof.
  induction d as [|[k' v] d IH]; [reflexivity|].
  cbn [List.map lookup fst snd]. destruct (pystr_eqb k k'); [reflexivity | exact IH].
Qed.

Lemma keys_map_values (f : pyval -> pyval) (d : list (pystr * pyval)) :
  keys (List.map (fun kv => (fst kv, f (snd kv))) d) = keys d.
Proof.
  unfold keys. rewrite map_map. apply map_ext. reflexivity.
Qed.

(** X14. The [Properties] attribute is there exactly when the feature has
    properties; its map has an entry for every property and for nothing
    else, the entry being the tagged value of the property after float
    replacement. A boolean property is stored as the number attribute
    [{'N': 'True'}] or [{'N': 'False'}]: the test for [int] comes first,
    so the [BOOL] branch is never taken. *)
Theorem properties_of_record data_version now feature_index feature item props :
  build_item data_version now feature_index feature = Ok item ->
  get feature (lit "properties") (VDict []) = Ok (VDict props) ->
  NoDup (keys props) ->
  (props = [] -> lookup (lit "Properties") (item_fields item) = None) /\
  (forall k v,
      lookup k props = Some v ->
      exists a,
        property_attr (replace_floats v) = Ok a /\
        map_field item (lit "Properties") k = Some a) /\
  (forall k,
      lookup k props = None ->
      map_field item (lit "Properties") k = None) /\
  (forall k b,
      lookup k props = Some (VBool b) ->
      map_field item (lit "Properties") k
      = Some (attr_N (lit (if b then "True" else "False")))).
Proof.
  intros H Hprops Hnd.
  destruct (build_item_stages _ _ _ _ _ H)
    as (ids & geo & item1 & priority & item2 & item3 & item4 & item5 & hash
        & Hids & Hgeo & E1 & Hp & E2 & E3 & E4 & E5 & Hh & Hitem).
  destruct (resolve_identifiers_keys _ _ _ Hids) as [_ [_ [Hget _]]].
  rewrite Hprops in Hget. injection Hget as Hget. rewrite <- Hget in E5.
  assert (Hfield : lookup (lit "Properties") (item_fields item)
                   = lookup (lit "Properties") item5).
  { rewrite Hitem, lookup_store. literal_keys. reflexivity. }
  assert (Hbefore : lookup (lit "Properties")
                      (store (lit "iOSRenderingHints") (rendering_hints priority) item4)
                    = None).
  { rewrite lookup_store. literal_keys.
    apply add_detail_tiers_assigned in E4.
    rewrite (assigned_lookup _ _ _ (lit "Properties") E4 eq_refl).
    rewrite lookup_store. literal_keys.
    apply add_geometry_assigned in E3.
    rewrite (assigned_lookup _ _ _ (lit "Properties") E3 eq_refl).
    apply add_bounds_assigned in E2.
    rewrite (assigned_lookup _ _ _ (lit "Properties") E2 eq_refl).
    rewrite lookup_store. literal_keys.
    apply add_centroid_assigned in E1.
    rewrite (assigned_lookup _ _ _ (lit "Properties") E1 eq_refl).
    reflexivity. }
  unfold add_properties in E5.
  destruct props as [|kv props'].
  - cbn [truthy List.length Nat.eqb negb] in E5. injection E5 as <-.
    split; [intros _; rewrite Hfield; exact Hbefore|].
    split; [intros k v Hk; discriminate Hk|].
    split; [|intros k b Hk; discriminate Hk].
    intros k _. unfold map_field. rewrite Hfield, Hbefore. reflexivity.
  - set (props := kv :: props') in *.
    change (truthy (VDict props)) with true in E5. cbv iota in E5.
    cbn [replace_floats] in E5.
    destruct (properties_map _ []) as [m|] eqn:Em; cbn [bind] in E5; [|discriminate E5].
    injection E5 as <-.
    assert (Hm : forall k, map_field item (lit "Properties") k = lookup k m).
    { intros k. unfold map_field. rewrite Hfield, lookup_store, pystr_eqb_refl.
      reflexivity. }
    pose proof (properties_map_lookup _ [] m
                  ltac:(rewrite keys_map_values; exact Hnd) Em) as L.
    assert (Hsome : forall k v,
               lookup k props = Some v ->
               exists a, property_attr (replace_floats v) = Ok a /\
                         map_field item (lit "Properties") k = Some a).
    { intros k v Hk. specialize (L k). rewrite lookup_map_values, Hk in L.
      cbn [option_map] in L. destruct L as [La Ln]. rewrite Hm.
      destruct (lookup k m) as [a|]; [|congruence].
      exists a. split; [exact La | reflexivity]. }
    split; [discriminate|]. split; [exact Hsome|]. split.
    + intros k Hk. specialize (L k). rewrite lookup_map_values, Hk in L.
      cbn [option_map] in L. rewrite Hm, L. reflexivity.
    + intros k b Hk. destruct (Hsome k _ Hk) as [a [Ha Hf]].
      rewrite Hf. cbn in Ha. injection Ha as <-. destruct b; reflexivity.
Qed.

(** X15. A feature whose [properties] member is null makes the loop body
    raise [AttributeError]; a feature whose [geometry] member is null never
    makes a record (the test ['type' in geometry] raises if nothing did
    before). *)
Theorem null_members_not_built data_version now feature_index
  (fields : list (pystr * pyval)) :
  (lookup (lit "properties") fields = Some VNone ->
   build_item data_version now feature_index (VDict fields) = Raise AttributeError)
  /\
  (lookup (lit "geometry") fields = Some VNone ->
   exists e, build_item data_version now feature_index (VDict fields) = Raise e).
Proof.
  split.
  - intros Hp. unfold build_item, resolve_identifiers. cbn [get bind].
    rewrite Hp. reflexivity.
  - intros Hg.
    destruct (build_item data_version now feature_index (VDict fields))
      as [item|e] eqn:H; [exfalso | exists e; reflexivity].
    destruct (build_item_stages _ _ _ _ _ H)
      as (ids & geo & item1 & priority & item2 & item3 & item4 & item5 & hash
          & Hids & Hgeo & E1 & Hp & E2 & E3 & E4 & E5 & Hh & Hitem).
    destruct (derive_geometry_inv _ _ Hgeo) as (raw & given & Hraw & Hgeom & _).
    cbn [get] in Hraw. rewrite Hg in Hraw. injection Hraw as <-.
    rewrite Hgeom in E3. discriminate E3.
Qed.

End RecordFacts.

Lemma zoom_range_with_bounds_witness :
  lookup (lit "MaxZoom")
    (item_fields (built (build_item (rt := sample_runtime) 1735689600
                           (sample_clock 0) 0 triangle_feature)))
  = Some (attr_N (lit "16")).
Proof.
  destruct (zoom_range_with_bounds (rt := sample_runtime) 1735689600
              (sample_clock 0) 0 triangle_feature
              (built (build_item (rt := sample_runtime) 1735689600
                        (sample_clock 0) 0 triangle_feature))
              ltac:(vm_compute; reflexivity))
    as [geo [Hgeo [[Hb _]|[_ (bnd & mbr & z & _ & _ & _ & _ & Hmax)]]]].
  - vm_compute in Hgeo. injection Hgeo as <-. vm_compute in Hb. discriminate Hb.
  - exact Hmax.
Defined.

Lemma z_index_is_display_priority_witness :
  exists priority,
    1 <= priority <= 10 /\
    lookup (lit "DisplayPriority")
      (item_fields (built (build_item (rt := sample_runtime) 1735689600
                             (sample_clock 0) 0 feature_25000)))
    = Some (attr_N (str_of_int priority)) /\
    map_field (built (build_item (rt := sample_runtime) 1735689600
                        (sample_clock 0) 0 feature_25000))
      (lit "iOSRenderingHints") (lit "ZIndex")
    = Some (attr_N (str_of_int priority)).
Proof.
  apply (z_index_is_display_priority (rt := sample_runtime) 1735689600
           (sample_clock 0) 0 feature_25000).
  vm_compute. reflexivity.
Defined.


Lemma properties_of_record_witness :
  map_field (built (build_item (rt := sample_runtime) 1735689600
                      (sample_clock 0) 0 triangle_feature))
    (lit "Properties") (lit "coastal")
  = Some (attr_N (lit "True")).
Proof.
  apply (proj2 (proj2 (proj2
           (properties_of_record (rt := sample_runtime) 1735689600
              (sample_clock 0) 0 triangle_feature _
              [(lit "ahupuaa", VStr (lit "Waikiki")); (lit "coastal", VBool true)]
              ltac:(vm_compute; reflexivity) ltac:(vm_compute; reflexivity)
              ltac:(repeat constructor; simpl; intuition discriminate))))
           (lit "coastal") true).
  vm_compute. reflexivity.
Defined.

Lemma null_members_not_built_witness :
  build_item (rt := sample_runtime) 1735689600 (sample_clock 0) 0
    null_properties_feature = Raise AttributeError.
Proof.
  apply (proj1 (null_members_not_built (rt := sample_runtime) 1735689600
                  (sample_clock 0) 0 _)).
  vm_compute. reflexivity.
Defined.


(** ** Keys by position, and geometries without a shape *)

Lemma lit_inj (a b : string) : lit a = lit b -> a = b.
Proof.
  unfold lit. intros H.
  rewrite <- (string_of_list_ascii_of_string a), <- (string_of_list_ascii_of_string b).
  f_equal. revert H.
  generalize (list_ascii_of_string a) (list_ascii_of_string b).
  induction l as [|x l IH]; intros [|y l'] H; try discriminate; [reflexivity|].
  cbn [List.map] in H. injection H as Hx Hl.
  f_equal; [|apply IH; exact Hl].
  rewrite <- (ascii_N_embedding x), <- (ascii_N_embedding y), Hx. reflexivity.
Qed.

(** Distinct integers have distinct numerals. *)
Lemma str_of_int_inj (a b : Z) : str_of_int a = str_of_int b -> a = b.
Proof.
  unfold str_of_int. intros H. apply lit_inj in H.
  assert (Hn : forall z, Z.to_int z <> Decimal.Pos Decimal.Nil
                         /\ Z.to_int z <> Decimal.Neg Decimal.Nil).
  { intros z. pose proof (DecimalZ.to_of (Z.to_int z)) as T.
    rewrite DecimalZ.of_to in T.
    split; intros E; rewrite E in T; discriminate T. }
  apply DecimalZ.to_int_inj.
  assert (S : Some (Z.to_int a) = Some (Z.to_int b)).
  { rewrite <- (NilZero.isi (Z.to_int a)) by apply Hn.
    rewrite <- (NilZero.isi (Z.to_int b)) by apply Hn.
    rewrite H. reflexivity. }
  injection S as S. exact S.
Qed.

Section KeyFacts.
Context {rt : Runtime}.

Lemma positional_key data_version now feature_index fields item props :
  build_item data_version now feature_index (VDict fields) = Ok item ->
  lookup (lit "id") fields = None ->
  lookup (lit "properties") fields = Some (VDict props) ->
  lookup (lit "objectid") props = None ->
  lookup (lit "AhupuaaPK") (item_fields item)
  = Some (attr_S (VStr (lit "AHUPUAA#" ++ str_of_int (Z.of_nat feature_index)))).
Proof.
  intros H Hid Hprops Hobj.
  destruct (build_item_inv _ _ _ _ _ H)
    as [ids [geo [priority [hash [Hids [_ [_ [_ [Ha _]]]]]]]]].
  rewrite (initial_lookup _ _ _ (lit "AhupuaaPK") Ha eq_refl).
  unfold resolve_identifiers in Hids. cbn [get bind] in Hids.
  rewrite Hprops in Hids. cbn [get bind] in Hids.
  rewrite Hobj, Hid in Hids. cbv zeta in Hids. cbn [bind str] in Hids.
  destruct (format_hierarchical_key _ _) as [sk|]; cbn [bind] in Hids;
    [|discriminate Hids].
  injection Hids as <-. reflexivity.
Qed.

(** X16. A feature without [id] whose properties have no [objectid] gets
    the key [AHUPUAA#<position>], its position in the document: two such
    features at different positions get different keys. *)
Theorem positional_keys_differ data_version now now' (i j : nat)
  fields fields' item item' props props' :
  build_item data_version now i (VDict fields) = Ok item ->
  build_item data_version now' j (VDict fields') = Ok item' ->
  lookup (lit "id") fields = None ->
  lookup (lit "id") fields' = None ->
  lookup (lit "properties") fields = Some (VDict props) ->
  lookup (lit "properties") fields' = Some (VDict props') ->
  lookup (lit "objectid") props = None ->
  lookup (lit "objectid") props' = None ->
  lookup (lit "AhupuaaPK") (item_fields item)
  = Some (attr_S (VStr (lit "AHUPUAA#" ++ str_of_int (Z.of_nat i)))) /\
  (i <> j ->
   lookup (lit "AhupuaaPK") (item_fields item)
   <> lookup (lit "AhupuaaPK") (item_fields item')).
Proof.
  intros H H' Hid Hid' Hp Hp' Ho Ho'.
  rewrite (positional_key _ _ _ _ _ _ H Hid Hp Ho).
  rewrite (positional_key _ _ _ _ _ _ H' Hid' Hp' Ho').
  split; [reflexivity|].
  intros Hij E. apply Hij. injection E as E.
  try apply app_inv_head in E. apply str_of_int_inj in E. lia.
Qed.

(** X17. The centroid estimate and the bounds extraction return [None] for
    a geometry without [type], with a type that is not handled, or with a
    polygon without [coordinates]; a polygon whose exterior ring is empty
    makes the centroid estimate raise [ZeroDivisionError] and the bounds
    extraction raise [ValueError], which their [except] clauses let
    through. *)
Theorem geometry_without_shape :
  (forall d,
      lookup (lit "type") d = None ->
      guess_centroid_from_geometry (VDict d) = Ok VNone /\
      extract_bounds_from_geometry (VDict d) = Ok VNone)
  /\
  (forall d ty,
      lookup (lit "type") d = Some ty ->
      eq_str ty (lit "Polygon") = false ->
      extract_bounds_from_geometry (VDict d) = Ok VNone /\
      (eq_str ty (lit "Point") = false ->
       guess_centroid_from_geometry (VDict d) = Ok VNone))
  /\
  (forall d,
      lookup (lit "type") d = Some (VStr (lit "Polygon")) ->
      lookup (lit "coordinates") d = None ->
      guess_centroid_from_geometry (VDict d) = Ok VNone /\
      extract_bounds_from_geometry (VDict d) = Ok VNone)
  /\
  (forall d rings,
      lookup (lit "type") d = Some (VStr (lit "Polygon")) ->
      lookup (lit "coordinates") d = Some (VList (VList [] :: rings)) ->
      guess_centroid_from_geometry (VDict d) = Raise ZeroDivisionError /\
      extract_bounds_from_geometry (VDict d) = Raise ValueError).
Proof.
  split; [|split; [|split]].
  - intros d Ht. unfold guess_centroid_from_geometry, extract_bounds_from_geometry.
    cbn [getitem]. rewrite Ht. split; reflexivity.
  - intros d ty Ht Hp. unfold guess_centroid_from_geometry, extract_bounds_from_geometry.
    cbn [getitem]. rewrite Ht. cbn [bind]. rewrite Hp.
    split; [reflexivity|]. intros Hq. rewrite Hq. reflexivity.
  - intros d Ht Hc. unfold guess_centroid_from_geometry, extract_bounds_from_geometry.
    cbn [getitem]. rewrite Ht. cbn [bind].
    change (eq_str (VStr (lit "Polygon")) (lit "Polygon")) with true. cbv iota.
    rewrite Hc. split; reflexivity.
  - intros d rings Ht Hc.
    unfold guess_centroid_from_geometry, extract_bounds_from_geometry.
    cbn [getitem]. rewrite Ht. cbn [bind].
    change (eq_str (VStr (lit "Polygon")) (lit "Polygon")) with true. cbv iota.
    rewrite Hc. split; reflexivity.
Qed.

End KeyFacts.

Lemma positional_keys_differ_witness :
  lookup (lit "AhupuaaPK")
    (item_fields (built (build_item (rt := sample_runtime) 1735689600
                           (sample_clock 0) 0 (VDict plain_fields))))
  <> lookup (lit "AhupuaaPK")
       (item_fields (built (build_item (rt := sample_runtime) 1735689600
                              (sample_clock 1) 1 (VDict plain_fields)))).
Proof.
  apply (proj2 (positional_keys_differ (rt := sample_runtime) 1735689600
                  (sample_clock 0) (sample_clock 1) 0 1 plain_fields plain_fields
                  _ _ [] []
                  ltac:(vm_compute; reflexivity) ltac:(vm_compute; reflexivity)
                  eq_refl eq_refl eq_refl eq_refl eq_refl eq_refl)).
  lia.
Defined.
